(** * ge-track: the suggestion engine and the purchase-window accountants

    A shallow embedding of [suggest.py], [limits.py] and
    [flipper2_adapter.py].  Python integers are [Z]; Python floats are
    IEEE-754 binary64 values, modelled by the Standard Library's
    executable specification [SpecFloat] at precision 53 and maximal
    exponent 1024 (round to nearest, ties to even); dictionaries are
    stdpp's [gmap]; exceptions are an explicit result type; the wall clock
    is a sequence of samples read through a small state monad. *)

From Stdlib Require Import ZArith Bool Lia.
From Stdlib Require Import Floats.SpecFloat.
From stdpp Require Import base option list sorting lexico gmap strings pretty.

Local Open Scope Z_scope.

(** ** Exceptions *)

Inductive pyexn :=
  | OverflowError | ValueError | ZeroDivisionError
  | TypeError | AttributeError | FileNotFoundError.

Inductive res (A : Type) : Type :=
  | Ret (a : A)
  | Raise (e : pyexn).
Arguments Ret {A} a.
Arguments Raise {A} e.

#[global] Instance res_ret : MRet res := @Ret.
#[global] Instance res_bind : MBind res := fun A B f m =>
  match m with Ret a => f a | Raise e => Raise e end.

(** ** Python floats: IEEE binary64 *)

Module Float.

Abbreviation float := spec_float.

Definition prec : Z := 53.
Definition emax : Z := 1024.

Definition mul : float -> float -> float := SFmul prec emax.
Definition add : float -> float -> float := SFadd prec emax.
Definition ltb : float -> float -> bool := SFltb.
Definition leb : float -> float -> bool := SFleb.
Definition eqb : float -> float -> bool := SFeqb.

Definition is_nan (x : float) : bool :=
  match x with S754_nan => true | _ => false end.

Definition is_zero (x : float) : bool :=
  match x with S754_zero _ => true | _ => false end.

(** The literals of the source. *)
Definition zero : float := S754_zero false.                      (* 0.0 *)
Definition one : float := S754_finite false 4503599627370496 (-52).   (* 1.0 *)
Definition quarter : float := S754_finite false 4503599627370496 (-54). (* 0.25 *)
Definition sixty : float := S754_finite false 8444249301319680 (-47).   (* 60.0 *)
Definition two_percent : float := S754_finite false 5764607523034235 (-58). (* 0.02 *)

(** [float(n)] for a Python integer: correctly rounded, [OverflowError]
    when the rounded value is not finite. *)
Definition of_int (n : Z) : res float :=
  match binary_normalize prec emax n 0 false with
  | S754_infinity _ => Raise OverflowError
  | f => Ret f
  end.

(** [int(x)]: truncation toward zero; [ValueError] on NaN and
    [OverflowError] on an infinity. *)
Definition to_int (x : float) : res Z :=
  match x with
  | S754_nan => Raise ValueError
  | S754_infinity _ => Raise OverflowError
  | S754_zero _ => Ret 0
  | S754_finite s m e =>
      Ret (cond_Zopp s
             (match e with
              | Zneg p => Z.pos m / 2 ^ Z.pos p
              | _ => Z.pos m * 2 ^ e
              end))
  end.

(** [x / y] on floats: [ZeroDivisionError] on a zero divisor. *)
Definition div (x y : float) : res float :=
  if is_zero y then Raise ZeroDivisionError else Ret (SFdiv prec emax x y).

(** [a / b] on integers (true division): the correctly rounded quotient
    of the two integers, [OverflowError] when it is not finite. *)
Definition int_truediv (a b : Z) : res float :=
  match b with
  | 0 => Raise ZeroDivisionError
  | _ =>
      match a with
      | 0 => Ret (S754_zero (b <? 0))
      | _ =>
          match SFdiv prec emax
                  (S754_finite (a <? 0) (Z.to_pos (Z.abs a)) 0)
                  (S754_finite (b <? 0) (Z.to_pos (Z.abs b)) 0) with
          | S754_infinity _ => Raise OverflowError
          | f => Ret f
          end
      end
  end.

(** Comparison of a float with an integer is exact in Python. *)
Definition compare_int (x : float) (n : Z) : option comparison :=
  match x with
  | S754_nan => None
  | S754_infinity s => Some (if s then Lt else Gt)
  | S754_zero _ => Some (0 ?= n)
  | S754_finite s m e =>
      Some (match e with
            | Zneg p => cond_Zopp s (Z.pos m) ?= n * 2 ^ Z.pos p
            | _ => cond_Zopp s (Z.pos m * 2 ^ e) ?= n
            end)
  end.

(** [x <= n] and [n <= x] and [x > n] for a float [x] and an integer [n]. *)
Definition le_int (x : float) (n : Z) : bool :=
  match compare_int x n with Some (Lt | Eq) => true | _ => false end.
Definition int_le (n : Z) (x : float) : bool :=
  match compare_int x n with Some (Gt | Eq) => true | _ => false end.
Definition gt_int (x : float) (n : Z) : bool :=
  match compare_int x n with Some Gt => true | _ => false end.

(** [min(a, b)] and [max(a, b)] of the builtins: the first argument is
    kept unless the second is strictly smaller (greater). *)
Definition py_min (a b : float) : float := if ltb b a then b else a.
Definition py_max (a b : float) : float := if ltb a b then b else a.

(** Truthiness of a float: every value but the zeros. *)
Definition truthy (x : float) : bool := negb (is_zero x).

End Float.

Export Float(float).

(** Mixed arithmetic: the integer operand is converted first. *)
Definition int_mul_float (n : Z) (x : float) : res float :=
  y ← Float.of_int n; mret (Float.mul y x).
Definition float_mul_int (x : float) (n : Z) : res float :=
  y ← Float.of_int n; mret (Float.mul x y).
Definition int_div_float (n : Z) (x : float) : res float :=
  y ← Float.of_int n; Float.div y x.

(** ** The wall clock

    [int(time.time())] is the only effect of the engine.  A clock is the
    sequence of the samples it returns; a computation threads the number
    of samples taken so far. *)

Definition clock : Type := nat → Z.

Definition M (A : Type) : Type := clock → nat → res (A * nat).

#[global] Instance M_ret : MRet M := fun A a _ n => Ret (a, n).
#[global] Instance M_bind : MBind M := fun A B f m c n =>
  match m c n with
  | Ret (a, n') => f a c n'
  | Raise e => Raise e
  end.

Definition lift {A} (r : res A) : M A := fun _ n =>
  match r with Ret a => Ret (a, n) | Raise e => Raise e end.

(** [int(time.time())] *)
Definition time_now : M Z := fun c n => Ret (c n, S n).

(** ** Data model *)

(** A feed entry: a JSON object whose values are integers or null. *)
Abbreviation entry := (gmap string (option Z)).
Abbreviation feed := (gmap Z entry).

(** [d.get(k)]: [None] for a missing key and for a null value. *)
Definition get (d : entry) (k : string) : option Z := d !! k ≫= id.

(** [int(d.get(k) or 0)] *)
Definition get_or_0 (d : entry) (k : string) : Z := default 0 (get d k).

(** An optional entry seen through [if x:]: [None] and the empty dict are
    false, any other dict is itself. *)
Definition truthy_entry (o : option entry) : option entry :=
  match o with
  | Some d => if bool_decide (d = ∅) then None else Some d
  | None => None
  end.

(** [ge_api.WikiItem] *)
Module WikiItem.
Record t := {
  item_id : Z;
  name : string;
  buy_limit : option Z;
  members : option bool;
}.
End WikiItem.

Abbreviation WikiItemMapping := (gmap Z WikiItem.t).

Record Suggestion := {
  item_id : Z;
  item_name : string;
  buy_limit : option Z;
  buy_price_gp : Z;
  sell_price_gp : Z;
  unit_profit_gp : Z;
  unit_roi : float;
  quantity : Z;
  total_profit_gp : Z;
  hourly_volume : Z;
  expected_fill_hours : float;
  profit_per_hour_gp : float;
  official_ge_price : option Z;
  buy_hourly_volume : Z;
  sell_hourly_volume : Z;
  buy_fill_hours : float;
  sell_fill_hours : float;
  remaining_limit : option Z;
}.

Definition GE_TAX_RATE : float := Float.two_percent.
Definition GE_TAX_CAP : Z := 5000000.

(** ** suggest.py *)

(** [max(0.0, min(1.0, x))] *)
Definition clamp01 (x : float) : float :=
  Float.py_max Float.zero (Float.py_min Float.one x).

(** [int(n * x)] for an integer [n] and a float [x]. *)
Definition int_of_scaled (n : Z) (x : float) : res Z :=
  int_mul_float n x ≫= Float.to_int.

(** [int(spread * 0.25 * x)], the products taken from left to right. *)
Definition int_of_quarter (spread : Z) (x : float) : res Z :=
  y ← int_mul_float spread Float.quarter; Float.to_int (Float.mul y x).

Definition _adjust_prices_for_aggressiveness
    (base_buy base_sell : Z) (aggressiveness : float) : res (Z * Z) :=
  if (base_buy <=? 0) || (base_sell <=? 0) || (base_sell <=? base_buy) then
    mret (base_buy, base_sell)
  else
    let spread := base_sell - base_buy in
    buy_adjust ← int_of_quarter spread (clamp01 aggressiveness);
    sell_adjust ← int_of_quarter spread (clamp01 aggressiveness);
    let adj_buy := base_buy + buy_adjust in
    let adj_sell := base_sell - sell_adjust in
    if adj_sell <=? adj_buy then mret (base_buy, base_sell)
    else mret (adj_buy, adj_sell).

Definition _compute_tax_per_unit (unit_sell_price : Z) : res Z :=
  t ← int_of_scaled unit_sell_price GE_TAX_RATE;
  mret (Z.min t GE_TAX_CAP).

(** [five_min.get(item_id) if five_min else None] *)
Definition five_min_get (five_min : option feed) (item_id : Z) : option entry :=
  match five_min with
  | Some fm => if bool_decide (fm = ∅) then None else fm !! item_id
  | None => None
  end.

(** [int(lh.get(k) or 0) if lh else 0] *)
Definition vol_of (lh : option entry) (k : string) : Z :=
  match truthy_entry lh with
  | Some d => get_or_0 d k
  | None => 0
  end.

(** The tuple built from an averaged entry [d] (prices) and the one-hour
    entry [lh] (volumes). *)
Definition averages (d : entry) (lh : option entry) : Z * Z * Z * Z :=
  (get_or_0 d "avgLowPrice", get_or_0 d "avgHighPrice",
   vol_of lh "lowPriceVolume", vol_of lh "highPriceVolume").

(** The tuple built from the latest entry [d] (prices) and the one-hour
    entry [lh] (volumes). *)
Definition lasts (d : entry) (lh : option entry) : Z * Z * Z * Z :=
  (get_or_0 d "low", get_or_0 d "high",
   vol_of lh "lowPriceVolume", vol_of lh "highPriceVolume").

Definition _choose_prices_for_item (item_id : Z)
    (latest one_hour : feed) (five_min : option feed)
    (price_source : string) (latest_max_age_min : float)
  : M (option (Z * Z * Z * Z)) :=
  let lh := one_hour !! item_id in
  let lt := latest !! item_id in
  let fm := five_min_get five_min item_id in
  if String.eqb price_source "1h" then
    match truthy_entry lh with
    | None => mret None
    | Some d => mret (Some (averages d lh))
    end
  else if String.eqb price_source "latest" then
    match truthy_entry lt with
    | None => mret None
    | Some d => mret (Some (lasts d lh))
    end
  else
    (* hybrid: the two last statements of the function *)
    let fallback : M (option (Z * Z * Z * Z)) :=
      match truthy_entry fm with
      | Some d5 => mret (Some (averages d5 lh))
      | None =>
          match truthy_entry lh with
          | Some d => mret (Some (averages d lh))
          | None => mret None
          end
      end in
    match truthy_entry lt with
    | Some d =>
        match get d "highTime", get d "lowTime" with
        | Some highTime, Some lowTime =>
            now ← time_now;
            high_age_min ← lift (int_div_float (now - highTime) Float.sixty);
            low_age_min ← lift (int_div_float (now - lowTime) Float.sixty);
            if Float.leb high_age_min latest_max_age_min
               && Float.leb low_age_min latest_max_age_min
            then mret (Some (lasts d lh))
            else fallback
        | _, _ => fallback
        end
    | None => fallback
    end.

(** [isinstance(t, int) and (now - t) <= fresh_minutes * 60] *)
Definition within (now : Z) (t : option Z) (fresh_minutes : float) : res bool :=
  match t with
  | Some t => lim ← float_mul_int fresh_minutes 60;
              mret (Float.int_le (now - t) lim)
  | None => mret false
  end.

Definition _is_fresh_enough (lt_entry : option entry)
    (fresh_minutes : float) (policy : string) : M bool :=
  if negb (Float.truthy fresh_minutes) || Float.le_int fresh_minutes 0 then
    mret true
  else
    match truthy_entry lt_entry with
    | None => mret false
    | Some d =>
        let high_time := get d "highTime" in
        let low_time := get d "lowTime" in
        match high_time, low_time with
        | None, None => mret false
        | _, _ =>
            now ← time_now;
            high_ok ← lift (within now high_time fresh_minutes);
            low_ok ← lift (within now low_time fresh_minutes);
            mret (if String.eqb policy "any" then high_ok || low_ok
                  else high_ok && low_ok)
        end
    end.

(** The keyword arguments of [build_suggestions]; [five_min_data] is the
    module global [__five_min_data__] that the function looks up. *)
Record Args := {
  budget_gp : Z;
  mapping : WikiItemMapping;
  latest : feed;
  one_hour : feed;
  min_unit_roi : float;
  min_unit_profit_gp : Z;
  aggressiveness : float;
  liquidity_fraction : float;
  min_hourly_volume : Z;
  max_fill_hours : float;
  price_source : string;
  latest_max_age_min : float;
  fresh_minutes : float;
  fresh_policy : string;
  remaining_limits : option (gmap Z Z);
  top_n : Z;
  include_item_ids : option (list Z);
  five_min_data : option feed;
}.

(** [a // b] *)
Definition floordiv (a b : Z) : res Z :=
  if b =? 0 then Raise ZeroDivisionError else Ret (a / b).

(** [min(q, c)] when the optional cap [c] is present. *)
Definition cap_by (q : Z) (c : option Z) : Z :=
  match c with Some c => Z.min q c | None => q end.

(** [max(0, remaining_limits[item_id])] when the map is given, not empty
    and has the item. *)
Definition remaining_for (remaining_limits : option (gmap Z Z)) (item_id : Z)
  : option Z :=
  match remaining_limits with
  | Some m =>
      if bool_decide (m = ∅) then None
      else match m !! item_id with
           | Some r => Some (Z.max 0 r)
           | None => None
           end
  | None => None
  end.

(** Lines 161-246: the loop body of [build_suggestions] once the prices
    and volumes of the item are chosen.  [None] is [continue]. *)
Definition suggest_item (a : Args) (item_id : Z)
    (base_buy base_sell low_vol high_vol : Z) : res (option Suggestion) :=
  if (base_buy =? 0) || (base_sell =? 0) || (base_buy <=? 0) || (base_sell <=? 0)
  then mret None
  else if base_sell <=? base_buy then mret None
  else if Z.min low_vol high_vol <? Z.max 0 (min_hourly_volume a) then mret None
  else
    '(buy_price, sell_price) ←
       _adjust_prices_for_aggressiveness base_buy base_sell (aggressiveness a);
    buy_scaled ← int_of_scaled low_vol (clamp01 (liquidity_fraction a));
    let buy_capacity_per_hour := Z.max 1 buy_scaled in
    sell_scaled ← int_of_scaled high_vol (clamp01 (liquidity_fraction a));
    let sell_capacity_per_hour := Z.max 1 sell_scaled in
    let item := mapping a !! item_id in
    let buy_limit := item ≫= WikiItem.buy_limit in
    max_by_budget ← floordiv (budget_gp a) buy_price;
    if max_by_budget <=? 0 then mret None
    else
      let quantity := max_by_budget in
      let quantity := cap_by quantity buy_limit in
      let rem := remaining_for (remaining_limits a) item_id in
      let quantity := cap_by quantity rem in
      let quantity :=
        Z.min (Z.min quantity buy_capacity_per_hour) sell_capacity_per_hour in
      if quantity <=? 0 then mret None
      else
        max_qty_by_buy_time ←
          int_of_scaled low_vol (Float.py_max Float.zero (max_fill_hours a));
        max_qty_by_sell_time ←
          int_of_scaled high_vol (Float.py_max Float.zero (max_fill_hours a));
        if (max_qty_by_buy_time <=? 0) || (max_qty_by_sell_time <=? 0)
        then mret None
        else
          let quantity :=
            Z.min (Z.min quantity max_qty_by_buy_time) max_qty_by_sell_time in
          if quantity <=? 0 then mret None
          else
            unit_tax ← _compute_tax_per_unit sell_price;
            let total_sale_value := sell_price * quantity in
            let total_tax := unit_tax * quantity in
            let total_buy_cost := buy_price * quantity in
            let total_profit := (total_sale_value - total_tax) - total_buy_cost in
            unit_profit ← floordiv total_profit (Z.max 1 quantity);
            unit_roi ← Float.int_truediv unit_profit buy_price;
            if (unit_profit <? min_unit_profit_gp a)
               || Float.ltb unit_roi (min_unit_roi a)
            then mret None
            else
              buy_fill_hours ← Float.int_truediv quantity (Z.max 1 low_vol);
              sell_fill_hours ← Float.int_truediv quantity (Z.max 1 high_vol);
              let expected_fill_hours := Float.add buy_fill_hours sell_fill_hours in
              profit_per_hour ←
                (if Float.gt_int expected_fill_hours 0
                 then int_div_float total_profit expected_fill_hours
                 else Float.of_int total_profit);
              mret (Some {|
                item_id := item_id;
                item_name := match item with
                             | Some it => WikiItem.name it
                             | None => pretty item_id
                             end;
                buy_limit := buy_limit;
                buy_price_gp := buy_price;
                sell_price_gp := sell_price;
                unit_profit_gp := unit_profit;
                unit_roi := unit_roi;
                quantity := quantity;
                total_profit_gp := total_profit;
                hourly_volume := Z.min low_vol high_vol;
                expected_fill_hours := expected_fill_hours;
                profit_per_hour_gp := profit_per_hour;
                official_ge_price := None;
                buy_hourly_volume := low_vol;
                sell_hourly_volume := high_vol;
                buy_fill_hours := buy_fill_hours;
                sell_fill_hours := sell_fill_hours;
                remaining_limit := rem;
              |}).

(** Lines 145-246: the whole loop body for one item. *)
Definition build_suggestions_item (a : Args) (item_id : Z) : M (option Suggestion) :=
  fresh ← _is_fresh_enough (latest a !! item_id) (fresh_minutes a) (fresh_policy a);
  if negb fresh then mret None
  else
    chosen ← _choose_prices_for_item item_id (latest a) (one_hour a)
               (five_min_data a) (price_source a) (latest_max_age_min a);
    match chosen with
    | None => mret None
    | Some (base_buy, base_sell, low_vol, high_vol) =>
        lift (suggest_item a item_id base_buy base_sell low_vol high_vol)
    end.

(** The [for] loop, appending to [results]. *)
Fixpoint build_suggestions_loop (a : Args) (universe : list Z)
    (results : list Suggestion) : M (list Suggestion) :=
  match universe with
  | [] => mret results
  | item_id :: universe' =>
      s ← build_suggestions_item a item_id;
      build_suggestions_loop a universe'
        (match s with Some s => results ++ [s] | None => results end)
  end.

(** The sort key [(s.profit_per_hour_gp, s.total_profit_gp, s.unit_roi)]
    and the [<] of Python tuples on it: the first component that differs
    decides. *)
Definition sort_key (s : Suggestion) : float * Z * float :=
  (profit_per_hour_gp s, total_profit_gp s, unit_roi s).

Definition key_lt (k1 k2 : float * Z * float) : bool :=
  let '(p1, t1, r1) := k1 in
  let '(p2, t2, r2) := k2 in
  if negb (Float.eqb p1 p2) then Float.ltb p1 p2
  else if negb (t1 =? t2) then t1 <? t2
  else if negb (Float.eqb r1 r2) then Float.ltb r1 r2
  else false.

(** [results.sort(key=..., reverse=True)]: the sort is stable, also when
    reversed, so an element stays in front of a later one unless its key
    is strictly smaller.  On keys that are totally preordered this
    determines the result ([sort_desc_canonical] below); it is computed
    here by insertion. *)
Fixpoint insert_desc (x : Suggestion) (l : list Suggestion) : list Suggestion :=
  match l with
  | [] => [x]
  | y :: l' =>
      if key_lt (sort_key x) (sort_key y) then y :: insert_desc x l'
      else x :: l
  end.

Definition sort_desc (l : list Suggestion) : list Suggestion :=
  foldr insert_desc [] l.

(** [universe] is the order in which Python iterates the set
    [one_hour.keys() | latest.keys()]; the language leaves it open, so it
    is an argument here. *)
Definition is_universe (a : Args) (universe : list Z) : Prop :=
  NoDup universe ∧ ∀ i, i ∈ universe ↔ i ∈ dom (one_hour a) ∪ dom (latest a).

(** Lines 140-142: the universe kept when [include_item_ids] is given. *)
Definition restrict (include_item_ids : option (list Z)) (universe : list Z)
  : list Z :=
  match include_item_ids with
  | Some include_set => filter (fun iid => iid ∈ include_set) universe
  | None => universe
  end.

Definition build_suggestions (a : Args) (universe : list Z) : M (list Suggestion) :=
  let universe := restrict (include_item_ids a) universe in
  results ← build_suggestions_loop a universe [];
  mret (take (Z.to_nat (Z.max 1 (top_n a))) (sort_desc results)).

(** ** JSON values, as [json.load] returns them *)

Module Json.

#[warnings="-register-all"]
Inductive json :=
  | JNull
  | JBool (b : bool)
  | JInt (n : Z)
  | JFloat (x : float)
  | JStr (s : string)
  | JList (l : list json)
  | JDict (d : gmap string json).

(** Truthiness, as [or] and [if] test it. *)
Definition truthy (v : json) : bool :=
  match v with
  | JNull => false
  | JBool b => b
  | JInt n => negb (n =? 0)
  | JFloat x => Float.truthy x
  | JStr s => negb (String.eqb s "")
  | JList l => match l with [] => false | _ => true end
  | JDict d => match map_to_list d with [] => false | _ => true end
  end.

(** [a or b] *)
Definition or (a b : json) : json := if truthy a then a else b.

(** [d.get(k)] *)
Definition get (d : gmap string json) (k : string) : json :=
  default JNull (d !! k).

Section Conversions.
(** [int(s)] on a string: the parsed integer, or [None] for
    [ValueError]. *)
Variable int_of_str : string → option Z.

(** [int(v)] *)
Definition int (v : json) : res Z :=
  match v with
  | JNull => Raise TypeError
  | JBool b => Ret (if b then 1 else 0)
  | JInt n => Ret n
  | JFloat x => Float.to_int x
  | JStr s =>
      match int_of_str s with
      | Some n => Ret n
      | None => Raise ValueError
      end
  | JList _ | JDict _ => Raise TypeError
  end.

(** [int(v)] inside [try: ... except Exception:]. *)
Definition try_int (v : json) : option Z :=
  match int v with Ret n => Some n | Raise _ => None end.
End Conversions.

(** [s.lower()] on the ASCII letters; on UTF-8 text this decides
    membership in a tuple of ASCII words as Python's [lower] does. *)
Definition lower_ascii (c : Ascii.ascii) : Ascii.ascii :=
  let n := Ascii.nat_of_ascii c in
  if (65 <=? n)%nat && (n <=? 90)%nat then Ascii.ascii_of_nat (n + 32) else c.

Fixpoint lower (s : string) : string :=
  match s with
  | EmptyString => EmptyString
  | String c s' => String (lower_ascii c) (lower s')
  end.

End Json.

Export Json(json, JNull, JBool, JInt, JFloat, JStr, JList, JDict).

(** The remaining allowance of every item with a known limit:
    [max(0, int(limit) - used.get(item_id, 0))]. *)
Definition remaining_of (used : gmap Z Z) (buy_limits : gmap Z (option Z))
  : gmap Z Z :=
  map_imap (fun item_id limit =>
              (fun l => Z.max 0 (l - default 0 (used !! item_id))) <$> limit)
           buy_limits.

(** ** limits.py *)

Module Limits.

Definition FOUR_HOURS_SEC : Z := 4 * 60 * 60.

Record LimitEvent := {
  ts : Z;
  item_id : Z;
  type : string;
  qty : Z;
}.

Record LimitState := {
  events : list LimitEvent;
  version : Z;
}.

(** The files on disk, by path: the JSON document each one holds. *)
Abbreviation files := (gmap string json).

Section WithConversions.
Variable int_of_str : string → option Z.
(** [str(v)] on a value that is not a string. *)
Variable str_of : json → string.

(** [str(v)] *)
Definition str (v : json) : string :=
  match v with JStr s => s | _ => str_of v end.

(** The [try] block of [load_state]: [None] when it raises. *)
Definition parse_event (e : json) : option LimitEvent :=
  match e with
  | JDict d =>
      ts ← Json.try_int int_of_str (default (JInt 0) (d !! "ts"));
      item_id ← Json.try_int int_of_str (Json.get d "item_id");
      qty ← Json.try_int int_of_str (default (JInt 0) (d !! "qty"));
      Some {| ts := ts; item_id := item_id;
              type := str (Json.get d "type"); qty := qty |}
  | _ => None
  end.

(** [for e in events_raw]: a list gives its elements; the elements of a
    string or of a dict have no [get] and are all skipped; anything
    else cannot be iterated. *)
Definition iterate (events_raw : json) : res (list json) :=
  match events_raw with
  | JList l => Ret l
  | JStr _ | JDict _ => Ret []
  | _ => Raise TypeError
  end.

Definition load_state (fs : files) (path : string) : M LimitState :=
  if String.eqb path "" then mret {| events := []; version := 1 |}
  else
    match fs !! path with
    | None => mret {| events := []; version := 1 |}
    | Some (JDict data) =>
        events_raw ← lift (iterate (default (JList []) (data !! "events")));
        let events := omap parse_event events_raw in
        now ← time_now;
        let fresh_cutoff := now - 2 * FOUR_HOURS_SEC in
        let events := filter (fun e => fresh_cutoff ≤ ts e) events in
        version ← lift (Json.int int_of_str
                          (default (JInt 1) (data !! "version")));
        mret {| events := events; version := version |}
    | Some _ => lift (Raise AttributeError)
    end.

(** [e.__dict__] as JSON *)
Definition dump_event (e : LimitEvent) : json :=
  JDict {[ "ts" := JInt (ts e); "item_id" := JInt (item_id e);
           "type" := JStr (type e); "qty" := JInt (qty e) ]}.

Definition save_state (fs : files) (path : string) (state : LimitState)
  : res files :=
  if String.eqb path "" then Raise FileNotFoundError
  else
    Ret (<[path := JDict {[ "version" := JInt (version state);
                             "events" := JList (dump_event <$> events state) ]}]> fs).

Definition append_event (fs : files) (path : string)
    (item_id qty : Z) (type : string) (ts : option Z) : M files :=
  if negb (String.eqb type "buy" || String.eqb type "sell")
  then lift (Raise ValueError)
  else
    state ← load_state fs path;
    ts ← (match ts with Some t => mret t | None => time_now end);
    let state :=
      {| events := events state ++
                     [{| ts := ts; item_id := item_id; type := type; qty := qty |}];
         version := version state |} in
    lift (save_state fs path state).

(** The loop summing the buys in the window. *)
Definition count_event (cutoff : Z) (used : gmap Z Z) (e : LimitEvent)
  : gmap Z Z :=
  if negb (String.eqb (type e) "buy") then used
  else if ts e <? cutoff then used
  else <[item_id e := default 0 (used !! item_id e) + Z.max 0 (qty e)]> used.

Definition compute_remaining_limits (fs : files) (path : string)
    (buy_limits : gmap Z (option Z)) : M (gmap Z Z) :=
  state ← load_state fs path;
  now ← time_now;
  let cutoff := now - FOUR_HOURS_SEC in
  let used := foldl (count_event cutoff) ∅ (events state) in
  mret (remaining_of used buy_limits).
End WithConversions.

End Limits.

(** ** flipper2_adapter.py *)

Module Flipper2.

Definition FOUR_HOURS_SEC : Z := 4 * 60 * 60.

Section WithConversions.
Variable int_of_str : string → option Z.

(** [if t > 10**12: t //= 1000] *)
Definition scale (t : Z) : Z := if 10 ^ 12 <? t then t / 1000 else t.

Definition _normalize_ts (ts : json) : res Z :=
  match ts with
  | JNull => Ret 0
  | JBool _ | JInt _ | JFloat _ =>
      t ← Json.int int_of_str ts; mret (scale t)
  | _ =>
      match Json.try_int int_of_str ts with
      | Some t => Ret (scale t)
      | None => Ret 0
      end
  end.

(** The closure [add_entry]; it updates [used]. *)
Definition add_entry (cutoff : Z) (e : gmap string json) (used : gmap Z Z)
  : res (gmap Z Z) :=
  let item_id :=
    Json.or (Json.get e "itemId") (Json.or (Json.get e "id") (Json.get e "item")) in
  match item_id with
  | JNull => Ret used
  | _ =>
      match Json.try_int int_of_str item_id with
      | None => Ret used
      | Some item_id =>
          ts ← _normalize_ts
                 (Json.or (Json.get e "ts")
                 (Json.or (Json.get e "time")
                 (Json.or (Json.get e "timestamp")
                 (Json.or (Json.get e "createdAt") (Json.get e "createdTime")))));
          if ts <? cutoff then Ret used
          else
            let qty :=
              Json.or (Json.get e "quantity")
              (Json.or (Json.get e "qty")
              (Json.or (Json.get e "amount")
              (Json.or (Json.get e "tQIT") (JInt 0)))) in
            let qty := default 0 (Json.try_int int_of_str qty) in
            if 0 <? qty
            then Ret (<[item_id := default 0 (used !! item_id) + qty]> used)
            else Ret used
      end
  end.

(** The loop over the buys file. *)
Definition add_buy (cutoff : Z) (used : gmap Z Z) (e : json) : res (gmap Z Z) :=
  match e with
  | JDict d => add_entry cutoff d used
  | _ => Ret used
  end.

(** The loop over the flips file. *)
Definition add_flip (cutoff : Z) (used : gmap Z Z) (e : json) : res (gmap Z Z) :=
  match e with
  | JDict d =>
      let buy := match Json.get d "buy" with
                 | JDict b => if Json.truthy (JDict b) then Some b else None
                 | _ => None
                 end in
      match buy with
      | Some b => add_entry cutoff b used
      | None =>
          match Json.or (Json.get d "side") (Json.or (Json.get d "type") (JStr "")) with
          | JStr side =>
              let side := Json.lower side in
              if String.eqb side "buy" || String.eqb side "bought"
                 || String.eqb side "buying"
              then add_entry cutoff d used
              else Ret used
          | _ => Raise AttributeError
          end
      end
  | _ => Ret used
  end.

(** A [for] loop whose body may raise. *)
Fixpoint for_each {A S} (body : S → A → res S) (s : S) (l : list A) : res S :=
  match l with
  | [] => Ret s
  | x :: l' => s' ← body s x; for_each body s' l'
  end.

(** [dir] is [None] when [dir_path] is empty or not a directory;
    otherwise it holds what [_read_json_or_jsonl] returns for
    [flipper2-buys.json] and for [flipper2-flips.json]. *)
Definition compute_remaining_from_flipper2
    (dir : option (list json * list json))
    (buy_limits : gmap Z (option Z)) : M (gmap Z Z) :=
  match dir with
  | None => mret ∅
  | Some (buys, flips) =>
      now ← time_now;
      let cutoff := now - FOUR_HOURS_SEC in
      used ← lift (for_each (add_buy cutoff) ∅ buys);
      used ← lift (for_each (add_flip cutoff) used flips);
      mret (remaining_of used buy_limits)
  end.
End WithConversions.

End Flipper2.

(** *** Reading the logs

    What the file system shows of a log file to [_read_json_or_jsonl]:
    the path is missing or the file is empty; or [json.load] returns a
    document; or [json.load] raises and the file is read line by line,
    each line that is not blank giving what [json.loads] makes of it,
    [None] when it raises; or [json.load] raises and so does the reading
    of the lines. *)
Inductive log_file :=
  | Absent
  | Document (data : json)
  | Lines (objs : list (option json))
  | Unreadable.

Definition _read_json_or_jsonl (f : log_file) : list json :=
  match f with
  | Absent => []
  | Document (JList l) => l
  | Document (JDict d) => [JDict d]
  | Document _ => []
  | Lines objs =>
      omap (fun o => match o with
                     | Some (JDict d) => Some (JDict d)
                     | _ => None
                     end) objs
  | Unreadable => []
  end.

(** The two files [compute_remaining_from_flipper2] reads in a directory:
    [flipper2-buys.json] and [flipper2-flips.json]. *)
Definition read_logs (dir : option (log_file * log_file))
  : option (list json * list json) :=
  match dir with
  | Some (buys_file, flips_file) =>
      Some (_read_json_or_jsonl buys_file, _read_json_or_jsonl flips_file)
  | None => None
  end.

(** ** tui.py: the allowance map handed to the engine *)

(** [{iid: it.buy_limit for iid, it in mapping.items()}] *)
Definition buy_limits_of (mapping : WikiItemMapping) : gmap Z (option Z) :=
  WikiItem.buy_limit <$> mapping.

Section RemainingLimits.
Variable int_of_str : string → option Z.
Variable str_of : json → string.

(** Lines 168-182 of [main], and 230-238 at every tick.  [fl2_path] is
    the Flipper2 directory found, with what
    [compute_remaining_from_flipper2] then sees of it; [fu_path] tells
    whether a Flipping Utilities directory is found; [limits_file] is
    [~/.ge_track_limits.json]. *)
Definition tui_remaining_limits
    (fl2_path : option (option (list json * list json)))
    (fu_path : bool) (fs : Limits.files) (limits_file : string)
    (buy_limits : gmap Z (option Z)) : M (gmap Z Z) :=
  remaining_limits ←
    match fl2_path with
    | Some dir =>
        rl ← Flipper2.compute_remaining_from_flipper2 int_of_str dir buy_limits;
        mret (if bool_decide (rl = ∅) then None else Some rl)
    | None => mret None
    end;
  remaining_limits ←
    match remaining_limits with
    | None =>
        if fu_path then
          rl ← Limits.compute_remaining_limits int_of_str str_of fs limits_file
                 buy_limits;
          mret (Some rl)
        else mret None
    | Some rl => mret (Some rl)
    end;
  match remaining_limits with
  | None =>
      Limits.compute_remaining_limits int_of_str str_of fs limits_file buy_limits
  | Some rl => mret rl
  end.
End RemainingLimits.

(** ** Notions used to state the properties *)

(** [x] is not NaN and carries the sign [s]. *)
Definition signed (s : bool) (x : float) : Prop :=
  match x with
  | S754_zero s' | S754_infinity s' | S754_finite s' _ _ => s' = s
  | S754_nan => False
  end.

(** The place of a float in the order of [<]: a triple of integers
    compared lexicographically.  Both zeros share a code. *)
Definition code (x : float) : Z * Z * Z :=
  match x with
  | S754_infinity true => (-2, 0, 0)
  | S754_finite true m e => (-1, - e, Z.neg m)
  | S754_zero _ | S754_nan => (0, 0, 0)
  | S754_finite false m e => (1, e, Z.pos m)
  | S754_infinity false => (2, 0, 0)
  end.

Definition key_code (k : float * Z * float) : (Z * Z * Z) * Z * (Z * Z * Z) :=
  let '(p, t, r) := k in (code p, t, code r).

(** What the loop body has established when it appends [s] for the item
    [i] with the chosen prices and volumes. *)
Record emitted (a : Args) (i base_buy base_sell low_vol high_vol : Z)
    (s : Suggestion) : Prop := {
  em_prices : 0 < base_buy < base_sell;
  em_volume : Z.max 0 (min_hourly_volume a) ≤ Z.min low_vol high_vol;
  em_adjust :
    _adjust_prices_for_aggressiveness base_buy base_sell (aggressiveness a)
    = Ret (buy_price_gp s, sell_price_gp s);
  em_item : item_id s = i;
  em_limit : buy_limit s = mapping a !! i ≫= WikiItem.buy_limit;
  em_rem : remaining_limit s = remaining_for (remaining_limits a) i;
  em_low_vol : buy_hourly_volume s = low_vol;
  em_high_vol : sell_hourly_volume s = high_vol;
  em_quantity :
    ∃ buy_scaled sell_scaled by_buy_time by_sell_time,
      int_of_scaled low_vol (clamp01 (liquidity_fraction a)) = Ret buy_scaled ∧
      int_of_scaled high_vol (clamp01 (liquidity_fraction a)) = Ret sell_scaled ∧
      int_of_scaled low_vol (Float.py_max Float.zero (max_fill_hours a))
        = Ret by_buy_time ∧
      int_of_scaled high_vol (Float.py_max Float.zero (max_fill_hours a))
        = Ret by_sell_time ∧
      quantity s =
        Z.min (Z.min (Z.min (Z.min
          (cap_by (cap_by (budget_gp a / buy_price_gp s) (buy_limit s))
                  (remaining_limit s))
          (Z.max 1 buy_scaled)) (Z.max 1 sell_scaled))
          by_buy_time) by_sell_time;
  em_positive : 0 < quantity s;
  em_profit :
    ∃ unit_tax,
      _compute_tax_per_unit (sell_price_gp s) = Ret unit_tax ∧
      total_profit_gp s =
        sell_price_gp s * quantity s - unit_tax * quantity s
        - buy_price_gp s * quantity s;
  em_unit_profit :
    unit_profit_gp s = total_profit_gp s / Z.max 1 (quantity s);
  em_roi :
    Float.int_truediv (unit_profit_gp s) (buy_price_gp s) = Ret (unit_roi s);
  em_profit_floor : min_unit_profit_gp a ≤ unit_profit_gp s;
  em_roi_floor : Float.ltb (unit_roi s) (min_unit_roi a) = false;
  em_buy_fill :
    Float.int_truediv (quantity s) (Z.max 1 low_vol) = Ret (buy_fill_hours s);
  em_sell_fill :
    Float.int_truediv (quantity s) (Z.max 1 high_vol) = Ret (sell_fill_hours s);
  em_fill :
    expected_fill_hours s = Float.add (buy_fill_hours s) (sell_fill_hours s);
  em_rate :
    (if Float.gt_int (expected_fill_hours s) 0
     then int_div_float (total_profit_gp s) (expected_fill_hours s)
     else Float.of_int (total_profit_gp s)) = Ret (profit_per_hour_gp s);
}.

(** The constraints every suggestion is to satisfy, the ROI floor apart. *)
Definition within_constraints (a : Args) (s : Suggestion) : Prop :=
  buy_price_gp s < sell_price_gp s ∧
  1 ≤ quantity s ∧
  min_unit_profit_gp a ≤ unit_profit_gp s ∧
  quantity s * buy_price_gp s ≤ budget_gp a ∧
  (∀ cap, mapping a !! item_id s ≫= WikiItem.buy_limit = Some cap →
          quantity s ≤ cap) ∧
  (∀ m r, remaining_limits a = Some m → m !! item_id s = Some r →
          quantity s ≤ r).

(** [s.unit_roi >= min_unit_roi] *)
Definition meets_roi_floor (a : Args) (s : Suggestion) : Prop :=
  Float.leb (min_unit_roi a) (unit_roi s) = true.

(** The float [10.0]. *)
Definition ten : float := S754_finite false 5629499534213120 (-49).

(** The end-to-end scenario: one item with purchase cap 50, last buy 100
    and last sell 120 both stamped [now], volumes 1000 and 1000, budget
    10000.  What the scenario leaves open is a parameter. *)
Definition stamped (now : Z) : entry :=
  {[ "low" := Some 100; "high" := Some 120;
     "lowTime" := Some now; "highTime" := Some now ]}.

Definition volumes : entry :=
  {[ "lowPriceVolume" := Some 1000; "highPriceVolume" := Some 1000 ]}.

Definition scenario (now : Z) (item_name price_source fresh_policy : string)
    (latest_max_age_min fresh_minutes min_unit_roi : float) (top_n : Z) : Args := {|
  budget_gp := 10000;
  mapping := {[ 1 := {| WikiItem.item_id := 1; WikiItem.name := item_name;
                        WikiItem.buy_limit := Some 50;
                        WikiItem.members := None |} ]};
  latest := {[ 1 := stamped now ]};
  one_hour := {[ 1 := volumes ]};
  min_unit_roi := min_unit_roi;
  min_unit_profit_gp := 0;
  aggressiveness := Float.zero;
  liquidity_fraction := Float.one;
  min_hourly_volume := 0;
  max_fill_hours := ten;
  price_source := price_source;
  latest_max_age_min := latest_max_age_min;
  fresh_minutes := fresh_minutes;
  fresh_policy := fresh_policy;
  remaining_limits := None;
  top_n := top_n;
  include_item_ids := None;
  five_min_data := None;
|}.

(** The suggestion expected in the scenario; 0.18, 0.05, 0.1 and 9000.0
    are written as binary64 values. *)
Definition scenario_suggestion (item_name : string) : Suggestion := {|
  item_id := 1;
  item_name := item_name;
  buy_limit := Some 50;
  buy_price_gp := 100;
  sell_price_gp := 120;
  unit_profit_gp := 18;
  unit_roi := S754_finite false 6485183463413514 (-55);
  quantity := 50;
  total_profit_gp := 900;
  hourly_volume := 1000;
  expected_fill_hours := S754_finite false 7205759403792794 (-56);
  profit_per_hour_gp := S754_finite false 4947802324992000 (-39);
  official_ge_price := None;
  buy_hourly_volume := 1000;
  sell_hourly_volume := 1000;
  buy_fill_hours := S754_finite false 7205759403792794 (-57);
  sell_fill_hours := S754_finite false 7205759403792794 (-57);
  remaining_limit := None;
|}.

(** The scenario with another liquidity fraction. *)
Definition with_liquidity_fraction (x : float) (a : Args) : Args := {|
  budget_gp := budget_gp a;
  mapping := mapping a;
  latest := latest a;
  one_hour := one_hour a;
  min_unit_roi := min_unit_roi a;
  min_unit_profit_gp := min_unit_profit_gp a;
  aggressiveness := aggressiveness a;
  liquidity_fraction := x;
  min_hourly_volume := min_hourly_volume a;
  max_fill_hours := max_fill_hours a;
  price_source := price_source a;
  latest_max_age_min := latest_max_age_min a;
  fresh_minutes := fresh_minutes a;
  fresh_policy := fresh_policy a;
  remaining_limits := remaining_limits a;
  top_n := top_n a;
  include_item_ids := include_item_ids a;
  five_min_data := five_min_data a;
|}.

(** No suggestion of the list is for the item [i]. *)
Definition excluded (i : Z) (out : list Suggestion) : Prop :=
  ∀ s, s ∈ out → item_id s ≠ i.

(** The quantity rule as the specification words it: a liquidity capacity
    [int(liquidity_fraction * volume)] that is zero or negative excludes
    the item. *)
Definition zero_capacity_excludes (a : Args) (i low_vol : Z)
    (out : list Suggestion) : Prop :=
  ∀ capacity, int_of_scaled low_vol (liquidity_fraction a) = Ret capacity →
              capacity ≤ 0 → excluded i out.

(** The hybrid policy as the specification words it, for the sample [now]
    of the clock: the latest record when it exists and both its timestamps
    are within the threshold (in minutes) of [now]; otherwise the one-hour
    record when present; otherwise none; the volumes from the one-hour
    record when available, zero otherwise.  A record is a dict that is not
    empty; an age is [(now - t) / 60.0]. *)
Definition age_minutes (now t : Z) : res float :=
  int_div_float (now - t) Float.sixty.

Definition spec_latest_is_fresh (now : Z) (lt : option entry)
    (threshold : float) : res bool :=
  match truthy_entry lt with
  | Some d =>
      match get d "highTime", get d "lowTime" with
      | Some sell_time, Some buy_time =>
          sell_age ← age_minutes now sell_time;
          buy_age ← age_minutes now buy_time;
          mret (Float.leb sell_age threshold && Float.leb buy_age threshold)
      | _, _ => mret false
      end
  | None => mret false
  end.

Definition spec_hybrid (now : Z) (lt lh : option entry) (threshold : float)
  : res (option (Z * Z * Z * Z)) :=
  let buy_volume :=
    match truthy_entry lh with Some h => get_or_0 h "lowPriceVolume" | None => 0 end in
  let sell_volume :=
    match truthy_entry lh with Some h => get_or_0 h "highPriceVolume" | None => 0 end in
  fresh ← spec_latest_is_fresh now lt threshold;
  match fresh, truthy_entry lt, truthy_entry lh with
  | true, Some d, _ =>
      mret (Some (get_or_0 d "low", get_or_0 d "high", buy_volume, sell_volume))
  | _, _, Some h =>
      mret (Some (get_or_0 h "avgLowPrice", get_or_0 h "avgHighPrice",
                  buy_volume, sell_volume))
  | _, _, None => mret None
  end.

(** An item known to the one-hour feed only, priced 100 and 120 there,
    under the pure one-hour policy. *)
Definition averaged : entry :=
  {[ "avgLowPrice" := Some 100; "avgHighPrice" := Some 120;
     "lowPriceVolume" := Some 1000; "highPriceVolume" := Some 1000 ]}.

Definition windowed_only (fresh_minutes : float) : Args := {|
  budget_gp := 10000;
  mapping := ∅;
  latest := ∅;
  one_hour := {[ 7 := averaged ]};
  min_unit_roi := Float.zero;
  min_unit_profit_gp := 0;
  aggressiveness := Float.zero;
  liquidity_fraction := Float.one;
  min_hourly_volume := 0;
  max_fill_hours := ten;
  price_source := "1h";
  latest_max_age_min := ten;
  fresh_minutes := fresh_minutes;
  fresh_policy := "any";
  remaining_limits := None;
  top_n := 10;
  include_item_ids := None;
  five_min_data := None;
|}.

(** The latest entry cannot pass the freshness filter: it is missing or
    empty, or has neither integer timestamp, or lacks one of them while
    the policy asks for both. *)
Definition lacks_stamps (policy : string) (lt : option entry) : Prop :=
  match truthy_entry lt with
  | None => True
  | Some d =>
      (get d "highTime" = None ∧ get d "lowTime" = None) ∨
      (policy ≠ "any" ∧ (get d "highTime" = None ∨ get d "lowTime" = None))
  end.

(** Two clocks agree on the next [k] samples, counted from [n1] for the
    first and from [n2] for the second. *)
Definition agree_on (k : nat) (c1 c2 : clock) (n1 n2 : nat) : Prop :=
  ∀ j, (j < k)%nat → c1 (n1 + j)%nat = c2 (n2 + j)%nat.

(** Two runs end alike: the same value after the same number of samples,
    at most [k], or the same exception. *)
Definition same_outcome {A} (k n1 n2 : nat) (r1 r2 : res (A * nat)) : Prop :=
  match r1, r2 with
  | Ret (x1, m1), Ret (x2, m2) =>
      x1 = x2 ∧ ∃ d, (d ≤ k)%nat ∧ m1 = (n1 + d)%nat ∧ m2 = (n2 + d)%nat
  | Raise e1, Raise e2 => e1 = e2
  | _, _ => False
  end.

(** A computation that depends on the clock through its next [k] samples
    at most. *)
Definition sampled {A} (k : nat) (m : M A) : Prop :=
  ∀ c1 c2 n1 n2, agree_on k c1 c2 n1 n2 →
                 same_outcome k n1 n2 (m c1 n1) (m c2 n2).

(** The result depends on the first sample of the clock only. *)
Definition single_sample (a : Args) (universe : list Z) : Prop :=
  ∀ c1 c2 : clock, c1 0%nat = c2 0%nat →
    build_suggestions a universe c1 0%nat = build_suggestions a universe c2 0%nat.

(** Two items, 1 and 9, with the same latest prices, both stamped [t],
    and the same volumes; no catalog. *)
Definition twins (t : Z) (price_source : string) : Args := {|
  budget_gp := 10000;
  mapping := ∅;
  latest := {[ 1 := stamped t; 9 := stamped t ]};
  one_hour := {[ 1 := volumes; 9 := volumes ]};
  min_unit_roi := Float.zero;
  min_unit_profit_gp := 0;
  aggressiveness := Float.zero;
  liquidity_fraction := Float.one;
  min_hourly_volume := 0;
  max_fill_hours := ten;
  price_source := price_source;
  latest_max_age_min := ten;
  fresh_minutes := ten;
  fresh_policy := "both";
  remaining_limits := None;
  top_n := 10;
  include_item_ids := None;
  five_min_data := None;
|}.

(** A clock that is at [t] for the first sample and one second later for
    every other. *)
Definition ticking (t : Z) : clock :=
  fun n => match n with O => t | S _ => t + 1 end.

(** Neither float of the sort key is NaN. *)
Definition no_nan_key (s : Suggestion) : Prop :=
  Float.is_nan (profit_per_hour_gp s) = false ∧
  Float.is_nan (unit_roi s) = false.

(** No element is followed, anywhere behind it, by one with a greater key. *)
Definition descending (l : list Suggestion) : Prop :=
  StronglySorted (fun x y => key_lt (sort_key x) (sort_key y) = false) l.

(** The suggestions whose three ranking keys have the place [k] in the
    order: they tie with one another. *)
Definition tied (k : (Z * Z * Z) * Z * (Z * Z * Z)) (s : Suggestion) : Prop :=
  key_code (sort_key s) = k.

#[global] Instance tied_dec k s : Decision (tied k s).
Proof. unfold tied. apply _. Defined.

(** The output does not depend on the order in which the items are
    iterated, under a clock held at [now]. *)
Definition order_independent (a : Args) (now : Z) : Prop :=
  ∀ u1 u2, is_universe a u1 → is_universe a u2 →
    build_suggestions a u1 (fun _ => now) 0%nat
    = build_suggestions a u2 (fun _ => now) 0%nat.

(** A run without its count of samples. *)
Definition erase {A} (r : res (A * nat)) : res A :=
  match r with Ret (x, _) => Ret x | Raise e => Raise e end.

(** What the loop appends for an item whose body ends in [r]. *)
Definition appended (r : res (option Suggestion)) : list Suggestion :=
  match r with Ret (Some s) => [s] | _ => [] end.

(** Neither float of a sort key is NaN. *)
Definition key_ok (k : float * Z * float) : Prop :=
  Float.is_nan k.1.1 = false ∧ Float.is_nan k.2 = false.

(** [m] is a millisecond form of the second-epoch timestamp [t]. *)
Definition ms_of (t m : Z) : Prop := t ≤ 10 ^ 12 ∧ 10 ^ 12 < m ∧ m / 1000 = t.

(** The keys under which [add_entry] looks for the timestamp. *)
Definition ts_keys : list string :=
  ["ts"; "time"; "timestamp"; "createdAt"; "createdTime"].

(** The second entry is the first with one timestamp given in
    milliseconds: its own, or that of its nested buy. *)
Inductive in_ms : json → json → Prop :=
  | in_ms_same e : in_ms e e
  | in_ms_own d k t m :
      k ∈ ts_keys → d !! k = Some (JInt t) → ms_of t m →
      in_ms (JDict d) (JDict (<[k := JInt m]> d))
  | in_ms_nested d b k t m :
      k ∈ ts_keys → d !! "buy" = Some (JDict b) → b !! k = Some (JInt t) →
      ms_of t m →
      in_ms (JDict d) (JDict (<["buy" := JDict (<[k := JInt m]> b)]> d)).

(** The timestamp [add_entry] arrives at. *)
Definition entry_ts (int_of_str : string → option Z) (e : gmap string json)
  : res Z :=
  Flipper2._normalize_ts int_of_str
    (Json.or (Json.get e "ts")
    (Json.or (Json.get e "time")
    (Json.or (Json.get e "timestamp")
    (Json.or (Json.get e "createdAt") (Json.get e "createdTime"))))).

(** Recording one buy of 30 units of item 5 with the timestamp [ts] in an
    empty local log, then computing the remaining limits for a cap of
    100 under a clock held at [now]. *)
Definition recorded_then_remaining (ts now : Z) : res (gmap Z Z) :=
  erase ((fs ← Limits.append_event (fun _ => None) (fun _ => "") ∅
                 "limits.json" 5 30 "buy" (Some ts);
          Limits.compute_remaining_limits (fun _ => None) (fun _ => "") fs
            "limits.json" {[ 5 := Some 100 ]}) (fun _ => now) 0%nat).

(** The local accountant gives the same map for the second form [t] and
    the millisecond form [m] of a timestamp. *)
Definition local_unit_blind (t m now : Z) : Prop :=
  recorded_then_remaining m now = recorded_then_remaining t now.

(** The pair [low], [high] is a quote of the item [i] that the price
    source allows: the last prices of the latest feed, the averages of the
    one-hour feed, or the averages of the five-minute feed. *)
Definition observed (a : Args) (i low high : Z) : Prop :=
  (price_source a ≠ "1h" ∧
   ∃ d, latest a !! i = Some d ∧
        low = get_or_0 d "low" ∧ high = get_or_0 d "high") ∨
  (price_source a ≠ "latest" ∧
   ∃ d, one_hour a !! i = Some d ∧
        low = get_or_0 d "avgLowPrice" ∧ high = get_or_0 d "avgHighPrice") ∨
  (price_source a ≠ "1h" ∧ price_source a ≠ "latest" ∧
   ∃ fm d, five_min_data a = Some fm ∧ fm !! i = Some d ∧
           low = get_or_0 d "avgLowPrice" ∧ high = get_or_0 d "avgHighPrice").

(** A computation that never reads the clock: its outcome is the same
    under every clock and it takes no sample. *)
Definition clock_free {A} (m : M A) : Prop :=
  ∃ r : res A, ∀ c n, m c n = lift r c n.

(** The arguments with another [top_n]. *)
Definition with_top_n (k : Z) (a : Args) : Args := {|
  budget_gp := budget_gp a;
  mapping := mapping a;
  latest := latest a;
  one_hour := one_hour a;
  min_unit_roi := min_unit_roi a;
  min_unit_profit_gp := min_unit_profit_gp a;
  aggressiveness := aggressiveness a;
  liquidity_fraction := liquidity_fraction a;
  min_hourly_volume := min_hourly_volume a;
  max_fill_hours := max_fill_hours a;
  price_source := price_source a;
  latest_max_age_min := latest_max_age_min a;
  fresh_minutes := fresh_minutes a;
  fresh_policy := fresh_policy a;
  remaining_limits := remaining_limits a;
  top_n := k;
  include_item_ids := include_item_ids a;
  five_min_data := five_min_data a;
|}.

(** The arguments with the remaining-allowance map [r]. *)
Definition with_remaining_limits (r : gmap Z Z) (a : Args) : Args := {|
  budget_gp := budget_gp a;
  mapping := mapping a;
  latest := latest a;
  one_hour := one_hour a;
  min_unit_roi := min_unit_roi a;
  min_unit_profit_gp := min_unit_profit_gp a;
  aggressiveness := aggressiveness a;
  liquidity_fraction := liquidity_fraction a;
  min_hourly_volume := min_hourly_volume a;
  max_fill_hours := max_fill_hours a;
  price_source := price_source a;
  latest_max_age_min := latest_max_age_min a;
  fresh_minutes := fresh_minutes a;
  fresh_policy := fresh_policy a;
  remaining_limits := Some r;
  top_n := top_n a;
  include_item_ids := include_item_ids a;
  five_min_data := five_min_data a;
|}.

(** A purchase that counts towards the window is an item with a number of
    units; [bump] adds one to the tally. *)
Definition bump (used : gmap Z Z) (p : Z * Z) : gmap Z Z :=
  <[p.1 := default 0 (used !! p.1) + p.2]> used.

(** The units of the item [i] in a list of purchases. *)
Definition units (i : Z) (ps : list (Z * Z)) : Z :=
  foldr (fun p acc => if bool_decide (p.1 = i) then p.2 + acc else acc) 0 ps.

(** The purchase an event of the local log stands for: a buy that is not
    older than [cutoff], with its quantity, or zero when that is
    negative. *)
Definition purchase (cutoff : Z) (e : Limits.LimitEvent) : option (Z * Z) :=
  if String.eqb (Limits.type e) "buy" && (cutoff <=? Limits.ts e)
  then Some (Limits.item_id e, Z.max 0 (Limits.qty e))
  else None.

(** What is left of the limit of the item [i] once [n] units are used;
    nothing is reported for an item without a known limit. *)
Definition allowance (limits : gmap Z (option Z)) (i n : Z) : option Z :=
  match limits !! i with
  | Some (Some C) => Some (Z.max 0 (C - n))
  | _ => None
  end.

(** The event [append_event] records when the clock reads [now]. *)
Definition recorded (now i q : Z) (ty : string) (ts : option Z)
  : Limits.LimitEvent :=
  {| Limits.ts := default now ts; Limits.item_id := i;
     Limits.type := ty; Limits.qty := q |}.

(** What [load_state] keeps of a list of events when the clock reads
    [now]: those of the last eight hours. *)
Definition kept (now : Z) (events : list Limits.LimitEvent)
  : list Limits.LimitEvent :=
  filter (fun e => now - 2 * Limits.FOUR_HOURS_SEC ≤ Limits.ts e) events.

(** The update [f] of the tally adds the purchases [r], each of at least
    one unit, or raises as [r] does. *)
Definition tallies (f : gmap Z Z → res (gmap Z Z)) (r : res (list (Z * Z)))
  : Prop :=
  (∀ used, f used = ps ← r; mret (foldl bump used ps)) ∧
  ∀ ps, r = Ret ps → Forall (fun p => 0 < p.2) ps.

(** An event of the local log as an entry of the Flipper2 buys log, and
    the buys log that holds the buys of a local log. *)
Definition as_flipper2 (e : Limits.LimitEvent) : json :=
  JDict {[ "itemId" := JInt (Limits.item_id e); "ts" := JInt (Limits.ts e);
           "quantity" := JInt (Limits.qty e) ]}.

Definition flipper2_buys (events : list Limits.LimitEvent) : list json :=
  as_flipper2 <$> filter (fun e => Limits.type e = "buy") events.

(** A buy of [q] units of the item [i], a thousand seconds before
    1700000000, and the local log that holds it. *)
Definition bought_event (i q : Z) : Limits.LimitEvent :=
  {| Limits.ts := 1699999000; Limits.item_id := i;
     Limits.type := "buy"; Limits.qty := q |}.

Definition log_of (i q : Z) : Limits.files :=
  {[ "limits.json" :=
       JDict {[ "version" := JInt 1;
                "events" := JList [Limits.dump_event (bought_event i q)] ]} ]}.

(** An event of the log file that [load_state] skips: a value that is not
    an object, or an object without an item id. *)
Definition malformed (e : json) : Prop :=
  match e with
  | JDict d => d !! "item_id" = None ∨ d !! "item_id" = Some JNull
  | _ => True
  end.

(** The log file [data] with another list of events. *)
Definition with_events (l : list json) (data : gmap string json)
  : gmap string json :=
  <["events" := JList l]> data.

(** A float that is a number: neither an infinity nor NaN. *)
Definition finite (x : float) : Prop :=
  match x with
  | S754_zero _ | S754_finite _ _ _ => True
  | _ => False
  end.

(** No timestamp of the entry is a float that is not a number. *)
Definition finite_stamps (d : gmap string json) : Prop :=
  ∀ k x, k ∈ ts_keys → d !! k = Some (JFloat x) → finite x.

(** A value that is null or a string. *)
Definition textual (v : json) : Prop :=
  match v with JNull | JStr _ => True | _ => False end.

(** The entries of the buys log and of the flips log that the adapter
    reads without raising. *)
Definition tame_buy (e : json) : Prop :=
  match e with JDict d => finite_stamps d | _ => True end.

Definition tame_flip (e : json) : Prop :=
  match e with
  | JDict d =>
      finite_stamps d ∧ textual (Json.get d "side") ∧ textual (Json.get d "type") ∧
      ∀ b, d !! "buy" = Some (JDict b) → finite_stamps b
  | _ => True
  end.

(** The float [2 ** -j]: [1.0] for [j = 0], [0.5] for [j = 1]. *)
Definition two_to_minus (j : Z) : float :=
  S754_finite false 4503599627370496 (- 52 - j).

(** [int(x)] as the specification words it: [x] rounded toward zero, the
    quotient of the signed mantissa by the power of two of the
    exponent. *)
Definition toward_zero (x : float) : res Z :=
  match x with
  | S754_nan => Raise ValueError
  | S754_infinity _ => Raise OverflowError
  | S754_zero _ => Ret 0
  | S754_finite s m e =>
      Ret (Z.quot (cond_Zopp s (Z.pos m) * 2 ^ Z.max 0 e) (2 ^ Z.max 0 (- e)))
  end.

(** The amount of the adjustment as the specification words it: the
    spread times 0.25 times the aggressiveness, multiplied from left to
    right in binary64 arithmetic and rounded toward zero.  It is written
    on the operations of the standard, not on those of the embedding;
    0.25 is [4503599627370496 * 2 ** -54]. *)
Definition spec_amount (spread : Z) (a : float) : res Z :=
  match binary_normalize 53 1024 spread 0 false with
  | S754_infinity _ => Raise OverflowError
  | x =>
      toward_zero
        (SFmul 53 1024
           (SFmul 53 1024 x (S754_finite false 4503599627370496 (-54))) a)
  end.

(** [x] ranks strictly below [y] in the order of the specification:
    lexicographic on [(profit_per_hour, total_profit, unit_roi)], the
    profit rate first, the total profit to break its ties, the ROI to
    break the remaining ones. *)
Definition ranks_below (x y : Suggestion) : Prop :=
  Float.ltb (profit_per_hour_gp x) (profit_per_hour_gp y) = true ∨
  (Float.eqb (profit_per_hour_gp x) (profit_per_hour_gp y) = true ∧
   (total_profit_gp x < total_profit_gp y ∨
    (total_profit_gp x = total_profit_gp y ∧
     Float.ltb (unit_roi x) (unit_roi y) = true))).

(** A list in descending order of rank: no element ranks below one that
    comes after it. *)
Definition ranked (l : list Suggestion) : Prop :=
  StronglySorted (fun x y => ¬ ranks_below x y) l.

(** [x] and [y] tie on all three ranking keys. *)
Definition ties (x y : Suggestion) : bool :=
  Float.eqb (profit_per_hour_gp x) (profit_per_hour_gp y)
  && (total_profit_gp x =? total_profit_gp y)
  && Float.eqb (unit_roi x) (unit_roi y).

(** The suggestions that tie with [x]. *)
Definition tie_class (x s : Suggestion) : Prop := ties x s = true.

#[global] Instance tie_class_dec x s : Decision (tie_class x s).
Proof. unfold tie_class. apply _. Defined.

(** A latest entry with the prices [low] and [high], both stamped
    [now]. *)
Definition quoted (low high now : Z) : entry :=
  {[ "low" := Some low; "high" := Some high;
     "lowTime" := Some now; "highTime" := Some now ]}.

(** Three items, 1, 4 and 9, bought at 100 and sold at 120, 130 and 140,
    with the same volumes; no catalog.  Their unit profits are 18, 28 and
    38, so item 9 ranks first and item 1 last. *)
Definition market (now : Z) : Args := {|
  budget_gp := 10000;
  mapping := ∅;
  latest := {[ 1 := quoted 100 120 now; 4 := quoted 100 130 now;
               9 := quoted 100 140 now ]};
  one_hour := {[ 1 := volumes; 4 := volumes; 9 := volumes ]};
  min_unit_roi := Float.zero;
  min_unit_profit_gp := 0;
  aggressiveness := Float.zero;
  liquidity_fraction := Float.one;
  min_hourly_volume := 0;
  max_fill_hours := ten;
  price_source := "latest";
  latest_max_age_min := ten;
  fresh_minutes := ten;
  fresh_policy := "both";
  remaining_limits := None;
  top_n := 10;
  include_item_ids := None;
  five_min_data := None;
|}.

(** The arguments with the item ids to include. *)
Definition with_include_item_ids (l : list Z) (a : Args) : Args := {|
  budget_gp := budget_gp a;
  mapping := mapping a;
  latest := latest a;
  one_hour := one_hour a;
  min_unit_roi := min_unit_roi a;
  min_unit_profit_gp := min_unit_profit_gp a;
  aggressiveness := aggressiveness a;
  liquidity_fraction := liquidity_fraction a;
  min_hourly_volume := min_hourly_volume a;
  max_fill_hours := max_fill_hours a;
  price_source := price_source a;
  latest_max_age_min := latest_max_age_min a;
  fresh_minutes := fresh_minutes a;
  fresh_policy := fresh_policy a;
  remaining_limits := remaining_limits a;
  top_n := top_n a;
  include_item_ids := Some l;
  five_min_data := five_min_data a;
|}.

(** Recording one buy of [q] units of item 5 in an empty local log, then
    computing the remaining limits for a cap of 100, under a clock held
    at [now]. *)
Definition bought_then_remaining (q now : Z) : res (gmap Z Z) :=
  erase ((fs ← Limits.append_event (fun _ => None) (fun _ => "") ∅
                 "limits.json" 5 q "buy" None;
          Limits.compute_remaining_limits (fun _ => None) (fun _ => "") fs
            "limits.json" {[ 5 := Some 100 ]}) (fun _ => now) 0%nat).

(** The round trip as the specification states it, for every quantity:
    the remaining limit is [max(0, C - q)]. *)
Definition round_trip_as_stated (q now : Z) : Prop :=
  ∃ r, bought_then_remaining q now = Ret r ∧ r !! 5 = Some (Z.max 0 (100 - q)).

(** * Properties *)

(** ** The two monads *)

Lemma res_bind_Ret {A B} (m : res A) (f : A → res B) (b : B) :
  m ≫= f = Ret b → ∃ a, m = Ret a ∧ f a = Ret b.
Proof. destruct m as [a|e]; simpl; [eauto | discriminate]. Qed.

Lemma M_bind_Ret {A B} (m : M A) (f : A → M B) c n b n' :
  (m ≫= f) c n = Ret (b, n') →
  ∃ a n1, m c n = Ret (a, n1) ∧ f a c n1 = Ret (b, n').
Proof.
  unfold mbind, M_bind. destruct (m c n) as [[a n1]|e]; [eauto | discriminate].
Qed.

Lemma lift_Ret {A} (r : res A) c n a n' :
  lift r c n = Ret (a, n') → r = Ret a ∧ n' = n.
Proof. destruct r; simpl; intros H; inversion H; auto. Qed.

Lemma M_ret_Ret {A} (x : A) c n a n' :
  (mret x : M A) c n = Ret (a, n') → a = x ∧ n' = n.
Proof. intros H; inversion H; auto. Qed.

Lemma M_bind_run {A B} (m : M A) (f : A → M B) c n :
  (m ≫= f) c n =
  match m c n with Ret (a, n') => f a c n' | Raise e => Raise e end.
Proof. reflexivity. Qed.

Lemma M_bind_step {A B} (m : M A) (f : A → M B) c n a n1 :
  m c n = Ret (a, n1) → (m ≫= f) c n = f a c n1.
Proof. intros H. rewrite M_bind_run, H. reflexivity. Qed.

(** ** Floats: signs and NaN *)

Section FloatFacts.
Import Float.

Lemma shr_1_nonneg mrs : 0 ≤ shr_m mrs → 0 ≤ shr_m (shr_1 mrs).
Proof.
  destruct mrs as [m r s]; destruct m as [|[p|p|]|[p|p|]]; simpl; lia.
Qed.

Lemma iter_shr_1_nonneg p mrs :
  0 ≤ shr_m mrs → 0 ≤ shr_m (SpecFloat.iter_pos shr_1 p mrs).
Proof.
  revert mrs; induction p as [p IH|p IH|]; intros mrs H; simpl.
  - apply IH, IH, shr_1_nonneg, H.
  - apply IH, IH, H.
  - apply shr_1_nonneg, H.
Qed.

Lemma shr_fexp_nonneg m e l :
  0 ≤ m → 0 ≤ shr_m (fst (shr_fexp prec emax m e l)).
Proof.
  intros H. unfold shr_fexp, shr.
  assert (H0 : 0 ≤ shr_m (shr_record_of_loc m l))
    by (destruct l as [|[]]; exact H).
  destruct (fexp prec emax (Zdigits2 m + e) - e); simpl; auto.
  apply iter_shr_1_nonneg, H0.
Qed.

Lemma round_nearest_even_nonneg m l : 0 ≤ m → 0 ≤ round_nearest_even m l.
Proof.
  intros H; destruct l as [|[]]; simpl; try lia.
  destruct (Z.even m); lia.
Qed.

Lemma binary_round_aux_signed s m e l :
  0 ≤ m → signed s (binary_round_aux prec emax s m e l).
Proof.
  intros H. unfold binary_round_aux.
  pose proof (shr_fexp_nonneg m e l H) as H1.
  destruct (shr_fexp prec emax m e l) as [mrs' e'] eqn:E1; simpl in H1.
  pose proof (shr_fexp_nonneg
                (round_nearest_even (shr_m mrs') (loc_of_shr_record mrs'))
                e' loc_Exact (round_nearest_even_nonneg _ _ H1)) as H2.
  destruct (shr_fexp prec emax _ e' loc_Exact) as [mrs'' e''] eqn:E2.
  simpl in H2.
  destruct (shr_m mrs'') as [|p|p]; simpl; auto.
  fold prec emax. destruct (e'' <=? emax - prec); simpl; auto.
Qed.

Lemma binary_round_signed s m e : signed s (binary_round prec emax s m e).
Proof.
  unfold binary_round.
  destruct (shl_align m e _) as [mz ez].
  apply binary_round_aux_signed; lia.
Qed.

Lemma signed_not_nan s x : signed s x → is_nan x = false.
Proof. destruct x; simpl; tauto. Qed.

(** A product is NaN or carries the xor of the signs. *)
Lemma mul_signed s1 s2 x y :
  signed s1 x → signed s2 y →
  mul x y = S754_nan ∨ signed (xorb s1 s2) (mul x y).
Proof.
  destruct x as [sx|sx| |sx mx ex], y as [sy|sy| |sy my ey]; simpl;
    intros H1 H2; subst; auto; try contradiction.
  right. apply binary_round_aux_signed; lia.
Qed.

Lemma of_int_signed n x :
  of_int n = Ret x → 0 ≤ n → signed false x.
Proof.
  unfold of_int, binary_normalize. intros H Hn.
  destruct n as [|p|p]; [| |lia].
  - inversion H; reflexivity.
  - pose proof (binary_round_signed false p 0) as Hs.
    destruct (binary_round prec emax false p 0); inversion H; subst; exact Hs.
Qed.

Lemma of_int_not_nan n x : of_int n = Ret x → is_nan x = false.
Proof.
  unfold of_int, binary_normalize. intros H.
  destruct n as [|p|p].
  - inversion H; reflexivity.
  - pose proof (binary_round_signed false p 0) as Hs.
    destruct (binary_round prec emax false p 0); inversion H; subst;
      simpl in *; tauto.
  - pose proof (binary_round_signed true p 0) as Hs.
    destruct (binary_round prec emax true p 0); inversion H; subst;
      simpl in *; tauto.
Qed.

Lemma of_int_not_inf n x s : of_int n = Ret x → x ≠ S754_infinity s.
Proof.
  unfold of_int. destruct (binary_normalize prec emax n 0 false);
    intros H; inversion H; discriminate.
Qed.

Lemma to_int_nonneg x n : signed false x → to_int x = Ret n → 0 ≤ n.
Proof.
  destruct x as [s|s| |s m e]; simpl; intros Hs H; try discriminate;
    inversion H; subst; [lia|].
  simpl. destruct e as [|p|p].
  - lia.
  - apply Z.mul_nonneg_nonneg; [lia | apply Z.pow_nonneg; lia].
  - apply Z.div_pos; [lia | apply Z.pow_pos_nonneg; lia].
Qed.
End FloatFacts.

(** ** Floats: the order *)

Section FloatOrder.
Import Float.

Ltac order_cases :=
  unfold lexico, prod_lexico, lexico, Z_lexico; simpl;
  split; intros; destruct_or?; destruct_and?; simplify_eq;
  try discriminate; try lia; auto with lia.

Lemma ltb_lexico x y :
  is_nan x = false → is_nan y = false →
  ltb x y = true ↔ lexico (code x) (code y).
Proof.
  unfold ltb, SFltb, SFcompare.
  destruct x as [sx|sx| |sx mx ex], y as [sy|sy| |sy my ey];
    try destruct sx; try destruct sy; simpl;
    intros Hx Hy; try discriminate; try (order_cases; fail).
  - change (Pos.compare_cont Eq mx my) with (Pos.compare mx my).
    destruct (Z.compare_spec ex ey), (Pos.compare_spec mx my); subst;
      order_cases.
  - change (Pos.compare_cont Eq mx my) with (Pos.compare mx my).
    destruct (Z.compare_spec ex ey), (Pos.compare_spec mx my); subst;
      order_cases.
Qed.

Lemma eqb_code x y :
  is_nan x = false → is_nan y = false →
  eqb x y = true ↔ code x = code y.
Proof.
  unfold eqb, SFeqb, SFcompare.
  destruct x as [sx|sx| |sx mx ex], y as [sy|sy| |sy my ey];
    try destruct sx; try destruct sy; simpl;
    intros Hx Hy; try discriminate; try (intuition (discriminate || congruence); fail).
  - change (Pos.compare_cont Eq mx my) with (Pos.compare mx my).
    destruct (Z.compare_spec ex ey), (Pos.compare_spec mx my); subst;
      simpl; split; intros Hc; try discriminate; try reflexivity;
      inversion Hc; lia.
  - change (Pos.compare_cont Eq mx my) with (Pos.compare mx my).
    destruct (Z.compare_spec ex ey), (Pos.compare_spec mx my); subst;
      simpl; split; intros Hc; try discriminate; try reflexivity;
      inversion Hc; lia.
Qed.

Lemma leb_ltb_eqb x y : leb x y = ltb x y || eqb x y.
Proof.
  unfold leb, ltb, eqb, SFleb, SFltb, SFeqb.
  destruct (SFcompare x y) as [[]|]; reflexivity.
Qed.

Lemma ltb_nan_l y : ltb S754_nan y = false.
Proof. reflexivity. Qed.

Lemma ltb_nan_r x : ltb x S754_nan = false.
Proof. destruct x; reflexivity. Qed.

(** Without NaN the order is total: [not (x < y)] is [y <= x]. *)
Lemma ltb_false_leb x y :
  is_nan x = false → is_nan y = false →
  ltb x y = false → leb y x = true.
Proof.
  intros Hx Hy H. rewrite leb_ltb_eqb. apply orb_true_iff.
  destruct (trichotomyT lexico (code x) (code y)) as [[Hlt|Heq]|Hgt].
  - apply (ltb_lexico x y Hx Hy) in Hlt. congruence.
  - right. apply eqb_code; auto.
  - left. apply ltb_lexico; auto.
Qed.

Lemma ltb_zero_signed x : ltb zero x = true → signed false x.
Proof.
  destruct x as [s|s| |s m e]; try destruct s; simpl; try discriminate;
    reflexivity.
Qed.

Lemma py_max_zero_signed x : signed false (py_max zero x).
Proof.
  unfold py_max. destruct (ltb zero x) eqn:E; [|reflexivity].
  apply ltb_zero_signed, E.
Qed.
End FloatOrder.

Lemma clamp01_signed x : signed false (clamp01 x).
Proof. apply py_max_zero_signed. Qed.

(** ** The loop body *)

Ltac inv_res :=
  repeat match goal with
  | H : mret _ = Ret _ |- _ => inversion H; clear H; subst
  | H : Ret _ = Ret _ |- _ => inversion H; clear H; subst
  | H : Raise _ = Ret _ |- _ => discriminate H
  | H : (if ?c then _ else _) = Ret _ |- _ => destruct c eqn:?
  | H : _ ≫= _ = Ret _ |- _ =>
      apply res_bind_Ret in H; destruct H as (? & ? & H); cbv beta in H
  | H : (let '(_, _) := ?p in _) = Ret _ |- _ => destruct p
  end.

Lemma floordiv_Ret a b q : floordiv a b = Ret q → b ≠ 0 ∧ q = a / b.
Proof.
  unfold floordiv. destruct (b =? 0) eqn:E; intros H; inversion H.
  split; [lia | reflexivity].
Qed.

Lemma suggest_item_Some a i base_buy base_sell low_vol high_vol s :
  suggest_item a i base_buy base_sell low_vol high_vol = Ret (Some s) →
  emitted a i base_buy base_sell low_vol high_vol s.
Proof.
  unfold suggest_item. intros H.
  inv_res.
  all: repeat match goal with
  | H : floordiv _ _ = Ret _ |- _ => apply floordiv_Ret in H; destruct H; subst
  | H : _ || _ = false |- _ => apply orb_false_elim in H; destruct H
  end.
  all: set (q := Z.min (Z.min _ _) _) in *.
  all: split;
    cbn [item_id buy_limit buy_price_gp sell_price_gp unit_profit_gp unit_roi
         quantity total_profit_gp expected_fill_hours profit_per_hour_gp
         buy_hourly_volume sell_hourly_volume buy_fill_hours sell_fill_hours
         remaining_limit];
    try reflexivity; try assumption; try lia.
  all: try (eexists _, _, _, _; repeat split; eassumption).
  all: try (eexists; split; [eassumption | reflexivity]).
  all: match goal with
       | H : ?c = _ |- (if ?c then _ else _) = _ => rewrite H; assumption
       end.
Qed.

(** The amount by which the prices move is not negative. *)
Lemma int_of_scaled_nonneg n x k :
  0 ≤ n → signed false x → int_of_scaled n x = Ret k → 0 ≤ k.
Proof.
  unfold int_of_scaled, int_mul_float. intros Hn Hx H. inv_res.
  match goal with H : Float.of_int _ = _ |- _ =>
    apply of_int_signed in H; [|exact Hn]; rename H into Hy end.
  destruct (mul_signed _ _ _ _ Hy Hx) as [E|Hs].
  - rewrite E in *. discriminate.
  - eapply to_int_nonneg; eauto.
Qed.

Lemma adjust_amount_nonneg spread a d :
  0 ≤ spread → int_of_quarter spread (clamp01 a) = Ret d → 0 ≤ d.
Proof.
  unfold int_of_quarter, int_mul_float. intros Hn H. inv_res.
  match goal with H : Float.of_int _ = _ |- _ =>
    apply of_int_signed in H; [|exact Hn]; rename H into Hy end.
  assert (Hq : signed false Float.quarter) by reflexivity.
  destruct (mul_signed _ _ _ _ Hy Hq) as [E|Hs].
  - rewrite E in *. discriminate.
  - destruct (mul_signed _ _ _ _ Hs (clamp01_signed a)) as [E|Hs'].
    + rewrite E in *. discriminate.
    + eapply to_int_nonneg; eauto.
Qed.

Lemma adjust_prices_bounds b s a b' s' :
  _adjust_prices_for_aggressiveness b s a = Ret (b', s') →
  0 < b → b < s → b ≤ b' ∧ b' < s' ∧ s' ≤ s.
Proof.
  unfold _adjust_prices_for_aggressiveness. intros H Hb Hs.
  destruct ((b <=? 0) || (s <=? 0) || (s <=? b)) eqn:E.
  { inversion H; subst; lia. }
  apply res_bind_Ret in H. destruct H as (d1 & H1 & H).
  apply res_bind_Ret in H. destruct H as (d2 & H2 & H).
  apply adjust_amount_nonneg in H1; [|lia].
  apply adjust_amount_nonneg in H2; [|lia].
  cbv zeta in H.
  destruct (s - d2 <=? b + d1) eqn:E'; inversion H; subst; lia.
Qed.

Lemma build_suggestions_item_Some a i c n s n' :
  build_suggestions_item a i c n = Ret (Some s, n') →
  ∃ n1 base_buy base_sell low_vol high_vol,
    _is_fresh_enough (latest a !! i) (fresh_minutes a) (fresh_policy a) c n
      = Ret (true, n1) ∧
    _choose_prices_for_item i (latest a) (one_hour a) (five_min_data a)
      (price_source a) (latest_max_age_min a) c n1
      = Ret (Some (base_buy, base_sell, low_vol, high_vol), n') ∧
    emitted a i base_buy base_sell low_vol high_vol s.
Proof.
  unfold build_suggestions_item. intros H.
  apply M_bind_Ret in H. destruct H as (fresh & n1 & Hf & H).
  destruct fresh; simpl in H; [|inversion H].
  apply M_bind_Ret in H. destruct H as (chosen & n2 & Hc & H).
  destruct chosen as [[[[bb bs] lv] hv]|]; [|inversion H].
  apply lift_Ret in H. destruct H as [H ->].
  apply suggest_item_Some in H. eauto 10.
Qed.

(** ** The loop, the sort and the slice *)

Lemma build_suggestions_loop_elem a universe results c n out n' :
  build_suggestions_loop a universe results c n = Ret (out, n') →
  ∀ s, s ∈ out →
    s ∈ results ∨
    ∃ i n1 n2, i ∈ universe ∧ build_suggestions_item a i c n1 = Ret (Some s, n2).
Proof.
  revert results n. induction universe as [|i u IH]; intros rs n H s Hs.
  - inversion H; subst. auto.
  - cbn [build_suggestions_loop] in H.
    apply M_bind_Ret in H. destruct H as (o & n1 & Hi & H).
    destruct (IH _ _ H s Hs) as [Hin|(j & m1 & m2 & Hj & Hrun)].
    + destruct o as [s0|]; [|auto].
      apply elem_of_app in Hin. destruct Hin as [Hin|Hin]; [auto|].
      apply list_elem_of_singleton in Hin. subst s0.
      right. exists i, n, n1. split; [left | exact Hi].
    + right. exists j, m1, m2. split; [right; exact Hj | exact Hrun].
Qed.

Lemma insert_desc_perm x l : insert_desc x l ≡ₚ x :: l.
Proof.
  induction l as [|y l IH]; cbn [insert_desc]; [reflexivity|].
  destruct (key_lt (sort_key x) (sort_key y)); [|reflexivity].
  rewrite IH. apply Permutation_swap.
Qed.

Lemma sort_desc_perm l : sort_desc l ≡ₚ l.
Proof.
  induction l as [|x l IH]; [reflexivity|].
  cbn [sort_desc foldr]. rewrite insert_desc_perm. fold (sort_desc l).
  rewrite IH. reflexivity.
Qed.

Lemma build_suggestions_elem a universe c n out n' s :
  build_suggestions a universe c n = Ret (out, n') → s ∈ out →
  ∃ i n1 n2, build_suggestions_item a i c n1 = Ret (Some s, n2).
Proof.
  unfold build_suggestions. intros H Hs.
  apply M_bind_Ret in H. destruct H as (rs & n1 & Hl & H).
  apply M_ret_Ret in H. destruct H as [-> _].
  apply elem_of_take in Hs. destruct Hs as (k & Hk & _).
  apply list_elem_of_lookup_2 in Hk. rewrite sort_desc_perm in Hk.
  destruct (build_suggestions_loop_elem _ _ _ _ _ _ _ Hl s Hk)
    as [Hin|(i & m1 & m2 & _ & Hrun)].
  - apply elem_of_nil in Hin. contradiction.
  - eauto.
Qed.

(** ** Quotients are never NaN *)

Section FloatDiv.
Import Float.

Lemma SFdiv_core_nonneg mx ex my ey q e l :
  SFdiv_core_binary prec emax (Z.pos mx) ex (Z.pos my) ey = (q, e, l) →
  0 ≤ q.
Proof.
  unfold SFdiv_core_binary.
  set (sh := ex - ey - _).
  set (m' := match sh with Z0 => Z.pos mx | Z.pos _ => _ | Z.neg _ => 0 end).
  assert (Hm : 0 ≤ m').
  { subst m'. destruct sh; [lia | | lia]. apply Z.shiftl_nonneg. lia. }
  pose proof (Z.div_pos m' (Z.pos my) Hm eq_refl) as Hq.
  unfold Z.div in Hq. destruct (Z.div_eucl m' (Z.pos my)) as [q' r'].
  intros [= <- _ _]. exact Hq.
Qed.

Lemma div_finite_signed sx mx ex sy my ey :
  signed (xorb sx sy)
    (SFdiv prec emax (S754_finite sx mx ex) (S754_finite sy my ey)).
Proof.
  cbn [SFdiv].
  destruct (SFdiv_core_binary prec emax (Z.pos mx) ex (Z.pos my) ey)
    as [[q e] l] eqn:E.
  apply binary_round_aux_signed. eapply SFdiv_core_nonneg, E.
Qed.

Lemma int_truediv_not_nan a b x : int_truediv a b = Ret x → is_nan x = false.
Proof.
  unfold int_truediv. destruct b as [|pb|pb]; [discriminate| |];
    (destruct a as [|pa|pa]; [intros [= <-]; reflexivity| |]);
    match goal with |- context [SFdiv _ _ ?u ?v] =>
      pose proof (div_finite_signed
                    (match u with S754_finite s _ _ => s | _ => false end)
                    (match u with S754_finite _ m _ => m | _ => 1%positive end)
                    0
                    (match v with S754_finite s _ _ => s | _ => false end)
                    (match v with S754_finite _ m _ => m | _ => 1%positive end)
                    0) as Hs;
      cbv beta iota in Hs;
      destruct (SFdiv prec emax u v); intros [= <-];
      exact (signed_not_nan _ _ Hs)
    end.
Qed.
End FloatDiv.

(** The float literals of the source are the correctly rounded values of
    the decimals they are written as. *)
Example literals :
  Float.of_int 1 = Ret Float.one ∧
  Float.of_int 60 = Ret Float.sixty ∧
  Float.of_int 10 = Ret ten ∧
  Float.int_truediv 1 4 = Ret Float.quarter ∧
  Float.int_truediv 2 100 = Ret Float.two_percent ∧
  valid_binary Float.prec Float.emax Float.two_percent = true.
Proof. vm_compute. auto 10. Qed.


Lemma cap_by_le q c : cap_by q c ≤ q.
Proof. destruct c; simpl; lia. Qed.

Lemma cap_by_Some_le q c : cap_by q (Some c) ≤ c.
Proof. simpl; lia. Qed.

(** Every emitted suggestion is within the constraints, and meets the ROI
    floor when the floor is a number. *)
Lemma emitted_within_constraints a i base_buy base_sell low_vol high_vol s :
  emitted a i base_buy base_sell low_vol high_vol s →
  within_constraints a s ∧
  (Float.is_nan (min_unit_roi a) = false → meets_roi_floor a s).
Proof.
  intros [Hp Hv Ha Hi Hl Hr _ _ Hq Hpos _ _ Hroi Hpf Hrf _ _ _ _].
  destruct (adjust_prices_bounds _ _ _ _ _ Ha) as (Hb1 & Hb2 & Hb3); [lia..|].
  destruct Hq as (bs & ss & bt & st & _ & _ & _ & _ & Hq).
  set (q0 := budget_gp a / buy_price_gp s) in *.
  assert (Hq0 : quantity s ≤ cap_by (cap_by q0 (buy_limit s)) (remaining_limit s))
    by lia.
  pose proof (cap_by_le (cap_by q0 (buy_limit s)) (remaining_limit s)) as Hc1.
  pose proof (cap_by_le q0 (buy_limit s)) as Hc2.
  split; [repeat split|].
  - exact Hb2.
  - lia.
  - exact Hpf.
  - assert (buy_price_gp s * q0 ≤ budget_gp a)
      by (apply Z.mul_div_le; lia).
    assert (quantity s * buy_price_gp s ≤ q0 * buy_price_gp s)
      by (apply Z.mul_le_mono_nonneg_r; lia).
    lia.
  - intros cap Hcap. rewrite Hi, <- Hl in Hcap. rewrite Hcap in *.
    pose proof (cap_by_Some_le q0 cap). lia.
  - intros m r Hm Hmr. rewrite Hi in Hmr.
    rewrite Hm in Hr. unfold remaining_for in Hr.
    rewrite Hmr in Hr.
    destruct (bool_decide (m = ∅)) eqn:E.
    { apply bool_decide_eq_true in E. subst m.
      rewrite lookup_empty in Hmr. discriminate. }
    rewrite Hr in Hq0.
    pose proof (cap_by_Some_le (cap_by q0 (buy_limit s)) (Z.max 0 r)). lia.
  - intros Hnan. unfold meets_roi_floor.
    apply ltb_false_leb; auto.
    eapply int_truediv_not_nan, Hroi.
Qed.

(** ** Emitted suggestions respect the constraints *)

(** C1 (amended).  Every suggestion the engine returns has
    [sell_price > buy_price], [quantity >= 1], a unit profit that is at
    least the configured floor, [quantity * buy_price <= budget], a
    quantity within the purchase cap of the catalog when there is one and
    within the remaining allowance when one is supplied for the item; its
    unit ROI is at least the configured floor whenever that floor is a
    number (a NaN floor filters nothing). *)
Theorem suggestions_within_constraints a universe c n out n' s :
  build_suggestions a universe c n = Ret (out, n') → s ∈ out →
  within_constraints a s ∧
  (Float.is_nan (min_unit_roi a) = false → meets_roi_floor a s).
Proof.
  intros Hrun Hs.
  destruct (build_suggestions_elem _ _ _ _ _ _ _ Hrun Hs) as (i & n1 & n2 & Hi).
  apply build_suggestions_item_Some in Hi.
  destruct Hi as (m & bb & bs & lv & hv & _ & _ & He).
  eapply emitted_within_constraints, He.
Qed.

Lemma suggestions_within_constraints_witness :
  within_constraints
    (scenario 1700000000 "Item" "latest" "both" ten ten Float.zero 10)
    (scenario_suggestion "Item") ∧
  (Float.is_nan Float.zero = false →
   meets_roi_floor
     (scenario 1700000000 "Item" "latest" "both" ten ten Float.zero 10)
     (scenario_suggestion "Item")).
Proof.
  apply (suggestions_within_constraints
           (scenario 1700000000 "Item" "latest" "both" ten ten Float.zero 10)
           [1] (fun _ => 1700000000) 0%nat [scenario_suggestion "Item"] 1%nat).
  - vm_compute. reflexivity.
  - left.
Defined.

(** C1 as stated fails on a NaN floor: with [min_unit_roi = nan] the
    scenario's suggestion is returned although [unit_roi >= nan] is
    false. *)
Lemma roi_floor_nan_counterexample :
  build_suggestions
    (scenario 1700000000 "Item" "latest" "both" ten ten S754_nan 10)
    [1] (fun _ => 1700000000) 0%nat
  = Ret ([scenario_suggestion "Item"], 1%nat) ∧
  ¬ meets_roi_floor
      (scenario 1700000000 "Item" "latest" "both" ten ten S754_nan 10)
      (scenario_suggestion "Item").
Proof.
  split.
  - vm_compute. reflexivity.
  - unfold meets_roi_floor. vm_compute. discriminate.
Qed.

(** ** The end-to-end scenario *)

Section Scenario.
Import Float.

Lemma gt_zero_signed x :
  is_nan x = false → negb (truthy x) || le_int x 0 = false →
  signed false x.
Proof.
  destruct x as [s|s| |s m e]; try destruct s; simpl;
    try discriminate; try reflexivity.
  intros _. unfold le_int, compare_int. cbn [cond_Zopp].
  destruct e as [|p|p].
  - destruct (Z.compare_spec (- (Z.pos m * 2 ^ 0)) 0); try discriminate; lia.
  - pose proof (Z.pow_pos_nonneg 2 (Z.pos p) eq_refl (Pos2Z.is_nonneg p)).
    destruct (Z.compare_spec (- (Z.pos m * 2 ^ Z.pos p)) 0);
      try discriminate; nia.
  - destruct (Z.compare_spec (- Z.pos m) (0 * 2 ^ Z.pos p));
      try discriminate; lia.
Qed.

Lemma int_le_zero_signed x : signed false x → int_le 0 x = true.
Proof.
  destruct x as [s|s| |s m e]; simpl; try contradiction;
    intros ->; try reflexivity.
  unfold int_le, compare_int. cbn [cond_Zopp].
  destruct e as [|p|p].
  - destruct (Z.compare_spec (Z.pos m * 2 ^ 0) 0); try reflexivity; lia.
  - pose proof (Z.pow_pos_nonneg 2 (Z.pos p) eq_refl (Pos2Z.is_nonneg p)).
    destruct (Z.compare_spec (Z.pos m * 2 ^ Z.pos p) 0);
      try reflexivity; nia.
  - destruct (Z.compare_spec (Z.pos m) (0 * 2 ^ Z.pos p));
      try reflexivity; lia.
Qed.

Lemma mul_sixty_signed x : signed false x → signed false (mul x sixty).
Proof.
  destruct x as [s|s| |s m e]; simpl; try contradiction; intros ->;
    try reflexivity.
  apply binary_round_aux_signed. lia.
Qed.

(** An entry whose two timestamps are the clock's sample passes the
    freshness filter, whatever the threshold, unless it is NaN. *)
Lemma fresh_when_stamped_now (d : entry) fm policy (c : clock) n now :
  get d "highTime" = Some now → get d "lowTime" = Some now →
  d ≠ ∅ → c n = now → is_nan fm = false →
  ∃ n', _is_fresh_enough (Some d) fm policy c n = Ret (true, n').
Proof.
  intros Hh Hl Hd Hc Hnan. unfold _is_fresh_enough.
  destruct (negb (truthy fm) || le_int fm 0) eqn:E.
  { eexists; reflexivity. }
  cbn [truthy_entry]. rewrite bool_decide_eq_false_2 by exact Hd.
  rewrite Hh, Hl.
  pose proof (int_le_zero_signed _
                (mul_sixty_signed _ (gt_zero_signed _ Hnan E))) as Hok.
  unfold mbind, M_bind, time_now, within, float_mul_int, lift.
  rewrite Hc, Z.sub_diag.
  change (of_int 60) with (Ret sixty). simpl.
  rewrite Hok. exists (S n). destruct (String.eqb policy "any"); reflexivity.
Qed.
End Scenario.

Lemma build_suggestions_singleton a i c n s n' :
  include_item_ids a = None →
  build_suggestions_item a i c n = Ret (Some s, n') →
  build_suggestions a [i] c n = Ret ([s], n').
Proof.
  intros Hinc Hi. unfold build_suggestions. rewrite Hinc.
  cbn [restrict build_suggestions_loop].
  erewrite M_bind_step; [|erewrite M_bind_step; [|exact Hi]; reflexivity].
  cbn [app sort_desc foldr insert_desc]. unfold mret, M_ret.
  rewrite take_ge; [reflexivity | simpl; lia].
Qed.

Lemma stamped_nonempty now : stamped now ≠ ∅.
Proof.
  intros H. apply (f_equal (fun m : entry => m !! "low")) in H.
  vm_compute in H. discriminate.
Qed.

Lemma scenario_choose now ps max_age (c : clock) n :
  c n = now →
  ps ≠ "1h" → (ps = "latest" ∨ Float.leb Float.zero max_age = true) →
  ∃ n', _choose_prices_for_item 1 {[ 1 := stamped now ]} {[ 1 := volumes ]}
          None ps max_age c n
        = Ret (Some (100, 120, 1000, 1000), n').
Proof.
  intros Hc H1h Hsrc. unfold _choose_prices_for_item.
  rewrite !lookup_singleton_eq.
  apply String.eqb_neq in H1h. rewrite H1h.
  assert (Ht : truthy_entry (Some (stamped now)) = Some (stamped now)).
  { unfold truthy_entry.
    rewrite bool_decide_eq_false_2; auto using stamped_nonempty. }
  rewrite Ht.
  assert (Hl : lasts (stamped now) (Some volumes) = (100, 120, 1000, 1000))
    by (vm_compute; reflexivity).
  rewrite Hl.
  destruct (String.eqb ps "latest") eqn:El; [eexists; reflexivity|].
  destruct Hsrc as [->|Hage]; [discriminate|].
  assert (Hh : get (stamped now) "highTime" = Some now)
    by (vm_compute; reflexivity).
  assert (Hlo : get (stamped now) "lowTime" = Some now)
    by (vm_compute; reflexivity).
  rewrite Hh, Hlo.
  assert (Hz : int_div_float 0 Float.sixty = Ret Float.zero)
    by (vm_compute; reflexivity).
  rewrite M_bind_run. unfold time_now. rewrite Hc, Z.sub_diag.
  rewrite M_bind_run, Hz. cbn [lift]. rewrite M_bind_run. cbn [lift].
  rewrite Hage. cbn [andb]. eexists; reflexivity.
Qed.

Lemma scenario_item now name ps fp max_age fresh top_n :
  ps ≠ "1h" → (ps = "latest" ∨ Float.leb Float.zero max_age = true) →
  Float.is_nan fresh = false →
  ∃ n', build_suggestions_item
          (scenario now name ps fp max_age fresh Float.zero top_n) 1
          (fun _ => now) 0%nat
        = Ret (Some (scenario_suggestion name), n').
Proof.
  intros H1h Hsrc Hnan. unfold build_suggestions_item.
  cbn [latest one_hour five_min_data price_source latest_max_age_min
       fresh_minutes fresh_policy scenario].
  rewrite lookup_singleton_eq.
  destruct (fresh_when_stamped_now (stamped now) fresh fp (fun _ => now)
              0%nat now) as [n1 Hf];
    try reflexivity; auto using stamped_nonempty.
  destruct (scenario_choose now ps max_age (fun _ => now) n1 eq_refl H1h Hsrc)
    as [n2 Hch].
  erewrite M_bind_step by exact Hf. cbn [negb].
  erewrite M_bind_step by exact Hch. cbv beta iota.
  exists n2. vm_compute. reflexivity.
Qed.

(** C2.  In the end-to-end scenario (catalog: item 1 with cap 50; latest
    feed: buy 100, sell 120, both timestamps now; one-hour feed: volumes
    1000 and 1000; budget 10000; all floors 0; aggressiveness 0; liquidity
    fraction 1.0; ten fill hours) the engine returns exactly one
    suggestion: buy 100, sell 120, quantity 50, total profit 900, unit
    profit 18, unit ROI the binary64 value of 18/100; the tax per unit on
    120 is 2.  The scenario leaves the price source open: this holds for
    the latest prices and, with a threshold that is not negative, for the
    hybrid policy; the freshness threshold may be any number. *)
Theorem scenario_result now name ps fp max_age fresh top_n :
  ps ≠ "1h" → (ps = "latest" ∨ Float.leb Float.zero max_age = true) →
  Float.is_nan fresh = false →
  let a := scenario now name ps fp max_age fresh Float.zero top_n in
  let s := scenario_suggestion name in
  is_universe a [1] ∧
  (∃ n', build_suggestions a [1] (fun _ => now) 0%nat = Ret ([s], n')) ∧
  buy_price_gp s = 100 ∧ sell_price_gp s = 120 ∧ quantity s = 50 ∧
  _compute_tax_per_unit (sell_price_gp s) = Ret 2 ∧
  total_profit_gp s = 900 ∧ unit_profit_gp s = 18 ∧
  Float.int_truediv 18 100 = Ret (unit_roi s).
Proof.
  intros H1h Hsrc Hnan a s. split; [|split].
  - split; [apply NoDup_singleton|].
    intros i. subst a. cbn [one_hour latest scenario].
    rewrite !dom_singleton_L, list_elem_of_singleton, elem_of_union,
      !elem_of_singleton. tauto.
  - destruct (scenario_item now name ps fp max_age fresh top_n H1h Hsrc Hnan)
      as [n' Hi].
    exists n'. apply build_suggestions_singleton; [reflexivity | exact Hi].
  - repeat split; vm_compute; reflexivity.
Qed.

Lemma scenario_result_witness :
  ∃ n', build_suggestions
          (scenario 1700000000 "Item" "hybrid" "both" ten ten Float.zero 10)
          [1] (fun _ => 1700000000) 0%nat
        = Ret ([scenario_suggestion "Item"], n').
Proof.
  apply (scenario_result 1700000000 "Item" "hybrid" "both" ten ten 10).
  - discriminate.
  - right. reflexivity.
  - reflexivity.
Defined.

(** Under the pure one-hour policy the scenario yields nothing: its
    one-hour record carries volumes but no prices. *)
Example scenario_one_hour_policy :
  build_suggestions
    (scenario 1700000000 "Item" "1h" "both" ten ten Float.zero 10)
    [1] (fun _ => 1700000000) 0%nat = Ret ([], 1%nat).
Proof. vm_compute. reflexivity. Qed.


(** ** The aggressiveness adjustment *)

Lemma eqb_one a : Float.eqb a Float.one = true → a = Float.one.
Proof.
  intros H.
  assert (Hn : Float.is_nan a = false) by (destruct a; [..|discriminate|]; reflexivity).
  apply eqb_code in H; [|exact Hn|reflexivity].
  destruct a as [s|s| |s m e]; try destruct s; simpl in H; try discriminate.
  inversion H; subst. reflexivity.
Qed.

Lemma eqb_zero a : Float.eqb Float.zero a = true → ∃ s, a = S754_zero s.
Proof.
  destruct a as [s|s| |s m e]; try destruct s; try discriminate; eauto.
Qed.

(** On [0.0 <= a <= 1.0] the clamp changes at most the sign of a zero. *)
Lemma clamp01_unit a :
  Float.leb Float.zero a = true → Float.leb a Float.one = true →
  clamp01 a = a ∨ ∃ s, a = S754_zero s ∧ clamp01 a = Float.zero.
Proof.
  intros H0 H1. rewrite leb_ltb_eqb in H0, H1.
  unfold clamp01, Float.py_min.
  assert (Hmin : (if Float.ltb a Float.one then a else Float.one) = a).
  { destruct (Float.ltb a Float.one); [reflexivity|].
    simpl in H1. symmetry. apply eqb_one, H1. }
  rewrite Hmin. unfold Float.py_max.
  destruct (Float.ltb Float.zero a); [left; reflexivity|].
  simpl in H0. apply eqb_zero in H0. destruct H0 as [s ->]. right. eauto.
Qed.

Lemma int_of_quarter_clamp01 n a :
  Float.leb Float.zero a = true → Float.leb a Float.one = true →
  int_of_quarter n (clamp01 a) = int_of_quarter n a.
Proof.
  intros H0 H1. destruct (clamp01_unit a H0 H1) as [->|(s & -> & ->)];
    [reflexivity|].
  unfold int_of_quarter. destruct (int_mul_float n Float.quarter) as [y|e];
    [|reflexivity].
  cbn [mbind res_bind]. destruct y; reflexivity.
Qed.

Section ExactArithmetic.
Import Float.

Lemma digits2_pos_bounds p :
  2 ^ (Z.pos (digits2_pos p) - 1) ≤ Z.pos p < 2 ^ Z.pos (digits2_pos p).
Proof.
  induction p as [p IH|p IH|]; cbn [digits2_pos].
  - rewrite Pos2Z.inj_succ.
    replace (Z.succ (Z.pos (digits2_pos p)) - 1) with (Z.succ (Z.pos (digits2_pos p) - 1)) by lia.
    rewrite !Z.pow_succ_r by lia. lia.
  - rewrite Pos2Z.inj_succ.
    replace (Z.succ (Z.pos (digits2_pos p)) - 1) with (Z.succ (Z.pos (digits2_pos p) - 1)) by lia.
    rewrite !Z.pow_succ_r by lia. lia.
  - cbn. lia.
Qed.

Lemma digits2_pos_unique p d :
  0 < d → 2 ^ (d - 1) ≤ Z.pos p < 2 ^ d → Z.pos (digits2_pos p) = d.
Proof.
  intros Hd H. pose proof (digits2_pos_bounds p) as Hp.
  destruct (Z.lt_trichotomy (Z.pos (digits2_pos p)) d) as [Hlt|[Heq|Hgt]];
    [exfalso|exact Heq|exfalso].
  - assert (2 ^ Z.pos (digits2_pos p) ≤ 2 ^ (d - 1))
      by (apply Z.pow_le_mono_r; lia). lia.
  - assert (2 ^ d ≤ 2 ^ (Z.pos (digits2_pos p) - 1))
      by (apply Z.pow_le_mono_r; lia). lia.
Qed.

Lemma Zdigits2_shift (m : positive) k :
  0 ≤ k → Zdigits2 (Z.pos m * 2 ^ k) = Z.pos (digits2_pos m) + k.
Proof.
  intros Hk. pose proof (digits2_pos_bounds m) as Hm.
  assert (Hp : 0 < 2 ^ k) by (apply Z.pow_pos_nonneg; lia).
  destruct (Z.pos m * 2 ^ k) as [|q|q] eqn:E; try lia.
  cbn [Zdigits2]. apply digits2_pos_unique; [lia|].
  rewrite <- E.
  replace (Z.pos (digits2_pos m) + k - 1) with (Z.pos (digits2_pos m) - 1 + k) by lia.
  rewrite !Z.pow_add_r by lia. nia.
Qed.

Lemma iter_shr_1_exact j (M : Z) :
  0 < M →
  SpecFloat.iter_pos shr_1 j
    {| shr_m := M * 2 ^ Z.pos j; shr_r := false; shr_s := false |}
  = {| shr_m := M; shr_r := false; shr_s := false |}.
Proof.
  revert M. induction j as [j IH|j IH|]; intros M HM; cbn [SpecFloat.iter_pos].
  - assert (E : M * 2 ^ Z.pos j~1 = (M * 2 ^ Z.pos j * 2 ^ Z.pos j) * 2).
    { replace (Z.pos j~1) with (Z.pos j + Z.pos j + 1) by lia.
      rewrite !Z.pow_add_r by lia. rewrite Z.pow_1_r. ring. }
    rewrite E.
    assert (Hq : 0 < M * 2 ^ Z.pos j * 2 ^ Z.pos j).
    { assert (0 < 2 ^ Z.pos j) by (apply Z.pow_pos_nonneg; lia). nia. }
    destruct (M * 2 ^ Z.pos j * 2 ^ Z.pos j) as [|q|q] eqn:Eq; try lia.
    replace (Z.pos q * 2) with (Z.pos q~0) by lia. cbn [shr_1 orb].
    rewrite <- Eq. rewrite IH by (assert (0 < 2 ^ Z.pos j) by (apply Z.pow_pos_nonneg; lia); nia).
    apply IH, HM.
  - assert (E : M * 2 ^ Z.pos j~0 = M * 2 ^ Z.pos j * 2 ^ Z.pos j).
    { replace (Z.pos j~0) with (Z.pos j + Z.pos j) by lia.
      rewrite Z.pow_add_r by lia. ring. }
    rewrite E.
    rewrite IH by (assert (0 < 2 ^ Z.pos j) by (apply Z.pow_pos_nonneg; lia); nia).
    apply IH, HM.
  - destruct M as [|q|q]; try lia.
    replace (Z.pos q * 2 ^ 1) with (Z.pos q~0) by lia. reflexivity.
Qed.

(** Rounding a mantissa of 53 digits followed by [k] zeros is exact. *)
Lemma binary_round_aux_exact s (m : positive) k e :
  Z.pos (digits2_pos m) = 53 → 0 ≤ k → -1074 ≤ e ≤ 971 →
  binary_round_aux prec emax s (Z.pos m * 2 ^ k) (e - k) loc_Exact
  = S754_finite s m e.
Proof.
  intros Hd Hk He. unfold binary_round_aux, shr_fexp.
  rewrite Zdigits2_shift by exact Hk. rewrite Hd.
  assert (Ef : fexp prec emax (53 + k + (e - k)) - (e - k) = k).
  { unfold fexp, SpecFloat.emin, prec, emax. lia. }
  rewrite Ef. cbn [shr_record_of_loc].
  assert (Es : shr {| shr_m := Z.pos m * 2 ^ k; shr_r := false; shr_s := false |}
                 (e - k) k
               = ({| shr_m := Z.pos m; shr_r := false; shr_s := false |}, e)).
  { unfold shr. destruct k as [|j|j]; try lia.
    - rewrite Z.mul_1_r. f_equal. lia.
    - rewrite iter_shr_1_exact by lia. f_equal. lia. }
  rewrite Es. cbn [shr_m loc_of_shr_record round_nearest_even].
  cbn [Zdigits2]. rewrite Hd.
  assert (Ef' : fexp prec emax (53 + e) - e = 0)
    by (unfold fexp, SpecFloat.emin, prec, emax; lia).
  rewrite Ef'. cbn [shr shr_m].
  assert (El : (e <=? emax - prec) = true) by (unfold emax, prec; lia).
  rewrite El. reflexivity.
Qed.

Lemma pos_iter_xO (p d : positive) :
  Z.pos (Pos.iter xO p d) = Z.pos p * 2 ^ Z.pos d.
Proof.
  revert p. induction d as [|d IH] using Pos.peano_ind; intros p.
  - cbn. lia.
  - rewrite Pos.iter_succ, Pos2Z.inj_succ, Z.pow_succ_r by lia.
    rewrite Pos2Z.inj_xO, IH. ring.
Qed.

(** [float(p)] is exact for an integer below [2 ** 53]. *)
Lemma of_int_exact p :
  0 < p < 2 ^ 53 →
  ∃ m e, of_int p = Ret (S754_finite false m e) ∧
         Z.pos (digits2_pos m) = 53 ∧ -52 ≤ e ≤ 0 ∧ Z.pos m = p * 2 ^ (- e).
Proof.
  intros Hp. destruct p as [|q|q]; try lia.
  unfold of_int, binary_normalize, binary_round, shl_align.
  pose proof (digits2_pos_bounds q) as Hq.
  set (d := Z.pos (digits2_pos q)) in *.
  assert (Hd : 1 ≤ d ≤ 53).
  { split; [unfold d; lia|].
    destruct (Z_le_gt_dec d 53) as [|Hgt]; [assumption|exfalso].
    assert (2 ^ 53 ≤ 2 ^ (d - 1)) by (apply Z.pow_le_mono_r; lia). lia. }
  assert (Ef : fexp prec emax (d + 0) - 0 = d - 53)
    by (unfold fexp, SpecFloat.emin, prec, emax; lia).
  replace (fexp prec emax (d + 0)) with (d - 53) by lia.
  replace (d - 53 - 0) with (d - 53) by lia.
  destruct (d - 53) as [|j|j] eqn:Ej; try lia.
  - pose proof (binary_round_aux_exact false q 0 0) as H.
    rewrite Z.mul_1_r in H. change (0 - 0) with 0 in H.
    rewrite H by (unfold d in *; lia).
    exists q, 0. repeat split; unfold d in *; lia.
  - assert (Em : Z.pos (Pos.iter xO q j) = Z.pos q * 2 ^ Z.pos j)
      by apply pos_iter_xO.
    assert (Hdig : Z.pos (digits2_pos (Pos.iter xO q j)) = 53).
    { pose proof (Zdigits2_shift q (Z.pos j) ltac:(lia)) as Hs.
      rewrite <- Em in Hs. cbn [Zdigits2] in Hs. rewrite Hs. unfold d in *. lia. }
    pose proof (binary_round_aux_exact false (Pos.iter xO q j) 0 (Z.neg j)) as H.
    rewrite Z.mul_1_r in H. replace (Z.neg j - 0) with (Z.neg j) in H by lia.
    rewrite H by lia.
    exists (Pos.iter xO q j), (Z.neg j). repeat split; try lia.
    rewrite Em. reflexivity.
Qed.

(** Multiplying by a power of two is exact. *)
Lemma mul_two_to_minus m e j :
  Z.pos (digits2_pos m) = 53 → -1074 ≤ e - j ≤ 971 →
  mul (S754_finite false m e) (two_to_minus j) = S754_finite false m (e - j).
Proof.
  intros Hd He. unfold mul, two_to_minus. cbn [SFmul xorb].
  rewrite Pos2Z.inj_mul. change (Z.pos 4503599627370496) with (2 ^ 52).
  replace (e + (- 52 - j)) with (e - j - 52) by lia.
  apply binary_round_aux_exact; [exact Hd | lia | exact He].
Qed.

Lemma int_of_quarter_two_to_minus p j :
  0 < p < 2 ^ 53 → 0 ≤ j ≤ 1000 →
  int_of_quarter p (two_to_minus j) = Ret (p / 2 ^ (j + 2)).
Proof.
  intros Hp Hj. unfold int_of_quarter, int_mul_float.
  destruct (of_int_exact p Hp) as (m & e & -> & Hd & He & Hm).
  cbn [mbind res_bind mret res_ret].
  change quarter with (two_to_minus 2).
  rewrite (mul_two_to_minus m e 2 Hd) by lia.
  rewrite (mul_two_to_minus m (e - 2) j Hd) by lia.
  unfold to_int. cbn [cond_Zopp].
  destruct (e - 2 - j) as [|q|q] eqn:Eq; try lia.
  f_equal. rewrite Hm.
  replace (Z.pos q) with (j + 2 + - e) by lia.
  rewrite Z.pow_add_r by lia.
  apply Z.div_mul_cancel_r; apply Z.pow_nonzero; lia.
Qed.

Lemma int_of_quarter_zero_exact p :
  0 < p < 2 ^ 53 → int_of_quarter p zero = Ret 0.
Proof.
  intros Hp. unfold int_of_quarter, int_mul_float.
  destruct (of_int_exact p Hp) as (m & e & -> & Hd & He & Hm).
  cbn [mbind res_bind mret res_ret].
  change quarter with (two_to_minus 2).
  rewrite (mul_two_to_minus m e 2 Hd) by lia. reflexivity.
Qed.
End ExactArithmetic.

(** The amount as the specification words it is the one the code
    computes. *)
Lemma toward_zero_to_int x : toward_zero x = Float.to_int x.
Proof.
  destruct x as [s|s| |s m e]; try reflexivity.
  unfold toward_zero, Float.to_int. f_equal.
  destruct e as [|p|p].
  - replace (Z.max 0 0) with 0 by lia. replace (Z.max 0 (- 0)) with 0 by lia.
    rewrite Z.pow_0_r, Z.quot_1_r.
    destruct s; unfold cond_Zopp; lia.
  - replace (Z.max 0 (Z.pos p)) with (Z.pos p) by lia.
    replace (Z.max 0 (- Z.pos p)) with 0 by lia.
    rewrite Z.pow_0_r, Z.quot_1_r.
    assert (Hp : 0 < 2 ^ Z.pos p) by (apply Z.pow_pos_nonneg; lia).
    destruct s; unfold cond_Zopp; lia.
  - replace (Z.max 0 (Z.neg p)) with 0 by lia.
    replace (Z.max 0 (- Z.neg p)) with (Z.pos p) by lia.
    rewrite Z.pow_0_r, Z.mul_1_r.
    assert (Hp : 0 < 2 ^ Z.pos p) by (apply Z.pow_pos_nonneg; lia).
    destruct s; unfold cond_Zopp.
    + rewrite Z.quot_opp_l by lia. rewrite Z.quot_div_nonneg by lia. reflexivity.
    + apply Z.quot_div_nonneg; lia.
Qed.

Lemma spec_amount_int_of_quarter spread a :
  spec_amount spread a = int_of_quarter spread a.
Proof.
  unfold spec_amount, int_of_quarter, int_mul_float, Float.of_int, Float.mul,
    Float.quarter, Float.prec, Float.emax.
  destruct (binary_normalize 53 1024 spread 0 false);
    cbn [mbind res_bind mret res_ret]; try reflexivity;
    apply toward_zero_to_int.
Qed.

Lemma two_to_minus_unit j :
  0 ≤ j →
  Float.leb Float.zero (two_to_minus j) = true ∧
  Float.leb (two_to_minus j) Float.one = true.
Proof.
  intros Hj. split; [reflexivity|].
  unfold Float.leb, SFleb, two_to_minus, Float.one. cbn [SFcompare].
  destruct (Z.compare_spec (- 52 - j) (-52)); try reflexivity. lia.
Qed.

(** C6.  For a base buy price [b > 0], a base sell price [s > b] and an
    aggressiveness [a] with [0.0 <= a <= 1.0], let [d] be the spread
    [s - b] times 0.25 times [a] in binary64 arithmetic, rounded toward
    zero.  The adjustment returns [(b + d, s - d)], or [(b, s)] when
    [s - d <= b + d]; it raises exactly when the computation of [d]
    does; and the pair it returns always has its sell price above its
    buy price.  For a spread below [2 ** 53] the amount is an integer
    quotient: there is no adjustment at aggressiveness 0.0, and at the
    aggressiveness [2 ** -j] both prices move by [(s - b) // 2 ** (j + 2)],
    a quarter of the spread at 1.0. *)
Theorem adjust_prices_profitable b s a :
  0 < b → b < s →
  Float.leb Float.zero a = true → Float.leb a Float.one = true →
  match spec_amount (s - b) a with
  | Ret d =>
      0 ≤ d ∧
      _adjust_prices_for_aggressiveness b s a
      = Ret (if s - d <=? b + d then (b, s) else (b + d, s - d))
  | Raise e => _adjust_prices_for_aggressiveness b s a = Raise e
  end ∧
  (∀ b' s', _adjust_prices_for_aggressiveness b s a = Ret (b', s') → b' < s') ∧
  (s - b < 2 ^ 53 →
   _adjust_prices_for_aggressiveness b s Float.zero = Ret (b, s) ∧
   ∀ j, 0 ≤ j ≤ 1000 →
        _adjust_prices_for_aggressiveness b s (two_to_minus j)
        = Ret (b + (s - b) / 2 ^ (j + 2), s - (s - b) / 2 ^ (j + 2))).
Proof.
  intros Hb Hs H0 H1.
  assert (Hc : (b <=? 0) || (s <=? 0) || (s <=? b) = false)
    by (rewrite !orb_false_iff; repeat split; lia).
  rewrite spec_amount_int_of_quarter. split; [|split].
  - pose proof (adjust_amount_nonneg (s - b) a) as Hd.
    unfold _adjust_prices_for_aggressiveness. rewrite Hc.
    rewrite (int_of_quarter_clamp01 _ _ H0 H1) in *.
    destruct (int_of_quarter (s - b) a) as [d|e]; [|reflexivity].
    split; [apply Hd; [lia | reflexivity]|].
    cbn [mbind res_bind]. destruct (s - d <=? b + d); reflexivity.
  - intros b' s' H. apply adjust_prices_bounds in H; lia.
  - intros Hsp. split.
    + unfold _adjust_prices_for_aggressiveness. rewrite Hc.
      replace (clamp01 Float.zero) with Float.zero by reflexivity.
      rewrite int_of_quarter_zero_exact by lia. cbn [mbind res_bind].
      destruct (Z.leb_spec (s - 0) (b + 0)); [lia|].
      rewrite Z.add_0_r, Z.sub_0_r. reflexivity.
    + intros j Hj. unfold _adjust_prices_for_aggressiveness. rewrite Hc.
      destruct (two_to_minus_unit j) as [Hj0 Hj1]; [lia|].
      rewrite (int_of_quarter_clamp01 _ _ Hj0 Hj1).
      rewrite int_of_quarter_two_to_minus by lia. cbn [mbind res_bind].
      set (d := (s - b) / 2 ^ (j + 2)).
      assert (Hd : 0 ≤ d ∧ 4 * d ≤ s - b).
      { assert (H4 : 4 ≤ 2 ^ (j + 2)).
        { rewrite Z.pow_add_r by lia. change (2 ^ 2) with 4.
          assert (0 < 2 ^ j) by (apply Z.pow_pos_nonneg; lia). lia. }
        split; [apply Z.div_pos; lia|].
        assert (d ≤ (s - b) / 4) by (apply Z.div_le_compat_l; lia).
        pose proof (Z.mul_div_le (s - b) 4). lia. }
      destruct (Z.leb_spec (s - d) (b + d)); [lia | reflexivity].
Qed.

Lemma adjust_prices_profitable_witness :
  _adjust_prices_for_aggressiveness 100 200 Float.one = Ret (125, 175) ∧
  _adjust_prices_for_aggressiveness 100 200 (two_to_minus 1) = Ret (112, 188) ∧
  _adjust_prices_for_aggressiveness 100 200 Float.zero = Ret (100, 200) ∧
  _adjust_prices_for_aggressiveness 100 101 Float.one = Ret (100, 101).
Proof.
  destruct (adjust_prices_profitable 100 200 Float.one) as (_ & _ & H);
    [lia | lia | reflexivity | reflexivity |].
  destruct (H ltac:(lia)) as [Hz Hj].
  destruct (adjust_prices_profitable 100 101 Float.one) as (_ & _ & H');
    [lia | lia | reflexivity | reflexivity |].
  destruct (H' ltac:(lia)) as [_ Hj'].
  split; [exact (Hj 0 ltac:(lia))|].
  split; [exact (Hj 1 ltac:(lia))|].
  split; [exact Hz | exact (Hj' 0 ltac:(lia))].
Defined.

(** The edge case of the specification, and a plain one. *)
Example adjust_prices_edge :
  _adjust_prices_for_aggressiveness 100 101 Float.one = Ret (100, 101) ∧
  _adjust_prices_for_aggressiveness 100 200 Float.one = Ret (125, 175) ∧
  _adjust_prices_for_aggressiveness 100 103 Float.one = Ret (100, 103).
Proof. vm_compute. auto. Qed.

(** ** The quantity *)

(** C5 (amended).  The quantity of every suggestion is the minimum of
    [budget // buy_price], the purchase cap (if known), the remaining
    allowance clamped at zero (if supplied), the two liquidity capacities
    [max(1, int(volume * clamp01(liquidity_fraction)))] and the two
    fill-time caps [int(volume * max(0.0, max_fill_hours))]; it is at
    least 1, so each of these is at least 1: a budget quotient, cap,
    remaining allowance or fill-time cap that is zero or negative
    excludes the item, while a liquidity capacity that truncates to zero
    counts as 1. *)
Theorem quantity_is_minimum a universe c n out n' s :
  build_suggestions a universe c n = Ret (out, n') → s ∈ out →
  ∃ buy_scaled sell_scaled by_buy_time by_sell_time,
    int_of_scaled (buy_hourly_volume s) (clamp01 (liquidity_fraction a))
      = Ret buy_scaled ∧
    int_of_scaled (sell_hourly_volume s) (clamp01 (liquidity_fraction a))
      = Ret sell_scaled ∧
    int_of_scaled (buy_hourly_volume s)
      (Float.py_max Float.zero (max_fill_hours a)) = Ret by_buy_time ∧
    int_of_scaled (sell_hourly_volume s)
      (Float.py_max Float.zero (max_fill_hours a)) = Ret by_sell_time ∧
    buy_limit s = mapping a !! item_id s ≫= WikiItem.buy_limit ∧
    remaining_limit s = remaining_for (remaining_limits a) (item_id s) ∧
    quantity s =
      Z.min (Z.min (Z.min (Z.min
        (cap_by (cap_by (budget_gp a / buy_price_gp s) (buy_limit s))
                (remaining_limit s))
        (Z.max 1 buy_scaled)) (Z.max 1 sell_scaled))
        by_buy_time) by_sell_time ∧
    1 ≤ quantity s ∧
    1 ≤ budget_gp a / buy_price_gp s ∧
    (∀ cap, buy_limit s = Some cap → 1 ≤ cap) ∧
    (∀ r, remaining_limit s = Some r → 1 ≤ r) ∧
    1 ≤ by_buy_time ∧ 1 ≤ by_sell_time.
Proof.
  intros Hrun Hs.
  destruct (build_suggestions_elem _ _ _ _ _ _ _ Hrun Hs) as (i & n1 & n2 & Hi).
  apply build_suggestions_item_Some in Hi.
  destruct Hi as (m & bb & bs & lv & hv & _ & _ & He).
  destruct He as [_ _ _ Hi Hl Hr Hlv Hhv Hq Hpos _ _ _ _ _ _ _ _ _].
  destruct Hq as (x1 & x2 & x3 & x4 & H1 & H2 & H3 & H4 & Hq).
  subst lv hv i.
  exists x1, x2, x3, x4.
  pose proof (cap_by_le (cap_by (budget_gp a / buy_price_gp s) (buy_limit s))
                (remaining_limit s)) as Hc1.
  pose proof (cap_by_le (budget_gp a / buy_price_gp s) (buy_limit s)) as Hc2.
  repeat split; auto; try lia.
  - intros cap Hcap. rewrite Hcap in *. cbn [cap_by] in *. lia.
  - intros r Hrem. rewrite Hrem in *. cbn [cap_by] in *. lia.
Qed.

Lemma quantity_is_minimum_witness :
  1 ≤ quantity (scenario_suggestion "Item").
Proof.
  destruct (quantity_is_minimum
              (scenario 1700000000 "Item" "latest" "both" ten ten Float.zero 10)
              [1] (fun _ => 1700000000) 0%nat [scenario_suggestion "Item"]
              1%nat (scenario_suggestion "Item"))
    as (x1 & x2 & x3 & x4 & _ & _ & _ & _ & _ & _ & _ & H & _).
  - vm_compute. reflexivity.
  - left.
  - exact H.
Defined.

(** C5 as stated fails: with a liquidity fraction of 0.0 the capacity
    [int(0.0 * 1000)] is 0, yet the item of the scenario is returned, with
    quantity 1. *)
Lemma zero_liquidity_counterexample :
  match build_suggestions
          (with_liquidity_fraction Float.zero
             (scenario 1700000000 "Item" "latest" "both" ten ten Float.zero 10))
          [1] (fun _ => 1700000000) 0%nat with
  | Ret ([s], _) =>
      item_id s = 1 ∧ quantity s = 1 ∧
      ¬ zero_capacity_excludes
          (with_liquidity_fraction Float.zero
             (scenario 1700000000 "Item" "latest" "both" ten ten Float.zero 10))
          1 1000 [s]
  | _ => False
  end.
Proof.
  lazymatch goal with
  | |- match ?t with _ => _ end =>
      let v := eval vm_compute in t in
      replace t with v by (vm_compute; reflexivity)
  end.
  cbv beta iota. split; [reflexivity|]. split; [reflexivity|].
  intros H. eapply (H 0); [vm_compute; reflexivity | lia | left | reflexivity].
Qed.

(** ** The price selector *)

(** C9.  Under the hybrid policy (any source but ["1h"] and ["latest"]),
    without a five-minute feed, the selector agrees with the policy as
    the specification words it, at the clock sample it takes: the latest
    record's last prices when it exists and both its timestamps are
    within the threshold of now; otherwise the one-hour record's average
    prices when it is present; otherwise none; the volumes are those of
    the one-hour record when available and zero otherwise.  It raises
    exactly when the computation of an age does. *)
Theorem hybrid_policy i (latest one_hour : feed) ps max_age (c : clock) n :
  ps ≠ "1h" → ps ≠ "latest" →
  match _choose_prices_for_item i latest one_hour None ps max_age c n with
  | Ret (r, _) =>
      spec_hybrid (c n) (latest !! i) (one_hour !! i) max_age = Ret r
  | Raise e =>
      spec_hybrid (c n) (latest !! i) (one_hour !! i) max_age = Raise e
  end.
Proof.
  intros H1 H2. apply String.eqb_neq in H1, H2.
  unfold _choose_prices_for_item, spec_hybrid, spec_latest_is_fresh.
  rewrite H1, H2. cbn [five_min_get truthy_entry].
  unfold lasts, averages, vol_of, age_minutes.
  destruct (truthy_entry (latest !! i)) as [d|];
    [destruct (get d "highTime") as [th|], (get d "lowTime") as [tl|]|];
    try (destruct (truthy_entry (one_hour !! i)); reflexivity).
  rewrite M_bind_run. unfold time_now.
  rewrite M_bind_run.
  destruct (int_div_float (c n - th) Float.sixty) as [ah|e]; [|reflexivity].
  cbn [lift mbind res_bind]. rewrite M_bind_run.
  destruct (int_div_float (c n - tl) Float.sixty) as [al|e]; [|reflexivity].
  cbn [lift mbind res_bind mret res_ret].
  destruct (Float.leb ah max_age && Float.leb al max_age);
    destruct (truthy_entry (one_hour !! i)); reflexivity.
Qed.

Lemma hybrid_policy_witness :
  spec_hybrid 1700000000 (Some (stamped 1700000000)) (Some volumes) ten
  = Ret (Some (100, 120, 1000, 1000)).
Proof.
  pose proof (hybrid_policy 1 {[ 1 := stamped 1700000000 ]} {[ 1 := volumes ]}
                "hybrid" ten (fun _ => 1700000000) 0%nat
                ltac:(discriminate) ltac:(discriminate)) as H.
  vm_compute in H. vm_compute. exact H.
Defined.

(** With a five-minute feed supplied, the hybrid fallback prefers its
    averages to those of the one-hour record. *)
Example hybrid_prefers_five_minutes :
  erase (_choose_prices_for_item 7 ∅ {[ 7 := averaged ]}
           (Some {[ 7 := {[ "avgLowPrice" := Some 90; "avgHighPrice" := Some 130 ]} ]})
           "hybrid" ten (fun _ => 1700000000) 0%nat)
  = Ret (Some (90, 130, 1000, 1000)).
Proof. vm_compute. reflexivity. Qed.

(** ** The freshness filter *)

Lemma is_fresh_without_stamps lt fm policy c n :
  Float.gt_int fm 0 = true → lacks_stamps policy lt →
  ∃ n', _is_fresh_enough lt fm policy c n = Ret (false, n').
Proof.
  intros Hpos Hlt. unfold _is_fresh_enough.
  assert (E : negb (Float.truthy fm) || Float.le_int fm 0 = false).
  { unfold Float.gt_int, Float.le_int, Float.truthy in *.
    destruct fm as [s|s| |s m e]; cbn in *; try discriminate.
    - destruct s; [discriminate|reflexivity].
    - destruct e; match goal with
        | H : match ?x with _ => _ end = true |- _ => destruct x
        end; try discriminate; reflexivity. }
  rewrite E. unfold lacks_stamps in Hlt.
  destruct (truthy_entry lt) as [d|]; [|eexists; reflexivity].
  destruct Hlt as [[-> ->]|[Hp Hone]]; [eexists; reflexivity|].
  apply String.eqb_neq in Hp.
  assert (H60 : ∀ now t, within now (Some t) fm
                = Ret (Float.int_le (now - t) (Float.mul fm Float.sixty)))
    by reflexivity.
  destruct (get d "highTime") as [th|], (get d "lowTime") as [tl|];
    try (destruct Hone; discriminate); try (eexists; reflexivity).
  - eexists. rewrite M_bind_run. unfold time_now. cbv beta iota.
    rewrite M_bind_run, H60. cbn [lift]. rewrite M_bind_run.
    cbn [within lift mret res_ret]. cbv beta iota.
    rewrite Hp, andb_false_r. reflexivity.
  - eexists. rewrite M_bind_run. unfold time_now. cbv beta iota.
    rewrite M_bind_run. rewrite H60.
    cbn [within lift mret res_ret]. cbv beta iota.
    rewrite M_bind_run. cbn [lift]. cbv beta iota.
    rewrite Hp. reflexivity.
Qed.

(** C10.  With the freshness filter enabled ([fresh_minutes > 0]), an
    item that has no entry in the latest feed, or whose entry carries
    neither an integer [highTime] nor an integer [lowTime], is absent from
    the output under every price source, ["1h"] included; under a policy
    other than ["any"] one missing timestamp is enough. *)
Theorem stale_items_excluded a universe c n out n' i :
  Float.gt_int (fresh_minutes a) 0 = true →
  lacks_stamps (fresh_policy a) (latest a !! i) →
  build_suggestions a universe c n = Ret (out, n') →
  excluded i out.
Proof.
  intros Hpos Hlt Hrun s Hs Heq.
  destruct (build_suggestions_elem _ _ _ _ _ _ _ Hrun Hs) as (j & n1 & n2 & Hj).
  apply build_suggestions_item_Some in Hj.
  destruct Hj as (m & bb & bs & lv & hv & Hf & _ & He).
  destruct He as [_ _ _ Hi _ _ _ _ _ _ _ _ _ _ _ _ _ _ _].
  rewrite Heq in Hi. subst j.
  destruct (is_fresh_without_stamps _ _ _ c n1 Hpos Hlt) as [k Hk].
  rewrite Hk in Hf. discriminate.
Qed.

Lemma stale_items_excluded_witness :
  build_suggestions (windowed_only ten) [7] (fun _ => 1700000000) 0%nat
  = Ret ([], 0%nat) ∧
  excluded 7 [].
Proof.
  assert (H : build_suggestions (windowed_only ten) [7] (fun _ => 1700000000)
                0%nat = Ret ([], 0%nat)) by (vm_compute; reflexivity).
  split; [exact H|].
  apply (stale_items_excluded (windowed_only ten) [7] (fun _ => 1700000000)
           0%nat [] 0%nat 7); [reflexivity | exact I | exact H].
Defined.

(** With the filter off the same item is suggested from the one-hour
    prices alone. *)
Example windowed_only_unfiltered :
  match build_suggestions (windowed_only Float.zero) [7]
          (fun _ => 1700000000) 0%nat with
  | Ret ([s], _) => item_id s = 7 ∧ buy_price_gp s = 100 ∧ sell_price_gp s = 120
  | _ => False
  end.
Proof. vm_compute. auto. Qed.

(** ** What a run reads of the clock *)

Lemma sampled_weaken {A} k k' (m : M A) :
  (k ≤ k')%nat → sampled k m → sampled k' m.
Proof.
  intros Hk Hm c1 c2 n1 n2 Hc.
  assert (Hc' : agree_on k c1 c2 n1 n2) by (intros j Hj; apply Hc; lia).
  specialize (Hm c1 c2 n1 n2 Hc'). unfold same_outcome in *.
  destruct (m c1 n1) as [[x1 m1]|e1], (m c2 n2) as [[x2 m2]|e2]; auto.
  destruct Hm as (Hx & d & Hd & H1 & H2). split; [exact Hx|].
  exists d. split; [lia | auto].
Qed.

Lemma sampled_ret {A} k (x : A) : sampled k (mret x).
Proof.
  intros c1 c2 n1 n2 _. split; [reflexivity|]. exists 0%nat. lia.
Qed.

Lemma sampled_lift {A} k (r : res A) : sampled k (lift r).
Proof.
  intros c1 c2 n1 n2 _. destruct r as [x|e]; simpl; [|reflexivity].
  split; [reflexivity|]. exists 0%nat. lia.
Qed.

Lemma sampled_time_now : sampled 1 time_now.
Proof.
  intros c1 c2 n1 n2 Hc. unfold time_now. split.
  - specialize (Hc 0%nat). rewrite !Nat.add_0_r in Hc. apply Hc. lia.
  - exists 1%nat. lia.
Qed.

Lemma sampled_bind {A B} k1 k2 (m : M A) (f : A → M B) :
  sampled k1 m → (∀ x, sampled k2 (f x)) → sampled (k1 + k2) (m ≫= f).
Proof.
  intros Hm Hf c1 c2 n1 n2 Hc. rewrite !M_bind_run.
  assert (Hc1 : agree_on k1 c1 c2 n1 n2) by (intros j Hj; apply Hc; lia).
  specialize (Hm c1 c2 n1 n2 Hc1). unfold same_outcome in Hm.
  destruct (m c1 n1) as [[x1 m1]|e1], (m c2 n2) as [[x2 m2]|e2];
    try contradiction; [|exact Hm].
  destruct Hm as (<- & d & Hd & -> & ->).
  assert (Hc2 : agree_on k2 c1 c2 (n1 + d) (n2 + d)).
  { intros j Hj. rewrite <- !Nat.add_assoc. apply Hc. lia. }
  specialize (Hf x1 c1 c2 _ _ Hc2). unfold same_outcome in *.
  destruct (f x1 c1 (n1 + d)%nat) as [[y1 p1]|e1],
           (f x1 c2 (n2 + d)%nat) as [[y2 p2]|e2]; auto.
  destruct Hf as (Hy & d' & Hd' & -> & ->). split; [exact Hy|].
  exists (d + d')%nat. lia.
Qed.

Lemma sampled_now_bind {A} k (f : Z → M A) :
  (∀ x, sampled k (f x)) → sampled (S k) (time_now ≫= f).
Proof. intros Hf. apply (sampled_bind 1 k); [apply sampled_time_now | exact Hf]. Qed.

Lemma sampled_lift_bind {A B} k (r : res A) (f : A → M B) :
  (∀ x, sampled k (f x)) → sampled k (lift r ≫= f).
Proof. intros Hf. apply (sampled_bind 0 k); [apply sampled_lift | exact Hf]. Qed.

Ltac sampled_steps :=
  repeat first
    [ apply sampled_ret
    | apply sampled_lift
    | apply sampled_now_bind; intros ?
    | apply sampled_lift_bind; intros ?
    | match goal with
      | |- sampled _ (if ?b then _ else _) => destruct b
      | |- sampled _ (match ?o with Some _ => _ | None => _ end) => destruct o
      end ].

Lemma sampled_is_fresh_enough lt fm policy :
  sampled 1 (_is_fresh_enough lt fm policy).
Proof. unfold _is_fresh_enough. sampled_steps. Qed.

Lemma sampled_choose_prices i latest one_hour five_min ps max_age :
  sampled 1 (_choose_prices_for_item i latest one_hour five_min ps max_age).
Proof. unfold _choose_prices_for_item. sampled_steps. Qed.

Lemma sampled_item a i : sampled 2 (build_suggestions_item a i).
Proof.
  unfold build_suggestions_item.
  apply (sampled_bind 1 1); [apply sampled_is_fresh_enough|].
  intros fresh. destruct fresh; cbn [negb]; [|apply sampled_ret].
  apply (sampled_bind 1 0); [apply sampled_choose_prices|].
  intros [[[[bb bs] lv] hv]|]; [apply sampled_lift | apply sampled_ret].
Qed.

Lemma sampled_loop a universe results :
  sampled (2 * length universe) (build_suggestions_loop a universe results).
Proof.
  revert results. induction universe as [|i u IH]; intros rs.
  - apply sampled_ret.
  - cbn [build_suggestions_loop length].
    replace (2 * S (length u))%nat with (2 + 2 * length u)%nat by lia.
    apply sampled_bind; [apply sampled_item|]. intros o. apply IH.
Qed.

Lemma sampled_build_suggestions a universe :
  sampled (2 * length universe) (build_suggestions a universe).
Proof.
  unfold build_suggestions.
  replace (2 * length universe)%nat with (2 * length universe + 0)%nat by lia.
  apply sampled_bind; [|intros rs; apply sampled_ret].
  unfold restrict.
  destruct (include_item_ids a) as [inc|]; [|apply sampled_loop].
  eapply sampled_weaken; [|apply sampled_loop].
  pose proof (length_filter (fun iid => iid ∈ inc) universe). lia.
Qed.

(** C4 (amended).  The engine samples the clock once in each freshness
    check and once in each hybrid age check, so at most twice per item of
    the universe, and not once per invocation.  Its outcome is a function
    of the inputs and of those successive samples: two invocations on the
    same inputs whose clocks agree on the first [2 * len(universe)]
    samples end alike; in particular an invocation under a clock that
    returns [now] at every sample is the invocation at the constant
    [now]. *)
Theorem outcome_decided_by_samples a universe :
  (∀ c1 c2 : clock,
     (∀ k, (k < 2 * length universe)%nat → c1 k = c2 k) →
     build_suggestions a universe c1 0%nat = build_suggestions a universe c2 0%nat) ∧
  (∀ c out n, build_suggestions a universe c 0%nat = Ret (out, n) →
              (n ≤ 2 * length universe)%nat) ∧
  (∀ (c : clock) (now : Z),
     (∀ k, c k = now) →
     build_suggestions a universe c 0%nat
     = build_suggestions a universe (fun _ => now) 0%nat).
Proof.
  assert (Hext : ∀ c1 c2 : clock,
     (∀ k, (k < 2 * length universe)%nat → c1 k = c2 k) →
     build_suggestions a universe c1 0%nat = build_suggestions a universe c2 0%nat);
    [|split; [exact Hext|split; [|intros c now Hc; apply Hext; intros k _; apply Hc]]].
  - intros c1 c2 Hc.
    pose proof (sampled_build_suggestions a universe c1 c2 0%nat 0%nat Hc) as H.
    unfold same_outcome in H.
    destruct (build_suggestions a universe c1 0%nat) as [[x1 m1]|e1],
             (build_suggestions a universe c2 0%nat) as [[x2 m2]|e2];
      try contradiction; [|congruence].
    destruct H as (-> & d & _ & -> & ->). reflexivity.
  - intros c out n Hrun.
    pose proof (sampled_build_suggestions a universe c c 0%nat 0%nat
                  (fun _ _ => eq_refl)) as H.
    unfold same_outcome in H. rewrite Hrun in H.
    destruct H as (_ & d & Hd & -> & _). lia.
Qed.

(** C4 as stated fails: two clocks with the same first sample lead to
    different outputs.  Items 1 and 9 are both stamped 600 seconds before
    the first sample and the threshold is ten minutes; under the constant
    clock both are returned, under the clock that moves on by a second
    item 9 has become stale when its turn comes. *)
Lemma resampled_clock_counterexample :
  ¬ single_sample (twins 1700000000 "latest") [1; 9] ∧
  (∃ s1 s9, build_suggestions (twins 1700000000 "latest") [1; 9]
              (fun _ => 1700000600) 0%nat = Ret ([s1; s9], 2%nat)) ∧
  (∃ s1, build_suggestions (twins 1700000000 "latest") [1; 9]
           (ticking 1700000600) 0%nat = Ret ([s1], 2%nat)).
Proof.
  assert (H1 : ∃ s1 s9, build_suggestions (twins 1700000000 "latest") [1; 9]
              (fun _ => 1700000600) 0%nat = Ret ([s1; s9], 2%nat))
    by (vm_compute; eauto).
  assert (H2 : ∃ s1, build_suggestions (twins 1700000000 "latest") [1; 9]
           (ticking 1700000600) 0%nat = Ret ([s1], 2%nat))
    by (vm_compute; eauto).
  split; [|split; assumption].
  intros H. specialize (H (fun _ => 1700000600) (ticking 1700000600) eq_refl).
  destruct H1 as (s1 & s9 & E1), H2 as (s1' & E2).
  rewrite E1, E2 in H. discriminate.
Qed.

(** ** The ranking *)

Lemma key_lt_lexico k1 k2 :
  key_ok k1 → key_ok k2 →
  key_lt k1 k2 = true ↔ lexico (key_code k1) (key_code k2).
Proof.
  destruct k1 as [[p1 t1] r1], k2 as [[p2 t2] r2].
  intros [Hp1 Hr1] [Hp2 Hr2]. simpl in *.
  pose proof (ltb_lexico p1 p2 Hp1 Hp2) as Lp.
  pose proof (eqb_code p1 p2 Hp1 Hp2) as Ep.
  pose proof (ltb_lexico r1 r2 Hr1 Hr2) as Lr.
  pose proof (eqb_code r1 r2 Hr1 Hr2) as Er.
  pose proof (irreflexivity (@lexico (Z * Z * Z) _)) as Hirr.
  unfold key_lt, key_code.
  set (cp1 := code p1) in *. set (cp2 := code p2) in *.
  set (cr1 := code r1) in *. set (cr2 := code r2) in *.
  clearbody cp1 cp2 cr1 cr2.
  unfold lexico at 1, prod_lexico; cbn [fst snd].
  unfold lexico at 1, prod_lexico; cbn [fst snd].
  change (lexico t1 t2) with (t1 < t2).
  destruct (Float.eqb p1 p2); cbn [negb].
  - assert (cp1 = cp2) as -> by (apply Ep; reflexivity).
    destruct (Z.eqb_spec t1 t2) as [->|Ht]; cbn [negb].
    + destruct (Float.eqb r1 r2); cbn [negb].
      * assert (cr1 = cr2) as -> by (apply Er; reflexivity).
        split; [discriminate|].
        intros [[H|[_ H]]|[_ H]]; [apply Hirr in H | lia | apply Hirr in H]; contradiction.
      * rewrite Lr. split; [auto|].
        intros [[H|[_ H]]|[_ H]]; [apply Hirr in H; contradiction | lia | exact H].
    + rewrite Z.ltb_lt. split; [auto|].
      intros [[H|[_ H]]|[H _]]; [apply Hirr in H; contradiction | exact H | congruence].
  - rewrite Lp. split; [auto|].
    assert (cp1 ≠ cp2) by (intros E; apply Ep in E; discriminate).
    intros [[H0|[H0 _]]|[H0 _]]; [exact H0 | contradiction | congruence].
Qed.

Lemma no_nan_key_ok s : no_nan_key s → key_ok (sort_key s).
Proof. intros H; exact H. Qed.

Lemma rank_lt_lexico x y :
  no_nan_key x → no_nan_key y →
  key_lt (sort_key x) (sort_key y) = true
  ↔ lexico (key_code (sort_key x)) (key_code (sort_key y)).
Proof. intros Hx Hy. apply key_lt_lexico; assumption. Qed.

Lemma key_lt_asym x y :
  no_nan_key x → no_nan_key y →
  key_lt (sort_key x) (sort_key y) = true →
  key_lt (sort_key y) (sort_key x) = false.
Proof.
  intros Hx Hy H. apply (rank_lt_lexico _ _ Hx Hy) in H.
  destruct (key_lt (sort_key y) (sort_key x)) eqn:E; [|reflexivity].
  apply (rank_lt_lexico _ _ Hy Hx) in E.
  exfalso. apply (irreflexivity lexico (key_code (sort_key x))).
  exact (transitivity (R := lexico) H E).
Qed.

Lemma key_lt_le_trans x y z :
  no_nan_key x → no_nan_key y → no_nan_key z →
  key_lt (sort_key x) (sort_key z) = true →
  key_lt (sort_key y) (sort_key z) = false →
  key_lt (sort_key x) (sort_key y) = true.
Proof.
  intros Hx Hy Hz Hxz Hyz.
  apply (rank_lt_lexico _ _ Hx Hz) in Hxz.
  apply (rank_lt_lexico _ _ Hx Hy).
  destruct (trichotomyT lexico (key_code (sort_key y)) (key_code (sort_key z)))
    as [[H|H]|H].
  - apply (rank_lt_lexico _ _ Hy Hz) in H. congruence.
  - rewrite H. exact Hxz.
  - exact (transitivity (R := lexico) Hxz H).
Qed.

Lemma key_tie x y :
  no_nan_key x → no_nan_key y →
  key_lt (sort_key x) (sort_key y) = false →
  key_lt (sort_key y) (sort_key x) = false →
  key_code (sort_key x) = key_code (sort_key y).
Proof.
  intros Hx Hy Hxy Hyx.
  destruct (trichotomyT lexico (key_code (sort_key x)) (key_code (sort_key y)))
    as [[H|H]|H]; [|exact H|].
  - apply (rank_lt_lexico _ _ Hx Hy) in H. congruence.
  - apply (rank_lt_lexico _ _ Hy Hx) in H. congruence.
Qed.

Lemma key_lt_not_tied x y :
  no_nan_key x → no_nan_key y →
  key_lt (sort_key x) (sort_key y) = true →
  key_code (sort_key x) ≠ key_code (sort_key y).
Proof.
  intros Hx Hy H E. apply (rank_lt_lexico _ _ Hx Hy) in H. rewrite E in H.
  exact (irreflexivity lexico _ H).
Qed.

Lemma insert_desc_descending x l :
  no_nan_key x → Forall no_nan_key l →
  descending l → descending (insert_desc x l).
Proof.
  intros Hx Hl Hs. induction Hs as [|y l Hsl IH Hy]; cbn [insert_desc].
  - repeat constructor.
  - apply Forall_cons in Hl. destruct Hl as [Hny Hl].
    destruct (key_lt (sort_key x) (sort_key y)) eqn:E.
    + constructor; [apply IH, Hl|].
      rewrite insert_desc_perm. constructor; [|exact Hy].
      apply key_lt_asym; assumption.
    + constructor; [constructor; assumption|].
      constructor; [exact E|].
      rewrite Forall_forall in Hy, Hl |- *. intros z Hz.
      destruct (key_lt (sort_key x) (sort_key z)) eqn:Ez; [|reflexivity].
      rewrite (key_lt_le_trans x y z) in E; auto.
Qed.

Lemma sort_desc_descending l :
  Forall no_nan_key l → descending (sort_desc l).
Proof.
  induction 1 as [|x l Hx Hl IH]; [constructor|].
  cbn [sort_desc foldr]. apply insert_desc_descending; [exact Hx| |exact IH].
  fold (sort_desc l). rewrite sort_desc_perm. exact Hl.
Qed.

Lemma insert_desc_stable k x l :
  no_nan_key x → Forall no_nan_key l →
  filter (tied k) (insert_desc x l) = filter (tied k) (x :: l).
Proof.
  intros Hx Hl. induction Hl as [|y l Hy Hl IH]; [reflexivity|].
  cbn [insert_desc].
  destruct (key_lt (sort_key x) (sort_key y)) eqn:E; [|reflexivity].
  pose proof (key_lt_not_tied x y Hx Hy E) as Hne.
  rewrite (filter_cons _ y), IH, !(filter_cons _ x), (filter_cons _ y).
  unfold tied in *.
  destruct (decide (key_code (sort_key y) = k)), (decide (key_code (sort_key x) = k));
    try reflexivity.
  congruence.
Qed.

Lemma sort_desc_stable k l :
  Forall no_nan_key l → filter (tied k) (sort_desc l) = filter (tied k) l.
Proof.
  induction 1 as [|x l Hx Hl IH]; [reflexivity|].
  cbn [sort_desc foldr]. fold (sort_desc l).
  rewrite insert_desc_stable; [| exact Hx | rewrite sort_desc_perm; exact Hl].
  rewrite !(filter_cons _ x), IH. reflexivity.
Qed.

Lemma descending_take n l : descending l → descending (take n l).
Proof.
  intros H. unfold descending in *. rewrite <- (take_drop n l) in H.
  eapply StronglySorted_app_1_l, H.
Qed.

Lemma key_lt_irrefl x : no_nan_key x → key_lt (sort_key x) (sort_key x) = false.
Proof.
  intros Hx. destruct (key_lt (sort_key x) (sort_key x)) eqn:E; [|reflexivity].
  apply (rank_lt_lexico _ _ Hx Hx) in E.
  exfalso. exact (irreflexivity lexico _ E).
Qed.

(** A descending list is determined by its elements and by the order
    inside each class of tied elements: any stable sort computes
    [sort_desc]. *)
Lemma descending_stable_unique l1 l2 :
  Forall no_nan_key l1 → descending l1 → descending l2 → l1 ≡ₚ l2 →
  (∀ k, filter (tied k) l1 = filter (tied k) l2) → l1 = l2.
Proof.
  intros Hnn H1. revert l2.
  induction H1 as [|x l1 Hs1 IH Hx]; intros l2 H2 Hp Hf.
  { symmetry. apply Permutation_nil. exact Hp. }
  destruct H2 as [|y l2 Hs2 Hy].
  { apply Permutation_nil_r in Hp. discriminate. }
  apply Forall_cons in Hnn. destruct Hnn as [Hnx Hnn].
  assert (Hny : no_nan_key y).
  { assert (Hin : y ∈ x :: l1) by (rewrite Hp; left).
    apply elem_of_cons in Hin. destruct Hin as [->|Hin]; [exact Hnx|].
    rewrite Forall_forall in Hnn. auto. }
  assert (Hxy : key_lt (sort_key x) (sort_key y) = false).
  { assert (Hin : y ∈ x :: l1) by (rewrite Hp; left).
    apply elem_of_cons in Hin. destruct Hin as [->|Hin];
      [apply key_lt_irrefl, Hnx|].
    rewrite Forall_forall in Hx. auto. }
  assert (Hyx : key_lt (sort_key y) (sort_key x) = false).
  { assert (Hin : x ∈ y :: l2) by (rewrite <- Hp; left).
    apply elem_of_cons in Hin. destruct Hin as [->|Hin];
      [apply key_lt_irrefl, Hny|].
    rewrite Forall_forall in Hy. auto. }
  pose proof (key_tie x y Hnx Hny Hxy Hyx) as Htie.
  assert (x = y) as <-.
  { pose proof (Hf (key_code (sort_key x))) as Hk.
    rewrite !filter_cons in Hk. unfold tied in Hk at 1 3.
    rewrite decide_True in Hk by reflexivity.
    rewrite decide_True in Hk by (symmetry; exact Htie).
    inversion Hk. reflexivity. }
  f_equal. apply IH; [exact Hnn | exact Hs2 | eapply Permutation_cons_inv, Hp|].
  intros k. specialize (Hf k). rewrite !filter_cons in Hf.
  destruct (decide (tied k x)); [inversion Hf; reflexivity | exact Hf].
Qed.

Lemma sort_desc_canonical l l' :
  Forall no_nan_key l → l' ≡ₚ l → descending l' →
  (∀ k, filter (tied k) l' = filter (tied k) l) → l' = sort_desc l.
Proof.
  intros Hnn Hp Hd Hf. symmetry.
  apply descending_stable_unique.
  - rewrite sort_desc_perm. exact Hnn.
  - apply sort_desc_descending, Hnn.
  - exact Hd.
  - rewrite sort_desc_perm. symmetry. exact Hp.
  - intros k. rewrite sort_desc_stable by exact Hnn. symmetry. apply Hf.
Qed.

Lemma div_not_nan y x r :
  Float.is_nan y = false → (∀ s, y ≠ S754_infinity s) →
  Float.gt_int x 0 = true → Float.div y x = Ret r → Float.is_nan r = false.
Proof.
  unfold Float.div. intros Hy Hinf Hx.
  destruct x as [sx|sx| |sx mx ex]; try discriminate; cbn [Float.is_zero];
    intros [= <-];
    destruct y as [sy|sy| |sy my ey]; try discriminate; try reflexivity;
    try (exfalso; eapply Hinf; reflexivity).
  eapply signed_not_nan, div_finite_signed.
Qed.

Lemma emitted_no_nan a i bb bs lv hv s :
  emitted a i bb bs lv hv s → no_nan_key s.
Proof.
  intros He. split.
  - destruct (Float.gt_int (expected_fill_hours s) 0) eqn:E.
    + pose proof (em_rate _ _ _ _ _ _ _ He) as Hr. rewrite E in Hr.
      unfold int_div_float in Hr.
      apply res_bind_Ret in Hr. destruct Hr as (y & Hy & Hr).
      eapply div_not_nan; [| |exact E|exact Hr].
      * eapply of_int_not_nan, Hy.
      * intros sg. eapply of_int_not_inf, Hy.
    + pose proof (em_rate _ _ _ _ _ _ _ He) as Hr. rewrite E in Hr.
      eapply of_int_not_nan, Hr.
  - eapply int_truediv_not_nan, (em_roi _ _ _ _ _ _ _ He).
Qed.

Lemma loop_results_no_nan a universe c n results n' :
  build_suggestions_loop a universe [] c n = Ret (results, n') →
  Forall no_nan_key results.
Proof.
  intros H. apply Forall_forall. intros s Hs.
  destruct (build_suggestions_loop_elem _ _ _ _ _ _ _ H s Hs)
    as [Hin|(i & n1 & n2 & _ & Hrun)].
  - apply elem_of_nil in Hin. contradiction.
  - apply build_suggestions_item_Some in Hrun.
    destruct Hrun as (m & bb & bs & lv & hv & _ & _ & He).
    eapply emitted_no_nan, He.
Qed.

(** Under a clock held constant the body does not depend on the count of
    samples. *)
Lemma item_constant_clock a i (c : clock) now n :
  (∀ j, c j = now) →
  erase (build_suggestions_item a i c n) = erase (build_suggestions_item a i c 0%nat).
Proof.
  intros Hc.
  assert (Ha : agree_on 2 c c n 0%nat) by (intros j _; rewrite !Hc; reflexivity).
  pose proof (sampled_item a i c c n 0%nat Ha) as H. unfold same_outcome in H.
  destruct (build_suggestions_item a i c n) as [[x1 m1]|e1],
           (build_suggestions_item a i c 0%nat) as [[x2 m2]|e2];
    try contradiction; cbn [erase].
  - destruct H as [-> _]. reflexivity.
  - congruence.
Qed.

Lemma loop_constant_clock a (c : clock) now universe results n out n' :
  (∀ j, c j = now) →
  build_suggestions_loop a universe results c n = Ret (out, n') →
  Forall (fun i => ∃ o, erase (build_suggestions_item a i c 0%nat) = Ret o) universe ∧
  out = results ++
          (universe ≫= fun i => appended (erase (build_suggestions_item a i c 0%nat))).
Proof.
  intros Hc. revert results n. induction universe as [|i u IH]; intros rs n H.
  - inversion H; subst. split; [constructor|]. cbn. rewrite app_nil_r. reflexivity.
  - cbn [build_suggestions_loop] in H.
    apply M_bind_Ret in H. destruct H as (o & n1 & Hi & H).
    apply IH in H. destruct H as [Hall ->].
    assert (Hv : erase (build_suggestions_item a i c 0%nat) = Ret o).
    { rewrite <- (item_constant_clock a i c now n Hc), Hi. reflexivity. }
    split; [constructor; [eauto | exact Hall]|].
    cbn [mbind list_bind]. rewrite Hv. cbn [appended].
    destruct o; rewrite <- ?app_assoc; reflexivity.
Qed.

Lemma loop_constant_clock_Ret a (c : clock) now universe results n :
  (∀ j, c j = now) →
  Forall (fun i => ∃ o, erase (build_suggestions_item a i c 0%nat) = Ret o) universe →
  ∃ n', build_suggestions_loop a universe results c n
        = Ret (results ++
                 (universe ≫= fun i => appended (erase (build_suggestions_item a i c 0%nat))),
               n').
Proof.
  intros Hc Hall. revert results n.
  induction Hall as [|i u [o Ho] Hall IH]; intros rs n.
  - exists n. cbn. rewrite app_nil_r. reflexivity.
  - cbn [build_suggestions_loop].
    assert (Hi : ∃ n1, build_suggestions_item a i c n = Ret (o, n1)).
    { rewrite <- (item_constant_clock a i c now n Hc) in Ho.
      destruct (build_suggestions_item a i c n) as [[x m]|e]; [|discriminate].
      inversion Ho; subst. eauto. }
    destruct Hi as [n1 Hi].
    rewrite (M_bind_step _ _ _ _ _ _ Hi).
    destruct (IH (match o with Some s => rs ++ [s] | None => rs end) n1) as [n' Hn'].
    exists n'. rewrite Hn'. f_equal. f_equal.
    cbn [mbind list_bind]. rewrite Ho. cbn [appended].
    destruct o; rewrite <- ?app_assoc; reflexivity.
Qed.

Lemma restrict_Permutation inc u1 u2 :
  u1 ≡ₚ u2 → restrict inc u1 ≡ₚ restrict inc u2.
Proof. intros H. destruct inc; cbn [restrict]; [rewrite H|]; auto. Qed.

Lemma eqb_not_ltb x y : Float.eqb x y = true → Float.ltb x y = false.
Proof.
  unfold Float.eqb, Float.ltb, SFeqb, SFltb.
  destruct (SFcompare x y) as [[]|]; auto; discriminate.
Qed.

Lemma key_lt_ranks_below x y :
  key_lt (sort_key x) (sort_key y) = true ↔ ranks_below x y.
Proof.
  unfold key_lt, sort_key, ranks_below.
  destruct (Float.eqb (profit_per_hour_gp x) (profit_per_hour_gp y)) eqn:Ep;
    cbn [negb].
  - rewrite (eqb_not_ltb _ _ Ep).
    destruct (Z.eqb_spec (total_profit_gp x) (total_profit_gp y)) as [Et|Et];
      cbn [negb].
    + destruct (Float.eqb (unit_roi x) (unit_roi y)) eqn:Er; cbn [negb].
      * rewrite (eqb_not_ltb _ _ Er). split; [discriminate|].
        intros [H|[_ [H|[_ H]]]]; try discriminate; lia.
      * split; [intros H; right; split; [reflexivity|right; auto]|].
        intros [H|[_ [H|[_ H]]]]; try discriminate; try lia; exact H.
    + rewrite Z.ltb_lt. split; [intros H; right; split; [reflexivity|left; exact H]|].
      intros [H|[_ [H|[H _]]]]; try discriminate; try lia.
  - split; [intros H; left; exact H|].
    intros [H|[H _]]; [exact H | discriminate].
Qed.

Lemma descending_ranked l : descending l → ranked l.
Proof.
  unfold descending, ranked. induction 1 as [|x l Hs IH Hx]; constructor; auto.
  eapply Forall_impl; [exact Hx|]. intros y Hy Hr.
  apply key_lt_ranks_below in Hr. congruence.
Qed.

Lemma ties_tied x s :
  no_nan_key x → no_nan_key s →
  tie_class x s ↔ tied (key_code (sort_key x)) s.
Proof.
  intros [Hx1 Hx2] [Hs1 Hs2]. unfold tie_class, ties, tied, key_code, sort_key.
  rewrite !andb_true_iff, Z.eqb_eq.
  rewrite (eqb_code _ _ Hx1 Hs1), (eqb_code _ _ Hx2 Hs2).
  split.
  - intros [[-> ->] ->]. reflexivity.
  - intros [= -> -> ->]. auto.
Qed.

Lemma filter_tie_class x l :
  no_nan_key x → Forall no_nan_key l →
  filter (tie_class x) l = filter (tied (key_code (sort_key x))) l.
Proof.
  intros Hx Hl. induction Hl as [|s l Hs _ IH]; [reflexivity|].
  rewrite !filter_cons, IH.
  destruct (decide (tie_class x s)) as [H|H], (decide (tied (key_code (sort_key x)) s)) as [H'|H'];
    try reflexivity; exfalso.
  - apply H', ties_tied; assumption.
  - apply H, ties_tied; assumption.
Qed.

(** C3 (amended).  The output is in descending lexicographic order on
    [(profit_per_hour, total_profit, unit_roi)] (no key is NaN, so this
    is a total preorder) and has at most [max(1, top_n)] elements: it is
    the head of a list [sorted] that permutes the suggestions the loop
    appended, is in descending order, and keeps the suggestions that tie
    on all three keys in the order in which their items were iterated.
    When no two of the appended suggestions tie, reordering the
    iteration of the universe leaves the output unchanged (the clock
    being held constant). *)
Theorem ranking a universe c n out n' :
  build_suggestions a universe c n = Ret (out, n') →
  ranked out ∧ Forall no_nan_key out ∧
  (length out ≤ Z.to_nat (Z.max 1 (top_n a)))%nat ∧
  ∃ results sorted,
    build_suggestions_loop a (restrict (include_item_ids a) universe) [] c n
      = Ret (results, n') ∧
    sorted ≡ₚ results ∧ ranked sorted ∧
    (∀ x, x ∈ results →
          filter (tie_class x) sorted = filter (tie_class x) results) ∧
    out = take (Z.to_nat (Z.max 1 (top_n a))) sorted ∧
    (∀ now universe2,
        (∀ j, c j = now) → universe ≡ₚ universe2 →
        (∀ s1 s2, s1 ∈ results → s2 ∈ results → ties s1 s2 = true → s1 = s2) →
        ∃ n2, build_suggestions a universe2 c n = Ret (out, n2)).
Proof.
  unfold build_suggestions. intros H.
  apply M_bind_Ret in H. destruct H as (rs & n1 & Hl & H).
  apply M_ret_Ret in H. destruct H as [-> ->].
  pose proof (loop_results_no_nan _ _ _ _ _ _ Hl) as Hnn.
  assert (Hnn' : Forall no_nan_key (sort_desc rs))
    by (rewrite sort_desc_perm; exact Hnn).
  split; [apply descending_ranked, descending_take, sort_desc_descending, Hnn|].
  split; [apply Forall_take, Hnn'|].
  split; [rewrite length_take; lia|].
  exists rs, (sort_desc rs). split; [exact Hl|].
  split; [apply sort_desc_perm|].
  split; [apply descending_ranked, sort_desc_descending, Hnn|].
  split.
  { intros x Hx.
    assert (Hnx : no_nan_key x) by (rewrite Forall_forall in Hnn; auto).
    rewrite !filter_tie_class by assumption. apply sort_desc_stable, Hnn. }
  split; [reflexivity|].
  intros now u2 Hc Hperm Hties.
  set (f := fun i => appended (erase (build_suggestions_item a i c 0%nat))).
  destruct (loop_constant_clock _ _ _ _ _ _ _ _ Hc Hl) as [Hall Hrs].
  pose proof (restrict_Permutation (include_item_ids a) _ _ Hperm) as Hp'.
  rewrite Hp' in Hall.
  destruct (loop_constant_clock_Ret a c now _ [] n Hc Hall) as [n2 Hl2].
  fold f in Hrs, Hl2. cbn [app] in Hrs, Hl2.
  exists n2. rewrite (M_bind_step _ _ _ _ _ _ Hl2). unfold mret, M_ret.
  do 2 f_equal. f_equal.
  assert (Hrs2 : restrict (include_item_ids a) u2 ≫= f ≡ₚ rs)
    by (rewrite Hrs, Hp'; reflexivity).
  pose proof (loop_results_no_nan _ _ _ _ _ _ Hl2) as Hnn2.
  symmetry. apply (StronglySorted_unique_strong
           (fun x y => key_lt (sort_key x) (sort_key y) = false)).
  - intros x1 x2 H1 H2 R12 R21.
    rewrite sort_desc_perm in H1, H2. rewrite Hrs2 in H2.
    rewrite Forall_forall in Hnn.
    apply Hties; auto. apply (ties_tied x1 x2); auto.
    unfold tied. symmetry. apply key_tie; auto.
  - apply sort_desc_descending, Hnn.
  - apply sort_desc_descending, Hnn2.
  - rewrite !sort_desc_perm. symmetry. exact Hrs2.
Qed.

Lemma twins_universe t ps u : u = [1; 9] ∨ u = [9; 1] → is_universe (twins t ps) u.
Proof.
  intros Hu. split.
  - destruct Hu as [-> | ->];
      (apply NoDup_cons; split; [|apply NoDup_singleton]);
      rewrite list_elem_of_singleton; discriminate.
  - intros i. cbn [one_hour latest twins].
    rewrite !dom_insert_L, !dom_singleton_L.
    destruct Hu as [-> | ->];
      rewrite !elem_of_cons, elem_of_nil, !elem_of_union, !elem_of_singleton;
      tauto.
Qed.

Lemma ranking_witness :
  match build_suggestions (market 1700000000) [1; 4; 9]
          (fun _ => 1700000000) 0%nat with
  | Ret (out, _) =>
      item_id <$> out = [9; 4; 1] ∧ ranked out ∧
      (length out ≤ Z.to_nat (Z.max 1 10))%nat
  | Raise _ => False
  end ∧
  match build_suggestions (with_top_n 2 (market 1700000000)) [1; 4; 9]
          (fun _ => 1700000000) 0%nat with
  | Ret (out, _) =>
      item_id <$> out = [9; 4] ∧ ranked out ∧
      (length out ≤ Z.to_nat (Z.max 1 2))%nat
  | Raise _ => False
  end.
Proof.
  split.
  - destruct (build_suggestions (market 1700000000) [1; 4; 9]
                (fun _ => 1700000000) 0%nat) as [[out n']|e] eqn:E.
    + destruct (ranking _ _ _ _ _ _ E) as (H1 & _ & H2 & _).
      split; [|split; [exact H1 | exact H2]].
      vm_compute in E. injection E as <- _. reflexivity.
    + vm_compute in E. discriminate E.
  - destruct (build_suggestions (with_top_n 2 (market 1700000000)) [1; 4; 9]
                (fun _ => 1700000000) 0%nat) as [[out n']|e] eqn:E.
    + destruct (ranking _ _ _ _ _ _ E) as (H1 & _ & H2 & _).
      split; [|split; [exact H1 | exact H2]].
      vm_compute in E. injection E as <- _. reflexivity.
    + vm_compute in E. discriminate E.
Defined.

(** C3 as stated fails: items 1 and 9 carry the same prices and volumes,
    so their suggestions tie on all three keys; iterating the universe as
    [1, 9] or as [9, 1] gives the two suggestions in that same order. *)
Lemma tie_order_counterexample :
  ¬ order_independent (twins 1700000000 "latest") 1700000000 ∧
  match build_suggestions (twins 1700000000 "latest") [1; 9]
          (fun _ => 1700000000) 0%nat,
        build_suggestions (twins 1700000000 "latest") [9; 1]
          (fun _ => 1700000000) 0%nat with
  | Ret (out1, _), Ret (out2, _) =>
      item_id <$> out1 = [1; 9] ∧ item_id <$> out2 = [9; 1] ∧
      sort_key <$> out1 = sort_key <$> out2
  | _, _ => False
  end.
Proof.
  split.
  - intros H.
    specialize (H [1; 9] [9; 1] (twins_universe _ _ _ (or_introl eq_refl))
                  (twins_universe _ _ _ (or_intror eq_refl))).
    vm_compute in H. discriminate.
  - vm_compute. auto.
Qed.

(** ** The purchase-window accountant on the local log *)

Section LimitsFacts.
Variable int_of_str : string → option Z.
Variable str_of : json → string.

Lemma parse_dump e :
  Limits.parse_event int_of_str str_of (Limits.dump_event e) = Some e.
Proof. destruct e as [t i ty q]. vm_compute. reflexivity. Qed.

Lemma parse_dump_all (l : list Limits.LimitEvent) :
  omap (Limits.parse_event int_of_str str_of) (Limits.dump_event <$> l) = l.
Proof.
  induction l as [|e l IH]; [reflexivity|].
  cbn [fmap list_fmap omap list_omap]. rewrite parse_dump.
  f_equal. exact IH.
Qed.

(** Reading back what [save_state] wrote: the events not older than twice
    the window at the sample taken. *)
Lemma load_saved fs path state fs' (c : clock) n :
  Limits.save_state fs path state = Ret fs' →
  Limits.load_state int_of_str str_of fs' path c n
  = Ret ({| Limits.events :=
              filter (fun e => c n - 2 * Limits.FOUR_HOURS_SEC ≤ Limits.ts e)
                     (Limits.events state);
            Limits.version := Limits.version state |}, S n).
Proof.
  unfold Limits.save_state, Limits.load_state.
  destruct (String.eqb path "") eqn:E; [discriminate|].
  intros [= <-]. rewrite lookup_insert_eq.
  assert (Hev : ∀ (v : Z) (l : list json),
            ({[ "version" := JInt v; "events" := JList l ]} : gmap string json)
              !! "events" = Some (JList l)) by (intros; vm_compute; reflexivity).
  assert (Hve : ∀ (v : Z) (l : list json),
            ({[ "version" := JInt v; "events" := JList l ]} : gmap string json)
              !! "version" = Some (JInt v)) by (intros; vm_compute; reflexivity).
  rewrite Hev, Hve. unfold default, from_option, id.
  rewrite M_bind_run. cbn [Limits.iterate lift]. cbv beta iota zeta.
  rewrite M_bind_run. unfold time_now. cbv beta iota zeta.
  rewrite M_bind_run. cbn [Json.int lift]. cbv beta iota.
  rewrite parse_dump_all. reflexivity.
Qed.

Lemma load_missing fs path (c : clock) n :
  fs !! path = None →
  Limits.load_state int_of_str str_of fs path c n
  = Ret ({| Limits.events := []; Limits.version := 1 |}, n).
Proof.
  intros H. unfold Limits.load_state. rewrite H.
  destruct (String.eqb path ""); reflexivity.
Qed.

Lemma append_buy fs path i q ts (c : clock) n st n1 :
  Limits.load_state int_of_str str_of fs path c n = Ret (st, n1) →
  Limits.append_event int_of_str str_of fs path i q "buy" ts c n
  = match ts with
    | Some t =>
        lift (Limits.save_state fs path
                {| Limits.events := Limits.events st ++
                     [{| Limits.ts := t; Limits.item_id := i;
                         Limits.type := "buy"; Limits.qty := q |}];
                   Limits.version := Limits.version st |}) c n1
    | None =>
        lift (Limits.save_state fs path
                {| Limits.events := Limits.events st ++
                     [{| Limits.ts := c n1; Limits.item_id := i;
                         Limits.type := "buy"; Limits.qty := q |}];
                   Limits.version := Limits.version st |}) c (S n1)
    end.
Proof.
  intros H. unfold Limits.append_event. cbn [String.eqb Ascii.eqb Bool.eqb orb negb].
  rewrite (M_bind_step _ _ _ _ _ _ H).
  destruct ts as [t|]; rewrite M_bind_run; reflexivity.
Qed.

Lemma compute_loaded fs path limits (c : clock) n st n1 :
  Limits.load_state int_of_str str_of fs path c n = Ret (st, n1) →
  Limits.compute_remaining_limits int_of_str str_of fs path limits c n
  = Ret (remaining_of
           (foldl (Limits.count_event (c n1 - Limits.FOUR_HOURS_SEC)) ∅
                  (Limits.events st)) limits, S n1).
Proof.
  intros H. unfold Limits.compute_remaining_limits.
  rewrite (M_bind_step _ _ _ _ _ _ H). rewrite M_bind_run. reflexivity.
Qed.

Lemma remaining_of_lookup used (limits : gmap Z (option Z)) i C :
  limits !! i = Some (Some C) →
  remaining_of used limits !! i = Some (Z.max 0 (C - default 0 (used !! i))).
Proof.
  intros H. unfold remaining_of. rewrite map_lookup_imap, H. reflexivity.
Qed.
End LimitsFacts.

(** C7 (amended).  Starting from an empty log (no file at [path]),
    recording a buy of [q] units of item [i], whose cap is [C], and then
    computing the remaining limits gives [max(0, C - max(0, q))] for
    [i], so [max(0, C - q)] when [q] is not negative; recording a second
    buy of [q] gives [max(0, C - 2 max(0, q))]; this for any clock that
    does not run past the four-hour window during these calls.  A buy
    whose timestamp is older than the window at the time of the
    computation contributes nothing: the remaining limit is
    [max(0, C)], so 100 for a cap of 100. *)
Theorem accountant_round_trip int_of_str str_of (fs : gmap string json) path
    i q C (limits : gmap Z (option Z)) (c : clock) :
  path ≠ "" → fs !! path = None → limits !! i = Some (Some C) →
  (∀ j k, (j ≤ 4)%nat → (k ≤ 4)%nat → c k - Limits.FOUR_HOURS_SEC ≤ c j) →
  (∃ fs1 fs2 r1 r2,
     Limits.append_event int_of_str str_of fs path i q "buy" None c 0%nat
       = Ret (fs1, 1%nat) ∧
     Limits.compute_remaining_limits int_of_str str_of fs1 path limits c 1%nat
       = Ret (r1, 3%nat) ∧
     r1 !! i = Some (Z.max 0 (C - Z.max 0 q)) ∧
     Limits.append_event int_of_str str_of fs1 path i q "buy" None c 1%nat
       = Ret (fs2, 3%nat) ∧
     Limits.compute_remaining_limits int_of_str str_of fs2 path limits c 3%nat
       = Ret (r2, 5%nat) ∧
     r2 !! i = Some (Z.max 0 (C - 2 * Z.max 0 q))) ∧
  (∀ t, t < c 1%nat - Limits.FOUR_HOURS_SEC →
     ∃ fs' r,
       Limits.append_event int_of_str str_of fs path i q "buy" (Some t) c 0%nat
         = Ret (fs', 0%nat) ∧
       Limits.compute_remaining_limits int_of_str str_of fs' path limits c 0%nat
         = Ret (r, 2%nat) ∧
       r !! i = Some (Z.max 0 C)).
Proof.
  intros Hpath Hnone Hlim Hwin.
  apply String.eqb_neq in Hpath.
  assert (Hsave : ∀ fs0 st, ∃ fs', Limits.save_state fs0 path st = Ret fs').
  { intros fs0 st. unfold Limits.save_state. rewrite Hpath. eauto. }
  pose proof (load_missing int_of_str str_of fs path c 0%nat Hnone) as Hl0.
  split.
  - (* two buys inside the window *)
    set (e0 := {| Limits.ts := c 0%nat; Limits.item_id := i;
                  Limits.type := "buy"; Limits.qty := q |}).
    set (e1 := {| Limits.ts := c 2%nat; Limits.item_id := i;
                  Limits.type := "buy"; Limits.qty := q |}).
    destruct (Hsave fs {| Limits.events := [e0]; Limits.version := 1 |})
      as [fs1 Hs1].
    destruct (Hsave fs1 {| Limits.events := [e0; e1]; Limits.version := 1 |})
      as [fs2 Hs2].
    pose proof (Hwin 0%nat 1%nat) as W01. pose proof (Hwin 0%nat 2%nat) as W02.
    pose proof (Hwin 0%nat 3%nat) as W03. pose proof (Hwin 0%nat 4%nat) as W04.
    pose proof (Hwin 2%nat 3%nat) as W23. pose proof (Hwin 2%nat 4%nat) as W24.
    unfold Limits.FOUR_HOURS_SEC in *.
    assert (Hl1 : Limits.load_state int_of_str str_of fs1 path c 1%nat
                  = Ret ({| Limits.events := [e0]; Limits.version := 1 |}, 2%nat)).
    { rewrite (load_saved _ _ _ _ _ _ c 1%nat Hs1). cbn [Limits.events Limits.version].
      rewrite filter_cons, decide_True; [reflexivity|].
      unfold Limits.FOUR_HOURS_SEC. cbn [Limits.ts e0]. lia. }
    assert (Hl3 : Limits.load_state int_of_str str_of fs2 path c 3%nat
                  = Ret ({| Limits.events := [e0; e1]; Limits.version := 1 |}, 4%nat)).
    { rewrite (load_saved _ _ _ _ _ _ c 3%nat Hs2). cbn [Limits.events Limits.version].
      rewrite filter_cons, decide_True;
        [|unfold Limits.FOUR_HOURS_SEC; cbn [Limits.ts e0]; lia].
      rewrite filter_cons, decide_True;
        [|unfold Limits.FOUR_HOURS_SEC; cbn [Limits.ts e1]; lia].
      reflexivity. }
    eexists fs1, fs2, _, _.
    split; [rewrite (append_buy _ _ _ _ _ _ _ _ _ _ _ Hl0); cbn [Limits.events Limits.version app];
            fold e0; rewrite Hs1; reflexivity|].
    split; [apply (compute_loaded _ _ _ _ _ _ _ _ _ Hl1)|].
    split.
    { rewrite (remaining_of_lookup _ _ _ _ Hlim). cbn [Limits.events foldl].
      unfold Limits.count_event at 1. cbn [Limits.type Limits.ts Limits.item_id Limits.qty e0].
      cbn [String.eqb Ascii.eqb Bool.eqb negb].
      unfold Limits.FOUR_HOURS_SEC.
      destruct (Z.ltb_spec (c 0%nat) (c 2%nat - 4 * 60 * 60)); [lia|].
      rewrite lookup_insert_eq, lookup_empty. cbn [default from_option id].
      f_equal; lia. }
    split; [rewrite (append_buy _ _ _ _ _ _ _ _ _ _ _ Hl1); cbn [Limits.events Limits.version app];
            fold e1; rewrite Hs2; reflexivity|].
    split; [apply (compute_loaded _ _ _ _ _ _ _ _ _ Hl3)|].
    rewrite (remaining_of_lookup _ _ _ _ Hlim). cbn [Limits.events foldl].
    unfold Limits.count_event.
    cbn [Limits.type Limits.ts Limits.item_id Limits.qty e0 e1].
    cbn [String.eqb Ascii.eqb Bool.eqb negb].
    unfold Limits.FOUR_HOURS_SEC.
    destruct (Z.ltb_spec (c 0%nat) (c 4%nat - 4 * 60 * 60)); [lia|].
    destruct (Z.ltb_spec (c 2%nat) (c 4%nat - 4 * 60 * 60)); [lia|].
    rewrite !lookup_insert_eq, lookup_empty. cbn [default from_option id].
    f_equal; lia.
  - (* a buy older than the window *)
    intros t Ht.
    set (e := {| Limits.ts := t; Limits.item_id := i;
                 Limits.type := "buy"; Limits.qty := q |}).
    destruct (Hsave fs {| Limits.events := [e]; Limits.version := 1 |})
      as [fs' Hs].
    pose proof (load_saved int_of_str str_of _ _ _ _ c 0%nat Hs) as Hl.
    cbn [Limits.events Limits.version] in Hl.
    eexists fs', _.
    split; [rewrite (append_buy _ _ _ _ _ _ _ _ _ _ _ Hl0); cbn [Limits.events Limits.version app];
            fold e; rewrite Hs; reflexivity|].
    split; [apply (compute_loaded _ _ _ _ _ _ _ _ _ Hl)|].
    rewrite (remaining_of_lookup _ _ _ _ Hlim). cbn [Limits.events].
    assert (Hu : foldl (Limits.count_event (c 1%nat - Limits.FOUR_HOURS_SEC)) ∅
                   (filter (λ e0, c 0%nat - 2 * Limits.FOUR_HOURS_SEC ≤ Limits.ts e0) [e])
                 = ∅).
    { rewrite filter_cons. destruct (decide _); [|reflexivity].
      cbn [filter list_filter foldl]. unfold Limits.count_event.
      cbn [Limits.type Limits.ts e].
      cbn [String.eqb Ascii.eqb Bool.eqb negb].
      destruct (Z.ltb_spec t (c 1%nat - Limits.FOUR_HOURS_SEC)); [reflexivity|lia]. }
    rewrite Hu, lookup_empty. cbn [default from_option id].
    f_equal; lia.
Qed.

Lemma accountant_round_trip_witness :
  (∃ fs1 fs2 r1 r2,
     Limits.append_event (fun _ => None) (fun _ => "") ∅ "limits.json"
       5 30 "buy" None (fun _ => 1700000000) 0%nat = Ret (fs1, 1%nat) ∧
     Limits.compute_remaining_limits (fun _ => None) (fun _ => "") fs1
       "limits.json" {[ 5 := Some 100 ]} (fun _ => 1700000000) 1%nat
       = Ret (r1, 3%nat) ∧
     r1 !! 5 = Some 70 ∧
     Limits.append_event (fun _ => None) (fun _ => "") fs1 "limits.json"
       5 30 "buy" None (fun _ => 1700000000) 1%nat = Ret (fs2, 3%nat) ∧
     Limits.compute_remaining_limits (fun _ => None) (fun _ => "") fs2
       "limits.json" {[ 5 := Some 100 ]} (fun _ => 1700000000) 3%nat
       = Ret (r2, 5%nat) ∧
     r2 !! 5 = Some 40) ∧
  (∃ fs' r,
     Limits.append_event (fun _ => None) (fun _ => "") ∅ "limits.json"
       5 30 "buy" (Some (1700000000 - 5 * 3600)) (fun _ => 1700000000) 0%nat
       = Ret (fs', 0%nat) ∧
     Limits.compute_remaining_limits (fun _ => None) (fun _ => "") fs'
       "limits.json" {[ 5 := Some 100 ]} (fun _ => 1700000000) 0%nat
       = Ret (r, 2%nat) ∧
     r !! 5 = Some 100).
Proof.
  destruct (accountant_round_trip (fun _ => None) (fun _ => "") ∅ "limits.json"
              5 30 100 {[ 5 := Some 100 ]} (fun _ => 1700000000))
    as [H1 H2].
  - discriminate.
  - reflexivity.
  - reflexivity.
  - intros j k _ _. unfold Limits.FOUR_HOURS_SEC. lia.
  - split; [exact H1|]. apply H2. unfold Limits.FOUR_HOURS_SEC. lia.
Defined.
(** C7 as stated fails on a negative quantity, which [append_event]
    records as it is given: the buy of -30 units counts for nothing, and
    the remaining limit is 100 where [max(0, C - q)] is 130. *)
Lemma negative_quantity_counterexample :
  bought_then_remaining (-30) 1700000000 = Ret {[ 5 := 100 ]} ∧
  Z.max 0 (100 - -30) = 130 ∧
  ¬ round_trip_as_stated (-30) 1700000000.
Proof.
  split; [vm_compute; reflexivity|]. split; [reflexivity|].
  intros (r & Hr & H).
  assert (E : bought_then_remaining (-30) 1700000000 = Ret {[ 5 := 100 ]})
    by (vm_compute; reflexivity).
  rewrite E in Hr. injection Hr as <-.
  vm_compute in H. discriminate H.
Qed.

(** ** The purchase-window accountant on the third-party export *)

Section Flipper2Facts.
Variable int_of_str : string → option Z.

Lemma normalize_ms t m :
  ms_of t m →
  Flipper2._normalize_ts int_of_str (JInt m) = Ret t ∧
  Flipper2._normalize_ts int_of_str (JInt t) = Ret t.
Proof.
  intros (Ht & Hm & Hdiv). cbn [Flipper2._normalize_ts Json.int mbind res_bind mret res_ret].
  unfold Flipper2.scale.
  destruct (Z.ltb_spec (10 ^ 12) m); [|lia].
  destruct (Z.ltb_spec (10 ^ 12) t); [lia|].
  rewrite Hdiv. auto.
Qed.

Lemma ms_truthy t m : ms_of t m → Json.truthy (JInt t) = true ∧ Json.truthy (JInt m) = true.
Proof.
  intros (Ht & Hm & Hdiv). cbn [Json.truthy].
  assert (10 ^ 9 ≤ t).
  { subst t. apply Z.div_le_lower_bound; lia. }
  split; apply negb_true_iff, Z.eqb_neq; lia.
Qed.

Lemma get_insert_ne (d : gmap string json) k k' v :
  k ≠ k' → Json.get (<[k := v]> d) k' = Json.get d k'.
Proof. intros H. unfold Json.get. rewrite lookup_insert_ne by exact H. reflexivity. Qed.

Lemma get_insert_eq (d : gmap string json) k v :
  Json.get (<[k := v]> d) k = v.
Proof. unfold Json.get. rewrite lookup_insert_eq. reflexivity. Qed.

Lemma get_Some (d : gmap string json) k v : d !! k = Some v → Json.get d k = v.
Proof. intros H. unfold Json.get. rewrite H. reflexivity. Qed.

Lemma entry_ts_ms d k t m :
  k ∈ ts_keys → d !! k = Some (JInt t) → ms_of t m →
  entry_ts int_of_str (<[k := JInt m]> d) = entry_ts int_of_str d.
Proof.
  intros Hk Hd Hms. unfold entry_ts.
  destruct (ms_truthy t m Hms) as [Tt Tm].
  destruct (normalize_ms t m Hms) as [Nm Nt].
  apply get_Some in Hd.
  unfold ts_keys in Hk.
  rewrite !elem_of_cons, elem_of_nil in Hk.
  destruct Hk as [->|[->|[->|[->|[->|[]]]]]];
    rewrite ?get_insert_eq, ?get_insert_ne by discriminate;
    rewrite ?Hd; unfold Json.or; rewrite ?Tt, ?Tm;
    repeat match goal with
           | |- context [if Json.truthy ?v then _ else _] =>
               destruct (Json.truthy v)
           end;
    rewrite ?Tt, ?Tm, ?Nm, ?Nt; reflexivity.
Qed.

Lemma add_entry_ms cutoff d k t m used :
  k ∈ ts_keys → d !! k = Some (JInt t) → ms_of t m →
  Flipper2.add_entry int_of_str cutoff (<[k := JInt m]> d) used
  = Flipper2.add_entry int_of_str cutoff d used.
Proof.
  intros Hk Hd Hms.
  pose proof (entry_ts_ms d k t m Hk Hd Hms) as E. unfold entry_ts in E.
  unfold Flipper2.add_entry. rewrite E. clear E.
  unfold ts_keys in Hk. rewrite !elem_of_cons, elem_of_nil in Hk.
  destruct Hk as [->|[->|[->|[->|[->|[]]]]]];
    rewrite !get_insert_ne by discriminate; reflexivity.
Qed.

Lemma add_entry_other cutoff (d : gmap string json) v used :
  Flipper2.add_entry int_of_str cutoff (<["buy" := v]> d) used
  = Flipper2.add_entry int_of_str cutoff d used.
Proof.
  unfold Flipper2.add_entry. rewrite !get_insert_ne by discriminate.
  reflexivity.
Qed.

Lemma truthy_dict_lookup (b : gmap string json) k v :
  b !! k = Some v → Json.truthy (JDict b) = true.
Proof.
  intros H. cbn [Json.truthy].
  destruct (map_to_list b) as [|x l] eqn:E; [|reflexivity].
  apply map_to_list_empty_iff in E. subst b.
  rewrite lookup_empty in H. discriminate.
Qed.

Lemma add_buy_ms cutoff used e e' :
  in_ms e e' →
  Flipper2.add_buy int_of_str cutoff used e'
  = Flipper2.add_buy int_of_str cutoff used e.
Proof.
  intros [e0|d k t m Hk Hd Hms|d b k t m Hk Hb Hd Hms]; cbn [Flipper2.add_buy].
  - reflexivity.
  - eapply add_entry_ms; eassumption.
  - apply add_entry_other.
Qed.

Lemma add_flip_ms cutoff used e e' :
  in_ms e e' →
  Flipper2.add_flip int_of_str cutoff used e'
  = Flipper2.add_flip int_of_str cutoff used e.
Proof.
  intros [e0|d k t m Hk Hd Hms|d b k t m Hk Hb Hd Hms]; cbn [Flipper2.add_flip].
  - reflexivity.
  - assert (Hne : k ≠ "buy" ∧ k ≠ "side" ∧ k ≠ "type").
    { unfold ts_keys in Hk. rewrite !elem_of_cons, elem_of_nil in Hk.
      destruct Hk as [->|[->|[->|[->|[->|[]]]]]]; repeat split; discriminate. }
    destruct Hne as (N1 & N2 & N3).
    rewrite !get_insert_ne by assumption.
    rewrite (add_entry_ms cutoff d k t m used Hk Hd Hms). reflexivity.
  - rewrite get_insert_eq, (get_Some _ _ _ Hb).
    assert (Hb' : (<[k := JInt m]> b) !! k = Some (JInt m))
      by apply lookup_insert_eq.
    rewrite (truthy_dict_lookup _ _ _ Hb'), (truthy_dict_lookup _ _ _ Hd).
    eapply add_entry_ms; eassumption.
Qed.

Lemma for_each_ms {A} (body : gmap Z Z → A → res (gmap Z Z)) (R : A → A → Prop)
    l l' used :
  (∀ u x x', R x x' → body u x' = body u x) →
  Forall2 R l l' →
  Flipper2.for_each body used l' = Flipper2.for_each body used l.
Proof.
  intros Hbody H. revert used.
  induction H as [|x x' l l' Hx Hl IH]; intros used; [reflexivity|].
  cbn [Flipper2.for_each]. rewrite (Hbody used x x' Hx).
  destruct (body used x) as [u|e]; [|reflexivity].
  cbn [mbind res_bind]. apply IH.
Qed.
End Flipper2Facts.

(** C8 (amended).  The third-party-export accountant treats a raw
    timestamp greater than [10^12] as milliseconds and floor-divides it
    by 1000 before the comparison with the window cutoff: giving the
    timestamp of any entries of the buys file or of the flips file
    (their own or that of their nested buy, under any of the accepted
    keys) in a millisecond form [m > 10^12] instead of the second form
    [t = m // 1000 <= 10^12] leaves the remaining map unchanged. *)
Theorem flipper2_unit_blind int_of_str buys buys' flips flips' limits (c : clock) n :
  Forall2 in_ms buys buys' → Forall2 in_ms flips flips' →
  Flipper2.compute_remaining_from_flipper2 int_of_str (Some (buys', flips')) limits c n
  = Flipper2.compute_remaining_from_flipper2 int_of_str (Some (buys, flips)) limits c n
  ∧ ∀ t m, ms_of t m → Flipper2._normalize_ts int_of_str (JInt m) = Ret t.
Proof.
  intros Hb Hf. split; [|intros t m Hms; apply normalize_ms, Hms].
  unfold Flipper2.compute_remaining_from_flipper2.
  rewrite !M_bind_run. unfold time_now.
  rewrite !M_bind_run.
  rewrite (for_each_ms _ in_ms buys buys' ∅
             (fun u x x' => add_buy_ms int_of_str _ u x x') Hb).
  destruct (Flipper2.for_each _ ∅ buys) as [used|e]; [|reflexivity].
  cbn [lift]. rewrite !M_bind_run.
  rewrite (for_each_ms _ in_ms flips flips' used
             (fun u x x' => add_flip_ms int_of_str _ u x x') Hf).
  reflexivity.
Qed.

Lemma flipper2_unit_blind_witness :
  Flipper2.compute_remaining_from_flipper2 (fun _ => None)
    (Some ([JDict (<["ts" := JInt 1699999000123]>
                     {[ "itemId" := JInt 5; "ts" := JInt 1699999000;
                        "quantity" := JInt 30 ]})], []))
    {[ 5 := Some 100 ]} (fun _ => 1700000000) 0%nat
  = Flipper2.compute_remaining_from_flipper2 (fun _ => None)
      (Some ([JDict {[ "itemId" := JInt 5; "ts" := JInt 1699999000;
                       "quantity" := JInt 30 ]}], []))
      {[ 5 := Some 100 ]} (fun _ => 1700000000) 0%nat.
Proof.
  apply (flipper2_unit_blind (fun _ => None)
           [JDict {[ "itemId" := JInt 5; "ts" := JInt 1699999000;
                     "quantity" := JInt 30 ]}]
           [JDict (<["ts" := JInt 1699999000123]>
                     {[ "itemId" := JInt 5; "ts" := JInt 1699999000;
                        "quantity" := JInt 30 ]})]
           [] [] {[ 5 := Some 100 ]} (fun _ => 1700000000) 0%nat).
  - constructor; [|constructor].
    apply (in_ms_own _ "ts" 1699999000 1699999000123).
    + left.
    + reflexivity.
    + unfold ms_of. split; [|split]; [lia | lia | reflexivity].
  - constructor.
Defined.

(** The adapter counts the buy of the witness in either form. *)
Example flipper2_counts_both_forms :
  erase (Flipper2.compute_remaining_from_flipper2 (fun _ => None)
    (Some ([JDict {[ "itemId" := JInt 5; "ts" := JInt 1699999000123;
                     "quantity" := JInt 30 ]}], []))
    {[ 5 := Some 100 ]} (fun _ => 1700000000) 0%nat)
  = Ret {[ 5 := 70 ]}.
Proof. vm_compute. reflexivity. Qed.

(** C8 as stated fails for the local log: a buy five hours before now is
    outside the window when its timestamp is in seconds, and inside it
    when the same instant is given in milliseconds, which the local
    accountant compares as it stands. *)
Lemma local_log_ms_counterexample :
  ms_of 1699982000 1699982000000 ∧
  recorded_then_remaining 1699982000 1700000000 = Ret {[ 5 := 100 ]} ∧
  recorded_then_remaining 1699982000000 1700000000 = Ret {[ 5 := 70 ]} ∧
  ¬ local_unit_blind 1699982000 1699982000000 1700000000.
Proof.
  assert (H1 : recorded_then_remaining 1699982000 1700000000
               = Ret {[ 5 := 100 ]}) by (vm_compute; reflexivity).
  assert (H2 : recorded_then_remaining 1699982000000 1700000000
               = Ret {[ 5 := 70 ]}) by (vm_compute; reflexivity).
  split; [unfold ms_of; split; [|split]; [lia | lia | reflexivity]|].
  split; [exact H1|]. split; [exact H2|].
  unfold local_unit_blind. rewrite H1, H2. intros H.
  apply (f_equal (fun r : res (gmap Z Z) =>
                    match r with
                    | Ret m => m !! 5
                    | Raise _ => None
                    end)) in H.
  vm_compute in H. discriminate.
Qed.

(** * Further properties of the code *)

(** ** Clamping and the price adjustment *)

Lemma clamp01_cases x :
  (clamp01 x = x ∧ Float.ltb x Float.one = true ∧ Float.ltb Float.zero x = true) ∨
  clamp01 x = Float.zero ∨ clamp01 x = Float.one.
Proof.
  unfold clamp01, Float.py_max, Float.py_min.
  destruct (Float.ltb x Float.one) eqn:E1.
  - destruct (Float.ltb Float.zero x) eqn:E2; auto.
  - right; right. reflexivity.
Qed.

(** X1.  [max(0.0, min(1.0, x))], the clamp applied to the aggressiveness
    and to the liquidity fraction, is a number between 0.0 and 1.0 for
    every float [x], the infinities and NaN included; clamping twice is
    clamping once; NaN is clamped to 1.0. *)
Theorem clamp01_range x :
  Float.is_nan (clamp01 x) = false ∧
  Float.leb Float.zero (clamp01 x) = true ∧
  Float.leb (clamp01 x) Float.one = true ∧
  clamp01 (clamp01 x) = clamp01 x ∧
  clamp01 S754_nan = Float.one.
Proof.
  destruct (clamp01_cases x) as [(E & E1 & E2)|[E|E]]; rewrite E.
  - assert (Hn : Float.is_nan x = false).
    { destruct x; try reflexivity. rewrite ltb_nan_l in E1. discriminate. }
    rewrite !leb_ltb_eqb, E1, E2. auto.
  - repeat split; reflexivity.
  - repeat split; reflexivity.
Qed.

Lemma clamp01_above a : Float.ltb a Float.one = false → clamp01 a = Float.one.
Proof. intros H. unfold clamp01, Float.py_min. rewrite H. reflexivity. Qed.

Lemma clamp01_below a : Float.leb a Float.zero = true → clamp01 a = Float.zero.
Proof.
  intros H. unfold clamp01, Float.py_min, Float.py_max.
  destruct a as [[]|[]| |[] m e]; try discriminate H; try reflexivity.
Qed.

Lemma int_of_quarter_zero n d : int_of_quarter n Float.zero = Ret d → d = 0.
Proof.
  unfold int_of_quarter, int_mul_float. intros H. inv_res.
  match goal with
  | H : Float.to_int (Float.mul (Float.mul ?y _) _) = _ |- _ =>
      unfold Float.mul in H;
      destruct (SFmul Float.prec Float.emax y Float.quarter);
      simpl in H; inversion H; reflexivity
  end.
Qed.

(** X2.  An aggressiveness that is not below 1.0, or is NaN, acts as 1.0;
    one that is at most 0.0 acts as 0.0, and then the prices returned are
    the base prices. *)
Theorem aggressiveness_saturates b s a :
  (Float.ltb a Float.one = false →
   _adjust_prices_for_aggressiveness b s a
   = _adjust_prices_for_aggressiveness b s Float.one) ∧
  (Float.leb a Float.zero = true →
   _adjust_prices_for_aggressiveness b s a
   = _adjust_prices_for_aggressiveness b s Float.zero ∧
   ∀ b' s', _adjust_prices_for_aggressiveness b s a = Ret (b', s') →
            b' = b ∧ s' = s).
Proof.
  split; intros H.
  - unfold _adjust_prices_for_aggressiveness. rewrite (clamp01_above a H).
    reflexivity.
  - assert (E : _adjust_prices_for_aggressiveness b s a
                = _adjust_prices_for_aggressiveness b s Float.zero).
    { unfold _adjust_prices_for_aggressiveness. rewrite (clamp01_below a H).
      reflexivity. }
    split; [exact E|]. rewrite E. clear E H.
    unfold _adjust_prices_for_aggressiveness. intros b' s' H.
    destruct ((b <=? 0) || (s <=? 0) || (s <=? b)); [inversion H; auto|].
    apply res_bind_Ret in H. destruct H as (d1 & H1 & H).
    apply res_bind_Ret in H. destruct H as (d2 & H2 & H).
    apply int_of_quarter_zero in H1, H2. subst. cbv zeta in H.
    destruct (s - 0 <=? b + 0); inversion H; lia.
Qed.

Lemma aggressiveness_saturates_witness :
  _adjust_prices_for_aggressiveness 100 200 S754_nan
  = _adjust_prices_for_aggressiveness 100 200 Float.one ∧
  _adjust_prices_for_aggressiveness 100 200 (S754_infinity true)
  = _adjust_prices_for_aggressiveness 100 200 Float.zero.
Proof.
  split.
  - apply (aggressiveness_saturates 100 200 S754_nan). reflexivity.
  - apply (aggressiveness_saturates 100 200 (S754_infinity true)). reflexivity.
Defined.

(** ** The tax *)

Lemma of_int_signed_neg n x : Float.of_int n = Ret x → n < 0 → signed true x.
Proof.
  unfold Float.of_int, binary_normalize. intros H Hn.
  destruct n as [|p|p]; [lia|lia|].
  pose proof (binary_round_signed true p 0) as Hs.
  destruct (binary_round Float.prec Float.emax true p 0); inversion H; subst; exact Hs.
Qed.

Lemma to_int_nonpos x n : signed true x → Float.to_int x = Ret n → n ≤ 0.
Proof.
  destruct x as [s|s| |s m e]; simpl; intros Hs H; try discriminate;
    inversion H; subst; [lia|].
  unfold cond_Zopp. destruct e as [|p|p].
  - lia.
  - assert (0 ≤ 2 ^ Z.pos p) by (apply Z.pow_nonneg; lia). nia.
  - assert (0 ≤ Z.pos m / 2 ^ Z.pos p)
      by (apply Z.div_pos; [lia | apply Z.pow_pos_nonneg; lia]).
    lia.
Qed.

Lemma int_of_scaled_nonpos n x k :
  n ≤ 0 → signed false x → int_of_scaled n x = Ret k → k ≤ 0.
Proof.
  unfold int_of_scaled, int_mul_float. intros Hn Hx H. inv_res.
  destruct (Z.eq_dec n 0) as [->|Hne].
  - match goal with H : Float.of_int 0 = _ |- _ => inversion H; subst end.
    destruct x as [s|s| |s m e]; simpl in *; try contradiction;
      match goal with H : _ = Ret k |- _ => inversion H end; lia.
  - match goal with H : Float.of_int _ = _ |- _ =>
      apply of_int_signed_neg in H; [|lia]; rename H into Hy end.
    destruct (mul_signed _ _ _ _ Hy Hx) as [E|Hs].
    + rewrite E in *. discriminate.
    + eapply to_int_nonpos; eauto.
Qed.

Lemma tax_nonneg p t :
  _compute_tax_per_unit p = Ret t → 0 ≤ p → 0 ≤ t ≤ GE_TAX_CAP.
Proof.
  unfold _compute_tax_per_unit. intros H Hp. inv_res.
  match goal with H : int_of_scaled _ _ = _ |- _ =>
    apply int_of_scaled_nonneg in H; [|exact Hp|reflexivity] end.
  unfold GE_TAX_CAP. lia.
Qed.

(** X3.  The tax per unit never exceeds the cap of 5,000,000; it is not
    negative for a price that is not negative, and not positive for a
    price that is not positive. *)
Theorem tax_bounds p t :
  _compute_tax_per_unit p = Ret t →
  t ≤ GE_TAX_CAP ∧ (0 ≤ p → 0 ≤ t) ∧ (p ≤ 0 → t ≤ 0).
Proof.
  intros H. split; [|split]; intros.
  - unfold _compute_tax_per_unit in H. inv_res. lia.
  - apply (tax_nonneg p t H). assumption.
  - unfold _compute_tax_per_unit in H. inv_res.
    match goal with H : int_of_scaled _ _ = _ |- _ =>
      apply int_of_scaled_nonpos in H; [|assumption|reflexivity] end.
    lia.
Qed.

Lemma tax_bounds_witness : 2 ≤ GE_TAX_CAP ∧ (0 ≤ 120 → 0 ≤ 2) ∧ (120 ≤ 0 → 2 ≤ 0).
Proof. apply (tax_bounds 120 2). vm_compute. reflexivity. Defined.

(** ** What a suggestion holds *)

Lemma truthy_entry_Some o d : truthy_entry o = Some d → o = Some d.
Proof.
  unfold truthy_entry. destruct o as [d'|]; [|discriminate].
  destruct (bool_decide (d' = ∅)); [discriminate|]. congruence.
Qed.

Lemma five_min_get_Some five i d :
  five_min_get five i = Some d → ∃ fm, five = Some fm ∧ fm !! i = Some d.
Proof.
  unfold five_min_get. destruct five as [fm|]; [|discriminate].
  destruct (bool_decide (fm = ∅)); [discriminate|]. eauto.
Qed.

(** The prices chosen are a quote the price source allows, and the
    volumes are those of the one-hour feed. *)
Lemma choose_prices_observed a i c n bb bs lv hv n' :
  _choose_prices_for_item i (latest a) (one_hour a) (five_min_data a)
    (price_source a) (latest_max_age_min a) c n
  = Ret (Some (bb, bs, lv, hv), n') →
  lv = vol_of (one_hour a !! i) "lowPriceVolume" ∧
  hv = vol_of (one_hour a !! i) "highPriceVolume" ∧
  observed a i bb bs.
Proof.
  unfold _choose_prices_for_item, observed, averages, lasts.
  destruct (String.eqb (price_source a) "1h") eqn:E1.
  { apply String.eqb_eq in E1. rewrite E1.
    destruct (truthy_entry (one_hour a !! i)) as [d|] eqn:Eh; intros H;
      apply M_ret_Ret in H; destruct H as [H _]; [|discriminate].
    apply truthy_entry_Some in Eh. simplify_eq.
    repeat split; try reflexivity. right; left. split; [discriminate|]. eauto. }
  apply String.eqb_neq in E1.
  destruct (String.eqb (price_source a) "latest") eqn:E2.
  { destruct (truthy_entry (latest a !! i)) as [d|] eqn:El; intros H;
      apply M_ret_Ret in H; destruct H as [H _]; [|discriminate].
    apply truthy_entry_Some in El. simplify_eq.
    repeat split; try reflexivity. left. split; [exact E1|]. eauto. }
  apply String.eqb_neq in E2.
  cbv zeta.
  assert (Hfb : ∀ c n,
    match truthy_entry (five_min_get (five_min_data a) i) with
    | Some d5 =>
        (mret (Some (get_or_0 d5 "avgLowPrice", get_or_0 d5 "avgHighPrice",
                     vol_of (one_hour a !! i) "lowPriceVolume",
                     vol_of (one_hour a !! i) "highPriceVolume")) : M _)
    | None =>
        match truthy_entry (one_hour a !! i) with
        | Some d =>
            mret (Some (get_or_0 d "avgLowPrice", get_or_0 d "avgHighPrice",
                        vol_of (one_hour a !! i) "lowPriceVolume",
                        vol_of (one_hour a !! i) "highPriceVolume"))
        | None => mret None
        end
    end c n = Ret (Some (bb, bs, lv, hv), n') →
    lv = vol_of (one_hour a !! i) "lowPriceVolume" ∧
    hv = vol_of (one_hour a !! i) "highPriceVolume" ∧
    ((price_source a ≠ "1h" ∧
      ∃ d, latest a !! i = Some d ∧
           bb = get_or_0 d "low" ∧ bs = get_or_0 d "high") ∨
     (price_source a ≠ "latest" ∧
      ∃ d, one_hour a !! i = Some d ∧
           bb = get_or_0 d "avgLowPrice" ∧ bs = get_or_0 d "avgHighPrice") ∨
     (price_source a ≠ "1h" ∧ price_source a ≠ "latest" ∧
      ∃ fm d, five_min_data a = Some fm ∧ fm !! i = Some d ∧
              bb = get_or_0 d "avgLowPrice" ∧ bs = get_or_0 d "avgHighPrice"))).
  { intros c0 n0.
    destruct (truthy_entry (five_min_get (five_min_data a) i)) as [d5|] eqn:E5.
    - intros H. apply M_ret_Ret in H. destruct H as [H _]. simplify_eq.
      apply truthy_entry_Some, five_min_get_Some in E5.
      destruct E5 as (fm & E5 & E5').
      repeat split; try reflexivity. right; right. eauto 10.
    - destruct (truthy_entry (one_hour a !! i)) as [d|] eqn:Eh; intros H;
        apply M_ret_Ret in H; destruct H as [H _]; [|discriminate].
      apply truthy_entry_Some in Eh. simplify_eq.
      repeat split; try reflexivity. right; left. eauto. }
  destruct (truthy_entry (latest a !! i)) as [d|] eqn:El; [|apply Hfb].
  destruct (get d "highTime") as [ht|]; [|apply Hfb].
  destruct (get d "lowTime") as [lt|]; [|apply Hfb].
  intros H.
  apply M_bind_Ret in H. destruct H as (now & n1 & _ & H).
  apply M_bind_Ret in H. destruct H as (ha & n2 & _ & H).
  apply M_bind_Ret in H. destruct H as (la & n3 & _ & H).
  destruct (Float.leb ha (latest_max_age_min a) && Float.leb la (latest_max_age_min a));
    [|revert H; apply Hfb].
  apply M_ret_Ret in H. destruct H as [H _].
  apply truthy_entry_Some in El. simplify_eq.
  repeat split; try reflexivity. left. eauto.
Qed.

Lemma suggest_item_fields a i base_buy base_sell low_vol high_vol s :
  suggest_item a i base_buy base_sell low_vol high_vol = Ret (Some s) →
  hourly_volume s = Z.min low_vol high_vol ∧ official_ge_price s = None.
Proof.
  unfold suggest_item. intros H.
  inv_res.
  all: split; reflexivity.
Qed.

Lemma build_suggestions_item_inv a i c n s n' :
  build_suggestions_item a i c n = Ret (Some s, n') →
  ∃ n1 base_buy base_sell low_vol high_vol,
    _choose_prices_for_item i (latest a) (one_hour a) (five_min_data a)
      (price_source a) (latest_max_age_min a) c n1
      = Ret (Some (base_buy, base_sell, low_vol, high_vol), n') ∧
    suggest_item a i base_buy base_sell low_vol high_vol = Ret (Some s).
Proof.
  unfold build_suggestions_item. intros H.
  apply M_bind_Ret in H. destruct H as (fresh & n1 & Hf & H).
  destruct fresh; simpl in H; [|inversion H].
  apply M_bind_Ret in H. destruct H as (chosen & n2 & Hc & H).
  destruct chosen as [[[[bb bs] lv] hv]|]; [|inversion H].
  apply lift_Ret in H. destruct H as [H ->]. eauto 10.
Qed.

(** Where a suggestion of the output comes from. *)
Lemma output_inv a universe c n out n' s :
  build_suggestions a universe c n = Ret (out, n') → s ∈ out →
  ∃ n1 n2 base_buy base_sell low_vol high_vol,
    _choose_prices_for_item (item_id s) (latest a) (one_hour a) (five_min_data a)
      (price_source a) (latest_max_age_min a) c n1
      = Ret (Some (base_buy, base_sell, low_vol, high_vol), n2) ∧
    suggest_item a (item_id s) base_buy base_sell low_vol high_vol = Ret (Some s) ∧
    emitted a (item_id s) base_buy base_sell low_vol high_vol s.
Proof.
  intros Hrun Hs.
  destruct (build_suggestions_elem _ _ _ _ _ _ _ Hrun Hs) as (i & n1 & n2 & Hi).
  apply build_suggestions_item_inv in Hi.
  destruct Hi as (m & bb & bs & lv & hv & Hc & Hi).
  pose proof (suggest_item_Some _ _ _ _ _ _ _ Hi) as He.
  rewrite (em_item _ _ _ _ _ _ _ He). eauto 10.
Qed.

(** X4.  In every suggestion of the output the unit profit is the sell
    price less the tax on it less the buy price, the tax lies between 0
    and the cap, and the total profit is the unit profit times the
    quantity. *)
Theorem profit_accounting a universe c n out n' s :
  build_suggestions a universe c n = Ret (out, n') → s ∈ out →
  ∃ tax,
    _compute_tax_per_unit (sell_price_gp s) = Ret tax ∧
    0 ≤ tax ≤ GE_TAX_CAP ∧
    unit_profit_gp s = sell_price_gp s - tax - buy_price_gp s ∧
    total_profit_gp s = unit_profit_gp s * quantity s.
Proof.
  intros Hrun Hs.
  destruct (output_inv _ _ _ _ _ _ _ Hrun Hs)
    as (n1 & n2 & bb & bs & lv & hv & _ & _ & He).
  destruct (em_profit _ _ _ _ _ _ _ He) as (tax & Ht & Htot).
  pose proof (em_unit_profit _ _ _ _ _ _ _ He) as Hu.
  pose proof (em_positive _ _ _ _ _ _ _ He) as Hq.
  pose proof (em_prices _ _ _ _ _ _ _ He) as Hp.
  pose proof (adjust_prices_bounds _ _ _ _ _ (em_adjust _ _ _ _ _ _ _ He)
                ltac:(lia) ltac:(lia)) as Hb.
  pose proof (tax_nonneg _ _ Ht ltac:(lia)) as Hcap.
  assert (Htot' : total_profit_gp s
                  = (sell_price_gp s - tax - buy_price_gp s) * quantity s)
    by (rewrite Htot; ring).
  assert (Hunit : unit_profit_gp s = sell_price_gp s - tax - buy_price_gp s).
  { rewrite Hu, Htot', Z.max_r by lia. apply Z.div_mul. lia. }
  exists tax. rewrite Hunit at 2. repeat split; try assumption; lia.
Qed.

Lemma profit_accounting_witness :
  ∃ tax,
    _compute_tax_per_unit (sell_price_gp (scenario_suggestion "Item")) = Ret tax ∧
    0 ≤ tax ≤ GE_TAX_CAP ∧
    unit_profit_gp (scenario_suggestion "Item")
    = sell_price_gp (scenario_suggestion "Item") - tax
      - buy_price_gp (scenario_suggestion "Item") ∧
    total_profit_gp (scenario_suggestion "Item")
    = unit_profit_gp (scenario_suggestion "Item")
      * quantity (scenario_suggestion "Item").
Proof.
  apply (profit_accounting
           (scenario 1700000000 "Item" "latest" "both" ten ten Float.zero 10)
           [1] (fun _ => 1700000000) 0%nat [scenario_suggestion "Item"] 1%nat).
  - vm_compute. reflexivity.
  - left.
Defined.

Lemma vol_of_pos lh k :
  0 < vol_of lh k → ∃ h, lh = Some h ∧ vol_of lh k = get_or_0 h k.
Proof.
  unfold vol_of. destruct (truthy_entry lh) as [d|] eqn:E; [|lia].
  apply truthy_entry_Some in E. eauto.
Qed.

(** X5.  Every suggestion is for an item of the one-hour feed, whatever
    the price source: its two volumes are those of that feed, both are at
    least 1, [hourly_volume] is the smaller of the two and is at least
    [min_hourly_volume]; the official price is left unset. *)
Theorem traded_volumes a universe c n out n' s :
  build_suggestions a universe c n = Ret (out, n') → s ∈ out →
  ∃ h,
    one_hour a !! item_id s = Some h ∧
    buy_hourly_volume s = get_or_0 h "lowPriceVolume" ∧
    sell_hourly_volume s = get_or_0 h "highPriceVolume" ∧
    hourly_volume s = Z.min (buy_hourly_volume s) (sell_hourly_volume s) ∧
    1 ≤ hourly_volume s ∧
    min_hourly_volume a ≤ hourly_volume s ∧
    official_ge_price s = None.
Proof.
  intros Hrun Hs.
  destruct (output_inv _ _ _ _ _ _ _ Hrun Hs)
    as (n1 & n2 & bb & bs & lv & hv & Hc & Hi & He).
  apply choose_prices_observed in Hc. destruct Hc as (Hlv & Hhv & _).
  destruct (suggest_item_fields _ _ _ _ _ _ _ Hi) as (Hvol & Hge).
  pose proof (em_low_vol _ _ _ _ _ _ _ He) as Hl.
  pose proof (em_high_vol _ _ _ _ _ _ _ He) as Hh.
  pose proof (em_volume _ _ _ _ _ _ _ He) as Hfloor.
  pose proof (em_positive _ _ _ _ _ _ _ He) as Hq.
  destruct (em_quantity _ _ _ _ _ _ _ He)
    as (k1 & k2 & t1 & t2 & _ & _ & Ht1 & Ht2 & Hqty).
  assert (Hlv1 : 0 < lv).
  { destruct (Z_lt_le_dec 0 lv) as [|Hle]; [assumption|].
    eapply int_of_scaled_nonpos in Ht1; [|exact Hle|apply py_max_zero_signed]. lia. }
  assert (Hhv1 : 0 < hv).
  { destruct (Z_lt_le_dec 0 hv) as [|Hle]; [assumption|].
    eapply int_of_scaled_nonpos in Ht2; [|exact Hle|apply py_max_zero_signed]. lia. }
  subst lv hv. destruct (vol_of_pos _ _ Hlv1) as (h & Eh & Evl).
  assert (Evh : vol_of (one_hour a !! item_id s) "highPriceVolume"
                = get_or_0 h "highPriceVolume").
  { unfold vol_of in *. rewrite Eh in *.
    destruct (truthy_entry (Some h)) as [d|] eqn:E; [|lia].
    apply truthy_entry_Some in E. congruence. }
  exists h. rewrite Hvol, Hl, Hh. rewrite Evl, Evh in *.
  repeat split; try assumption; try reflexivity; lia.
Qed.

Lemma traded_volumes_witness :
  ∃ h,
    one_hour (scenario 1700000000 "Item" "latest" "both" ten ten Float.zero 10)
      !! item_id (scenario_suggestion "Item") = Some h ∧
    buy_hourly_volume (scenario_suggestion "Item") = get_or_0 h "lowPriceVolume" ∧
    sell_hourly_volume (scenario_suggestion "Item") = get_or_0 h "highPriceVolume" ∧
    hourly_volume (scenario_suggestion "Item")
    = Z.min (buy_hourly_volume (scenario_suggestion "Item"))
            (sell_hourly_volume (scenario_suggestion "Item")) ∧
    1 ≤ hourly_volume (scenario_suggestion "Item") ∧
    min_hourly_volume
      (scenario 1700000000 "Item" "latest" "both" ten ten Float.zero 10)
    ≤ hourly_volume (scenario_suggestion "Item") ∧
    official_ge_price (scenario_suggestion "Item") = None.
Proof.
  apply (traded_volumes
           (scenario 1700000000 "Item" "latest" "both" ten ten Float.zero 10)
           [1] (fun _ => 1700000000) 0%nat [scenario_suggestion "Item"] 1%nat).
  - vm_compute. reflexivity.
  - left.
Defined.

(** X6.  The prices of a suggestion stay inside a quote that the price
    source allows for its item: the buy price is at least the low of the
    quote, which is positive, the sell price is at most its high, and one
    unit is within the budget. *)
Theorem prices_within_observed_spread a universe c n out n' s :
  build_suggestions a universe c n = Ret (out, n') → s ∈ out →
  ∃ low high,
    observed a (item_id s) low high ∧
    0 < low ∧ low ≤ buy_price_gp s ∧ buy_price_gp s < sell_price_gp s ∧
    sell_price_gp s ≤ high ∧ buy_price_gp s ≤ budget_gp a.
Proof.
  intros Hrun Hs.
  destruct (output_inv _ _ _ _ _ _ _ Hrun Hs)
    as (n1 & n2 & bb & bs & lv & hv & Hc & _ & He).
  apply choose_prices_observed in Hc. destruct Hc as (_ & _ & Hobs).
  pose proof (em_prices _ _ _ _ _ _ _ He) as Hp.
  pose proof (adjust_prices_bounds _ _ _ _ _ (em_adjust _ _ _ _ _ _ _ He)
                ltac:(lia) ltac:(lia)) as Hb.
  destruct (emitted_within_constraints _ _ _ _ _ _ _ He) as [(_ & Hq & _ & Hbud & _) _].
  exists bb, bs. repeat split; try assumption; try lia. nia.
Qed.

Lemma prices_within_observed_spread_witness :
  ∃ low high,
    observed (scenario 1700000000 "Item" "latest" "both" ten ten Float.zero 10)
      (item_id (scenario_suggestion "Item")) low high ∧
    0 < low ∧ low ≤ buy_price_gp (scenario_suggestion "Item") ∧
    buy_price_gp (scenario_suggestion "Item")
    < sell_price_gp (scenario_suggestion "Item") ∧
    sell_price_gp (scenario_suggestion "Item") ≤ high ∧
    buy_price_gp (scenario_suggestion "Item")
    ≤ budget_gp (scenario 1700000000 "Item" "latest" "both" ten ten Float.zero 10).
Proof.
  apply (prices_within_observed_spread
           (scenario 1700000000 "Item" "latest" "both" ten ten Float.zero 10)
           [1] (fun _ => 1700000000) 0%nat [scenario_suggestion "Item"] 1%nat).
  - vm_compute. reflexivity.
  - left.
Defined.

(** ** Which items are suggested *)

Lemma build_suggestions_item_id a i c n s n' :
  build_suggestions_item a i c n = Ret (Some s, n') → item_id s = i.
Proof.
  intros H. apply build_suggestions_item_Some in H.
  destruct H as (n1 & bb & bs & lv & hv & _ & _ & He).
  exact (em_item _ _ _ _ _ _ _ He).
Qed.

Lemma build_suggestions_loop_ids a universe results c n out n' :
  build_suggestions_loop a universe results c n = Ret (out, n') →
  ∃ ids, sublist ids universe ∧
         item_id <$> out = (item_id <$> results) ++ ids.
Proof.
  revert results n. induction universe as [|i u IH]; intros rs n H.
  - inversion H; subst.
    exists []. split; [constructor|]. rewrite app_nil_r. reflexivity.
  - cbn [build_suggestions_loop] in H.
    apply M_bind_Ret in H. destruct H as (o & n1 & Hi & H).
    destruct (IH _ _ H) as (ids & Hsub & Hids).
    destruct o as [s|].
    + apply build_suggestions_item_id in Hi.
      exists (i :: ids). split; [constructor; exact Hsub|].
      rewrite Hids, fmap_app, <- app_assoc. cbn. rewrite Hi. reflexivity.
    + exists ids. split; [constructor; exact Hsub | exact Hids].
Qed.

Lemma restrict_sublist inc u : sublist (restrict inc u) u.
Proof. destruct inc; cbn; [apply sublist_filter | reflexivity]. Qed.

Lemma restrict_included l u i : i ∈ restrict (Some l) u → i ∈ l.
Proof. cbn. rewrite list_elem_of_filter. tauto. Qed.

(** X7.  No item is suggested twice, every suggested item is one of the
    items iterated, and, when [include_item_ids] is given, one of
    those. *)
Theorem suggested_items a universe c n out n' :
  build_suggestions a universe c n = Ret (out, n') →
  NoDup universe →
  NoDup (item_id <$> out) ∧
  ∀ s, s ∈ out →
    item_id s ∈ universe ∧
    ∀ l, include_item_ids a = Some l → item_id s ∈ l.
Proof.
  unfold build_suggestions. intros H Hnd.
  apply M_bind_Ret in H. destruct H as (rs & n1 & Hl & H).
  apply M_ret_Ret in H. destruct H as [-> _].
  destruct (build_suggestions_loop_ids _ _ _ _ _ _ _ Hl) as (ids & Hsub & Hids).
  cbn in Hids.
  assert (Hnd' : NoDup (restrict (include_item_ids a) universe)).
  { eapply sublist_NoDup; [exact Hnd | apply restrict_sublist]. }
  assert (Hsorted : NoDup (item_id <$> sort_desc rs)).
  { rewrite sort_desc_perm, Hids. eapply sublist_NoDup; eassumption. }
  split.
  - rewrite fmap_take. eapply sublist_NoDup; [exact Hsorted | apply sublist_take].
  - intros s Hs.
    assert (Hin : item_id s ∈ restrict (include_item_ids a) universe).
    { eapply elem_of_sublist; [|exact Hsub]. rewrite <- Hids, <- sort_desc_perm.
      apply list_elem_of_fmap. exists s. split; [reflexivity|].
      eapply elem_of_sublist; [exact Hs | apply sublist_take]. }
    split.
    + eapply elem_of_sublist; [exact Hin | apply restrict_sublist].
    + intros l El. rewrite El in Hin. eapply restrict_included, Hin.
Qed.

Lemma suggested_items_witness :
  match build_suggestions (with_include_item_ids [9; 1] (market 1700000000))
          [1; 4; 9] (fun _ => 1700000000) 0%nat with
  | Ret (out, _) =>
      item_id <$> out = [9; 1] ∧
      NoDup (item_id <$> out) ∧
      ∀ s, s ∈ out →
        item_id s ∈ [1; 4; 9] ∧
        ∀ l, include_item_ids (with_include_item_ids [9; 1] (market 1700000000))
             = Some l → item_id s ∈ l
  | Raise _ => False
  end ∧
  match build_suggestions (market 1700000000) [1; 4; 9]
          (fun _ => 1700000000) 0%nat with
  | Ret (out, _) => item_id <$> out = [9; 4; 1]
  | Raise _ => False
  end.
Proof.
  split.
  - destruct (build_suggestions (with_include_item_ids [9; 1] (market 1700000000))
                [1; 4; 9] (fun _ => 1700000000) 0%nat) as [[out n']|e] eqn:E.
    + assert (Hnd : NoDup [1; 4; 9]).
      { repeat (apply NoDup_cons; split;
                [rewrite ?elem_of_cons, ?elem_of_nil; lia|]).
        apply NoDup_nil_2. }
      destruct (suggested_items _ _ _ _ _ _ E Hnd) as [H1 H2].
      split; [|split; [exact H1 | exact H2]].
      vm_compute in E. injection E as <- _. reflexivity.
    + vm_compute in E. discriminate E.
  - vm_compute. reflexivity.
Defined.

Lemma loop_with_top_n k a universe results c n :
  build_suggestions_loop (with_top_n k a) universe results c n
  = build_suggestions_loop a universe results c n.
Proof.
  revert results n. induction universe as [|i u IH]; intros rs n; [reflexivity|].
  cbn [build_suggestions_loop].
  change (build_suggestions_item (with_top_n k a) i) with (build_suggestions_item a i).
  rewrite !M_bind_run.
  destruct (build_suggestions_item a i c n) as [[o n1]|e]; [apply IH | reflexivity].
Qed.

Lemma build_suggestions_with_top_n k a universe c n :
  build_suggestions (with_top_n k a) universe c n
  = match build_suggestions_loop a (restrict (include_item_ids a) universe) [] c n with
    | Ret (results, n') =>
        Ret (take (Z.to_nat (Z.max 1 k)) (sort_desc results), n')
    | Raise e => Raise e
    end.
Proof.
  unfold build_suggestions. rewrite M_bind_run.
  cbn [include_item_ids with_top_n top_n]. rewrite loop_with_top_n.
  destruct (build_suggestions_loop a _ [] c n) as [[rs n1]|e]; reflexivity.
Qed.

(** X8.  Asking for fewer suggestions gives the head of the longer list:
    with the other arguments and the clock alike, the runs for [top_n =
    k] and for [top_n = k' >= k] end alike, in the same exception or in
    two lists after the same samples of the clock; then the output for
    [k] is the first [max(1, k)] suggestions of the output for [k'], and
    no suggestion that it leaves out ranks above one that it keeps, in
    the order on [(profit_per_hour, total_profit, unit_roi)]. *)
Theorem shorter_list_is_prefix a universe c n k k' :
  k ≤ k' →
  match build_suggestions (with_top_n k a) universe c n,
        build_suggestions (with_top_n k' a) universe c n with
  | Ret (out, n1), Ret (out', n2) =>
      out = take (Z.to_nat (Z.max 1 k)) out' ∧ n1 = n2 ∧
      ∀ x y, x ∈ out → y ∈ drop (Z.to_nat (Z.max 1 k)) out' →
             ¬ ranks_below x y
  | Raise e, Raise e' => e = e'
  | _, _ => False
  end.
Proof.
  intros Hk. rewrite !build_suggestions_with_top_n.
  destruct (build_suggestions_loop a _ [] c n) as [[rs m]|e] eqn:Hl;
    [|reflexivity].
  assert (Ht : take (Z.to_nat (Z.max 1 k)) (sort_desc rs)
               = take (Z.to_nat (Z.max 1 k))
                   (take (Z.to_nat (Z.max 1 k')) (sort_desc rs)))
    by (rewrite take_take; f_equal; lia).
  split; [exact Ht|]. split; [reflexivity|].
  intros x y Hx Hy. rewrite Ht in Hx.
  pose proof (loop_results_no_nan _ _ _ _ _ _ Hl) as Hnn.
  pose proof (descending_ranked _
                (descending_take (Z.to_nat (Z.max 1 k')) _
                   (sort_desc_descending _ Hnn))) as Hr.
  unfold ranked in Hr.
  rewrite <- (take_drop (Z.to_nat (Z.max 1 k))
                (take (Z.to_nat (Z.max 1 k')) (sort_desc rs))) in Hr.
  exact (StronglySorted_app_1_elem_of _ _ _ _ _ Hr Hx Hy).
Qed.

Lemma shorter_list_is_prefix_witness :
  match build_suggestions (with_top_n 2 (market 1700000000)) [1; 4; 9]
          (fun _ => 1700000000) 0%nat,
        build_suggestions (with_top_n 10 (market 1700000000)) [1; 4; 9]
          (fun _ => 1700000000) 0%nat with
  | Ret (out, n1), Ret (out', n2) =>
      out = take (Z.to_nat (Z.max 1 2)) out' ∧ n1 = n2 ∧
      ∀ x y, x ∈ out → y ∈ drop (Z.to_nat (Z.max 1 2)) out' →
             ¬ ranks_below x y
  | Raise e, Raise e' => e = e'
  | _, _ => False
  end ∧
  match build_suggestions (with_top_n 2 (market 1700000000)) [1; 4; 9]
          (fun _ => 1700000000) 0%nat,
        build_suggestions (with_top_n 10 (market 1700000000)) [1; 4; 9]
          (fun _ => 1700000000) 0%nat with
  | Ret (out, _), Ret (out', _) =>
      item_id <$> out = [9; 4] ∧ item_id <$> out' = [9; 4; 1] ∧
      item_id <$> drop (Z.to_nat (Z.max 1 2)) out' = [1]
  | _, _ => False
  end.
Proof.
  split.
  - apply (shorter_list_is_prefix (market 1700000000) [1; 4; 9]
             (fun _ => 1700000000) 0%nat 2 10). lia.
  - vm_compute. repeat split; reflexivity.
Defined.

(** ** The clock and the freshness filter *)

Lemma clock_free_ret {A} (x : A) : clock_free (mret x).
Proof. exists (Ret x). reflexivity. Qed.

Lemma clock_free_lift {A} (r : res A) : clock_free (lift r).
Proof. exists r. reflexivity. Qed.

Lemma clock_free_bind {A B} (m : M A) (f : A → M B) :
  clock_free m → (∀ x, clock_free (f x)) → clock_free (m ≫= f).
Proof.
  intros [r Hr] Hf. destruct r as [x|e].
  - destruct (Hf x) as [r' Hr']. exists r'. intros c n.
    rewrite M_bind_run, Hr. cbn. apply Hr'.
  - exists (Raise e). intros c n. rewrite M_bind_run, Hr. reflexivity.
Qed.

Lemma clock_free_item a i :
  negb (Float.truthy (fresh_minutes a)) || Float.le_int (fresh_minutes a) 0 = true →
  price_source a = "1h" ∨ price_source a = "latest" →
  clock_free (build_suggestions_item a i).
Proof.
  intros Hoff Hps. unfold build_suggestions_item.
  apply clock_free_bind.
  { unfold _is_fresh_enough. rewrite Hoff. apply clock_free_ret. }
  intros fresh. destruct fresh; cbn [negb]; [|apply clock_free_ret].
  apply clock_free_bind.
  { unfold _choose_prices_for_item.
    destruct Hps as [-> | ->]; cbn [String.eqb Ascii.eqb Bool.eqb].
    - destruct (truthy_entry (one_hour a !! i)); apply clock_free_ret.
    - destruct (truthy_entry (latest a !! i)); apply clock_free_ret. }
  intros [[[[bb bs] lv] hv]|]; [apply clock_free_lift | apply clock_free_ret].
Qed.

Lemma clock_free_loop a universe results :
  (∀ i, clock_free (build_suggestions_item a i)) →
  clock_free (build_suggestions_loop a universe results).
Proof.
  intros Hi. revert results.
  induction universe as [|i u IH]; intros rs; cbn [build_suggestions_loop].
  - apply clock_free_ret.
  - apply clock_free_bind; [apply Hi | intros o; apply IH].
Qed.

(** X9.  With the freshness filter off ([fresh_minutes] zero or negative)
    and the price source "1h" or "latest", the engine never reads the
    clock: the outcome is the same under every clock and no sample is
    taken. *)
Theorem windowed_sources_ignore_clock a universe :
  negb (Float.truthy (fresh_minutes a)) || Float.le_int (fresh_minutes a) 0 = true →
  price_source a = "1h" ∨ price_source a = "latest" →
  clock_free (build_suggestions a universe).
Proof.
  intros Hoff Hps. unfold build_suggestions.
  apply clock_free_bind.
  - apply clock_free_loop. intros i. apply clock_free_item; assumption.
  - intros rs. apply clock_free_ret.
Qed.

Lemma windowed_sources_ignore_clock_witness :
  clock_free (build_suggestions (windowed_only Float.zero) [7]).
Proof.
  apply (windowed_sources_ignore_clock (windowed_only Float.zero) [7]).
  - reflexivity.
  - left. reflexivity.
Defined.

(** X10.  An entry that passes the freshness filter under some policy
    passes it under the policy "any", with the same sample of the
    clock. *)
Theorem fresh_under_any lt fm policy c n n' :
  _is_fresh_enough lt fm policy c n = Ret (true, n') →
  _is_fresh_enough lt fm "any" c n = Ret (true, n').
Proof.
  unfold _is_fresh_enough.
  destruct (negb (Float.truthy fm) || Float.le_int fm 0); [auto|].
  destruct (truthy_entry lt) as [d|]; [|auto].
  assert (H :
    (now ← time_now;
     high_ok ← lift (within now (get d "highTime") fm);
     low_ok ← lift (within now (get d "lowTime") fm);
     mret (if String.eqb policy "any" then high_ok || low_ok
           else high_ok && low_ok)) c n = Ret (true, n') →
    (now ← time_now;
     high_ok ← lift (within now (get d "highTime") fm);
     low_ok ← lift (within now (get d "lowTime") fm);
     mret (if String.eqb "any" "any" then high_ok || low_ok
           else high_ok && low_ok)) c n = Ret (true, n')).
  { intros H.
    apply M_bind_Ret in H. destruct H as (now & n1 & Hnow & H).
    apply M_bind_Ret in H. destruct H as (ho & n2 & Hh & H).
    apply M_bind_Ret in H. destruct H as (lo & n3 & Hl & H).
    apply M_ret_Ret in H. destruct H as [H ->].
    rewrite (M_bind_step _ _ _ _ _ _ Hnow).
    rewrite (M_bind_step _ _ _ _ _ _ Hh).
    rewrite (M_bind_step _ _ _ _ _ _ Hl).
    cbn [String.eqb Ascii.eqb Bool.eqb].
    destruct (String.eqb policy "any"); [rewrite <- H; reflexivity|].
    symmetry in H. apply andb_true_iff in H. destruct H as [-> _]. reflexivity. }
  destruct (get d "highTime"), (get d "lowTime"); auto.
Qed.

Lemma fresh_under_any_witness :
  _is_fresh_enough (Some (stamped 1700000000)) ten "any" (fun _ => 1700000000) 0%nat
  = Ret (true, 1%nat).
Proof.
  apply (fresh_under_any (Some (stamped 1700000000)) ten "both").
  vm_compute. reflexivity.
Defined.

(** ** The purchases in the window *)

Lemma units_app i ps qs : units i (ps ++ qs) = units i ps + units i qs.
Proof.
  induction ps as [|p ps IH]; cbn [units foldr app]; [reflexivity|].
  fold (units i (ps ++ qs)). fold (units i ps). rewrite IH.
  destruct (bool_decide (p.1 = i)); lia.
Qed.

Lemma units_nonneg i ps : Forall (fun p => 0 ≤ p.2) ps → 0 ≤ units i ps.
Proof.
  induction 1 as [|p ps Hp _ IH]; cbn [units foldr]; [lia|].
  fold (units i ps). destruct (bool_decide (p.1 = i)); lia.
Qed.

Lemma units_single j i q :
  units j (option_list (Some (i, q))) = if bool_decide (i = j) then q else 0.
Proof.
  unfold units, option_list. cbn.
  destruct (bool_decide (i = j)); lia.
Qed.

Lemma foldl_bump_lookup used ps i :
  default 0 (foldl bump used ps !! i) = default 0 (used !! i) + units i ps.
Proof.
  revert used. induction ps as [|p ps IH]; intros used; cbn [foldl units foldr].
  - lia.
  - fold (units i ps). rewrite IH. unfold bump.
    destruct (bool_decide (p.1 = i)) eqn:E.
    + apply bool_decide_eq_true in E. subst i.
      rewrite lookup_insert_eq. cbn. lia.
    + apply bool_decide_eq_false in E.
      rewrite lookup_insert_ne by exact E. reflexivity.
Qed.

Lemma remaining_of_allowance used limits i :
  remaining_of used limits !! i = allowance limits i (default 0 (used !! i)).
Proof.
  unfold remaining_of, allowance. rewrite map_lookup_imap.
  destruct (limits !! i) as [[C|]|]; reflexivity.
Qed.

Lemma remaining_of_ext u1 u2 limits :
  (∀ i, default 0 (u1 !! i) = default 0 (u2 !! i)) →
  remaining_of u1 limits = remaining_of u2 limits.
Proof.
  intros H. apply map_eq. intros i. rewrite !remaining_of_allowance, H. reflexivity.
Qed.

Lemma allowance_range limits i n v :
  0 ≤ n → allowance limits i n = Some v →
  ∃ C, limits !! i = Some (Some C) ∧ 0 ≤ v ∧ v ≤ Z.max 0 C.
Proof.
  unfold allowance. intros Hn H.
  destruct (limits !! i) as [[C|]|]; inversion H. exists C. split; [reflexivity|lia].
Qed.

Lemma count_event_purchase cutoff used e :
  Limits.count_event cutoff used e
  = foldl bump used (option_list (purchase cutoff e)).
Proof.
  unfold Limits.count_event, purchase.
  destruct (String.eqb (Limits.type e) "buy"); cbn [negb andb]; [|reflexivity].
  destruct (Z.ltb_spec (Limits.ts e) cutoff), (Z.leb_spec cutoff (Limits.ts e));
    try lia; reflexivity.
Qed.

Lemma foldl_count_event cutoff used events :
  foldl (Limits.count_event cutoff) used events
  = foldl bump used (omap (purchase cutoff) events).
Proof.
  revert used. induction events as [|e l IH]; intros used; [reflexivity|].
  cbn [foldl omap list_omap]. rewrite IH, count_event_purchase.
  destruct (purchase cutoff e); reflexivity.
Qed.

Lemma purchases_nonneg cutoff events :
  Forall (fun p : Z * Z => 0 ≤ p.2) (omap (purchase cutoff) events).
Proof.
  induction events as [|e l IH]; cbn [omap list_omap]; [constructor|].
  unfold purchase at 1.
  destruct (String.eqb (Limits.type e) "buy" && (cutoff <=? Limits.ts e));
    [constructor; [cbn; lia | exact IH] | exact IH].
Qed.

Lemma filter_Forall_id {A} (P : A → Prop) `{∀ x, Decision (P x)} (l : list A) :
  Forall P l → filter P l = l.
Proof.
  induction 1 as [|x l Hx _ IH]; [reflexivity|].
  rewrite filter_cons_True by exact Hx. f_equal. exact IH.
Qed.

(** ** The local log *)

Section LocalLogFacts.
Variable int_of_str : string → option Z.
Variable str_of : json → string.

(** X11.  What [compute_remaining_limits] returns: the log is loaded, one
    more sample of the clock is taken, and every item with a known limit
    [C] gets [max(0, C - n)], where [n] sums the quantities, the negative
    ones as zero, of the buys of the item that are not older than four
    hours; so a value returned lies between 0 and [max(0, C)], and an
    item without a known limit gets nothing. *)
Theorem remaining_is_limit_minus_bought fs path limits (c : clock) n r n' :
  Limits.compute_remaining_limits int_of_str str_of fs path limits c n = Ret (r, n') →
  ∃ st n1,
    Limits.load_state int_of_str str_of fs path c n = Ret (st, n1) ∧
    n' = S n1 ∧
    ∀ i,
      r !! i = allowance limits i
                 (units i (omap (purchase (c n1 - Limits.FOUR_HOURS_SEC))
                                (Limits.events st))) ∧
      ∀ v, r !! i = Some v →
           ∃ C, limits !! i = Some (Some C) ∧ 0 ≤ v ∧ v ≤ Z.max 0 C.
Proof.
  intros H.
  destruct (Limits.load_state int_of_str str_of fs path c n) as [[st n1]|e] eqn:El.
  2:{ unfold Limits.compute_remaining_limits in H.
      rewrite M_bind_run, El in H. discriminate. }
  rewrite (compute_loaded _ _ _ _ _ _ _ _ _ El) in H. inversion H; subst.
  exists st, n1. split; [reflexivity|]. split; [reflexivity|]. intros i.
  rewrite remaining_of_allowance, foldl_count_event, foldl_bump_lookup.
  rewrite lookup_empty. cbn [default from_option id]. rewrite Z.add_0_l.
  split; [reflexivity|].
  intros v. apply allowance_range, units_nonneg, purchases_nonneg.
Qed.

(** The events of a loaded state are those [load_state] keeps. *)
Lemma load_state_kept fs path (c : clock) n st n1 :
  Limits.load_state int_of_str str_of fs path c n = Ret (st, n1) →
  kept (c n) (Limits.events st) = Limits.events st.
Proof.
  unfold Limits.load_state.
  destruct (String.eqb path ""); [intros [= <- _]; reflexivity|].
  destruct (fs !! path) as [[| | | | | |data]|]; try discriminate;
    [|intros [= <- _]; reflexivity].
  intros H.
  apply M_bind_Ret in H. destruct H as (raw & n2 & Hraw & H).
  apply lift_Ret in Hraw. destruct Hraw as [_ ->].
  apply M_bind_Ret in H. destruct H as (now & n3 & Hnow & H).
  inversion Hnow; subst. clear Hnow.
  apply M_bind_Ret in H. destruct H as (v & n4 & Hv & H).
  apply M_ret_Ret in H. destruct H as [-> _].
  cbn [Limits.events]. unfold kept. apply filter_Forall_id.
  apply Forall_forall. intros e He. apply list_elem_of_filter in He. tauto.
Qed.

Lemma append_event_run fs path i q ty ts (c : clock) n st n1 :
  ty = "buy" ∨ ty = "sell" →
  Limits.load_state int_of_str str_of fs path c n = Ret (st, n1) →
  Limits.append_event int_of_str str_of fs path i q ty ts c n
  = lift (Limits.save_state fs path
            {| Limits.events := Limits.events st ++ [recorded (c n1) i q ty ts];
               Limits.version := Limits.version st |})
         c (match ts with Some _ => n1 | None => S n1 end).
Proof.
  intros Hty H. unfold Limits.append_event.
  assert (E : negb (String.eqb ty "buy" || String.eqb ty "sell") = false)
    by (destruct Hty as [-> | ->]; reflexivity).
  rewrite E, (M_bind_step _ _ _ _ _ _ H).
  destruct ts as [t|]; rewrite M_bind_run; reflexivity.
Qed.

Lemma append_event_saved fs path i q ty ts now n st n1 :
  path ≠ "" → ty = "buy" ∨ ty = "sell" →
  Limits.load_state int_of_str str_of fs path (fun _ => now) n = Ret (st, n1) →
  ∃ fs' n2,
    Limits.append_event int_of_str str_of fs path i q ty ts (fun _ => now) n
      = Ret (fs', n2) ∧
    Limits.save_state fs path
      {| Limits.events := Limits.events st ++ [recorded now i q ty ts];
         Limits.version := Limits.version st |} = Ret fs'.
Proof.
  intros Hp Hty Hl.
  rewrite (append_event_run _ _ _ _ _ _ _ _ _ _ Hty Hl).
  destruct (Limits.save_state fs path
              {| Limits.events := Limits.events st ++ [recorded now i q ty ts];
                 Limits.version := Limits.version st |}) as [fs'|e] eqn:Es.
  - exists fs', (match ts with Some _ => n1 | None => S n1 end).
    split; reflexivity.
  - unfold Limits.save_state in Es. apply String.eqb_neq in Hp.
    rewrite Hp in Es. discriminate.
Qed.

Lemma load_appended fs path e now n st n1 fs' m :
  Limits.load_state int_of_str str_of fs path (fun _ => now) n = Ret (st, n1) →
  Limits.save_state fs path
    {| Limits.events := Limits.events st ++ [e];
       Limits.version := Limits.version st |} = Ret fs' →
  Limits.load_state int_of_str str_of fs' path (fun _ => now) m
  = Ret ({| Limits.events := Limits.events st ++ kept now [e];
            Limits.version := Limits.version st |}, S m).
Proof.
  intros Hl Es. rewrite (load_saved _ _ _ _ _ _ _ _ Es).
  cbn [Limits.events Limits.version].
  fold (kept now (Limits.events st ++ [e])).
  unfold kept at 1. rewrite filter_app.
  fold (kept now (Limits.events st)). fold (kept now [e]).
  rewrite (load_state_kept _ _ _ _ _ _ Hl). reflexivity.
Qed.

(** X12.  Appending to a log that loads, under a clock held at [now]:
    [append_event] returns, it leaves every other file as it was, and
    loading the log again gives the events loaded before followed by the
    new one, which is dropped when its timestamp is older than eight
    hours; the version is kept. *)
Theorem append_then_load fs path i q ty ts now n st n1 :
  path ≠ "" → ty = "buy" ∨ ty = "sell" →
  Limits.load_state int_of_str str_of fs path (fun _ => now) n = Ret (st, n1) →
  ∃ fs' n2,
    Limits.append_event int_of_str str_of fs path i q ty ts (fun _ => now) n
      = Ret (fs', n2) ∧
    (∀ p, p ≠ path → fs' !! p = fs !! p) ∧
    ∀ m, Limits.load_state int_of_str str_of fs' path (fun _ => now) m
         = Ret ({| Limits.events :=
                     Limits.events st ++ kept now [recorded now i q ty ts];
                   Limits.version := Limits.version st |}, S m).
Proof.
  intros Hp Hty Hl.
  destruct (append_event_saved fs path i q ty ts now n st n1 Hp Hty Hl)
    as (fs' & n2 & Ha & Es).
  exists fs', n2. split; [exact Ha|]. split.
  - intros p Hne. unfold Limits.save_state in Es.
    destruct (String.eqb path ""); [discriminate|]. inversion Es; subst.
    apply lookup_insert_ne. congruence.
  - intros m. eapply load_appended; eassumption.
Qed.

(** X13.  Recording a sell changes no remaining limit: under a clock held
    at [now], the limits computed after [append_event] of a sell are
    those computed before it. *)
Theorem recorded_sell_is_free fs path i q ts limits now n st n1 :
  path ≠ "" →
  Limits.load_state int_of_str str_of fs path (fun _ => now) n = Ret (st, n1) →
  ∃ fs' n2,
    Limits.append_event int_of_str str_of fs path i q "sell" ts (fun _ => now) n
      = Ret (fs', n2) ∧
    ∀ m, erase (Limits.compute_remaining_limits int_of_str str_of fs' path limits
                  (fun _ => now) m)
         = erase (Limits.compute_remaining_limits int_of_str str_of fs path limits
                    (fun _ => now) n).
Proof.
  intros Hp Hl.
  destruct (append_event_saved fs path i q "sell" ts now n st n1 Hp
              (or_intror eq_refl) Hl) as (fs' & n2 & Ha & Es).
  exists fs', n2. split; [exact Ha|]. intros m.
  rewrite (compute_loaded _ _ _ _ _ _ _ _ _
             (load_appended _ _ _ _ _ _ _ _ m Hl Es)).
  rewrite (compute_loaded _ _ _ _ _ _ _ _ _ Hl).
  cbn [erase Limits.events]. f_equal. f_equal.
  rewrite foldl_app. unfold kept.
  destruct (decide (now - 2 * Limits.FOUR_HOURS_SEC
                    ≤ Limits.ts (recorded now i q "sell" ts))) as [Hk|Hk].
  - rewrite filter_cons_True by exact Hk. reflexivity.
  - rewrite filter_cons_False by exact Hk. reflexivity.
Qed.
End LocalLogFacts.

Lemma remaining_is_limit_minus_bought_witness :
  ∃ st n1,
    Limits.load_state (fun _ => None) (fun _ => "") (log_of 5 30) "limits.json"
      (fun _ => 1700000000) 0%nat = Ret (st, n1) ∧
    ({[ 5 := 70 ]} : gmap Z Z) !! 5
    = allowance {[ 5 := Some 100 ]} 5
        (units 5 (omap (purchase (1700000000 - Limits.FOUR_HOURS_SEC))
                       (Limits.events st))).
Proof.
  destruct (remaining_is_limit_minus_bought (fun _ => None) (fun _ => "")
              (log_of 5 30) "limits.json" {[ 5 := Some 100 ]}
              (fun _ => 1700000000) 0%nat {[ 5 := 70 ]} 2%nat)
    as (st & n1 & Hl & _ & H).
  - vm_compute. reflexivity.
  - exists st, n1. split; [exact Hl | apply H].
Defined.

Lemma append_then_load_witness :
  ∃ fs' n2,
    Limits.append_event (fun _ => None) (fun _ => "") (log_of 5 30) "limits.json"
      5 20 "buy" None (fun _ => 1700000000) 0%nat = Ret (fs', n2) ∧
    Limits.load_state (fun _ => None) (fun _ => "") fs' "limits.json"
      (fun _ => 1700000000) 0%nat
    = Ret ({| Limits.events :=
                [bought_event 5 30]
                ++ kept 1700000000 [recorded 1700000000 5 20 "buy" None];
              Limits.version := 1 |}, 1%nat).
Proof.
  destruct (append_then_load (fun _ => None) (fun _ => "")
              (log_of 5 30) "limits.json" 5 20 "buy" None 1700000000 0%nat
              {| Limits.events := [bought_event 5 30]; Limits.version := 1 |} 1%nat)
    as (fs' & n2 & Ha & _ & Hl).
  - discriminate.
  - left. reflexivity.
  - vm_compute. reflexivity.
  - exists fs', n2. split; [exact Ha | apply Hl].
Defined.

Lemma recorded_sell_is_free_witness :
  ∃ fs' n2,
    Limits.append_event (fun _ => None) (fun _ => "") (log_of 5 30) "limits.json"
      5 20 "sell" None (fun _ => 1700000000) 0%nat = Ret (fs', n2) ∧
    erase (Limits.compute_remaining_limits (fun _ => None) (fun _ => "") fs'
             "limits.json" {[ 5 := Some 100 ]} (fun _ => 1700000000) n2)
    = erase (Limits.compute_remaining_limits (fun _ => None) (fun _ => "")
               (log_of 5 30) "limits.json" {[ 5 := Some 100 ]}
               (fun _ => 1700000000) 0%nat).
Proof.
  destruct (recorded_sell_is_free (fun _ => None) (fun _ => "")
              (log_of 5 30) "limits.json" 5 20 None {[ 5 := Some 100 ]}
              1700000000 0%nat
              {| Limits.events := [bought_event 5 30]; Limits.version := 1 |} 1%nat)
    as (fs' & n2 & Ha & H).
  - discriminate.
  - vm_compute. reflexivity.
  - exists fs', n2. split; [exact Ha | apply H].
Defined.

(** ** The Flipper2 logs *)

Lemma tallies_nothing : tallies Ret (Ret []).
Proof. split; [reflexivity|]. intros ps [= <-]. constructor. Qed.

Lemma tallies_raise e : tallies (fun _ => Raise e) (Raise e).
Proof. split; [reflexivity|]. discriminate. Qed.

Lemma tallies_one i q :
  0 < q → tallies (fun used => Ret (bump used (i, q))) (Ret [(i, q)]).
Proof.
  intros Hq. split; [reflexivity|]. intros ps [= <-].
  constructor; [exact Hq | constructor].
Qed.

Lemma tallies_then f g r1 r2 :
  tallies f r1 → tallies g r2 →
  tallies (fun used => f used ≫= g) (ps ← r1; qs ← r2; mret (ps ++ qs)).
Proof.
  intros [Hf Pf] [Hg Pg]. split.
  - intros used. rewrite Hf. destruct r1 as [ps|e]; [|reflexivity].
    cbn. rewrite Hg. destruct r2 as [qs|e]; [|reflexivity].
    cbn. rewrite foldl_app. reflexivity.
  - intros ps H. destruct r1 as [ps1|]; [|discriminate].
    destruct r2 as [ps2|]; [|discriminate]. cbn in H. inversion H; subst.
    apply Forall_app. split; [apply Pf | apply Pg]; reflexivity.
Qed.

Lemma tallies_run f r used used' :
  tallies f r → f used = Ret used' →
  ∃ ps, r = Ret ps ∧ used' = foldl bump used ps ∧ Forall (fun p => 0 ≤ p.2) ps.
Proof.
  intros [Hf Pf] H. rewrite Hf in H. destruct r as [ps|]; [|discriminate].
  cbn in H. inversion H; subst. exists ps.
  split; [reflexivity|]. split; [reflexivity|].
  eapply Forall_impl; [apply Pf; reflexivity|]. intros p. cbn. lia.
Qed.

Lemma for_each_tallies {A} (body : gmap Z Z → A → res (gmap Z Z)) l :
  (∀ x, ∃ r, tallies (fun used => body used x) r) →
  ∃ r, tallies (fun used => Flipper2.for_each body used l) r.
Proof.
  intros Hb. induction l as [|x l [r2 IH]]; cbn [Flipper2.for_each].
  - eexists. apply tallies_nothing.
  - destruct (Hb x) as [r1 H1]. eexists.
    apply (tallies_then _ _ _ _ H1 IH).
Qed.

Lemma for_each_app {A S} (body : S → A → res S) s l1 l2 :
  Flipper2.for_each body s (l1 ++ l2)
  = Flipper2.for_each body s l1 ≫= fun s' => Flipper2.for_each body s' l2.
Proof.
  revert s. induction l1 as [|x l1 IH]; intros s; cbn [Flipper2.for_each app].
  - reflexivity.
  - destruct (body s x) as [s'|e]; [|reflexivity]. cbn. apply IH.
Qed.

Section Flipper2Tally.
Variable int_of_str : string → option Z.

(** An entry adds at most one purchase to the tally, of at least one
    unit, and which one does not depend on the tally. *)
Lemma add_entry_tallies cutoff e :
  ∃ r, tallies (Flipper2.add_entry int_of_str cutoff e) r.
Proof.
  unfold Flipper2.add_entry.
  set (id := Json.or _ _). set (tsv := Json.or (Json.get e "ts") _).
  generalize (default 0 (Json.try_int int_of_str
    (Json.or (Json.get e "quantity")
       (Json.or (Json.get e "qty")
          (Json.or (Json.get e "amount")
             (Json.or (Json.get e "tQIT") (JInt 0))))))).
  intros q.
  assert (Hrest : ∀ i,
    ∃ r, tallies (fun used =>
      ts ← Flipper2._normalize_ts int_of_str tsv;
      if ts <? cutoff then Ret used
      else if 0 <? q
           then Ret (<[i := default 0 (used !! i) + q]> used)
           else Ret used) r).
  { intros i. destruct (Flipper2._normalize_ts int_of_str tsv) as [ts|ex].
    - cbn. destruct (ts <? cutoff); [eexists; apply tallies_nothing|].
      destruct (0 <? q) eqn:Eq; [|eexists; apply tallies_nothing].
      eexists. apply (tallies_one i). apply Z.ltb_lt, Eq.
    - eexists. apply tallies_raise. }
  destruct id; [eexists; apply tallies_nothing|..];
    (destruct (Json.try_int int_of_str _) as [i|];
     [apply Hrest | eexists; apply tallies_nothing]).
Qed.

Lemma add_buy_tallies cutoff e :
  ∃ r, tallies (fun used => Flipper2.add_buy int_of_str cutoff used e) r.
Proof.
  unfold Flipper2.add_buy. destruct e; try (eexists; apply tallies_nothing).
  apply add_entry_tallies.
Qed.

Lemma add_flip_tallies cutoff e :
  ∃ r, tallies (fun used => Flipper2.add_flip int_of_str cutoff used e) r.
Proof.
  unfold Flipper2.add_flip. destruct e; try (eexists; apply tallies_nothing).
  destruct (match Json.get d "buy" with
            | JDict b => if Json.truthy (JDict b) then Some b else None
            | _ => None
            end).
  { apply add_entry_tallies. }
  destruct (Json.or _ _); try (eexists; apply tallies_raise).
  destruct (_ || _); [apply add_entry_tallies | eexists; apply tallies_nothing].
Qed.

Lemma flipper2_run buys flips limits (c : clock) n r n' :
  Flipper2.compute_remaining_from_flipper2 int_of_str (Some (buys, flips)) limits c n
  = Ret (r, n') →
  n' = S n ∧
  ∃ used1 used2,
    Flipper2.for_each (Flipper2.add_buy int_of_str (c n - Flipper2.FOUR_HOURS_SEC))
      ∅ buys = Ret used1 ∧
    Flipper2.for_each (Flipper2.add_flip int_of_str (c n - Flipper2.FOUR_HOURS_SEC))
      used1 flips = Ret used2 ∧
    r = remaining_of used2 limits.
Proof.
  unfold Flipper2.compute_remaining_from_flipper2. intros H.
  apply M_bind_Ret in H. destruct H as (now & n1 & Hnow & H).
  inversion Hnow; subst. clear Hnow.
  apply M_bind_Ret in H. destruct H as (u1 & n2 & H1 & H).
  apply lift_Ret in H1. destruct H1 as [H1 ->].
  apply M_bind_Ret in H. destruct H as (u2 & n3 & H2 & H).
  apply lift_Ret in H2. destruct H2 as [H2 ->].
  apply M_ret_Ret in H. destruct H as [-> ->].
  split; [reflexivity|]. eauto.
Qed.

(** What the adapter returns is the allowance left by a list of
    purchases of the logs. *)
Lemma flipper2_allowance buys flips limits (c : clock) n r n' :
  Flipper2.compute_remaining_from_flipper2 int_of_str (Some (buys, flips)) limits c n
  = Ret (r, n') →
  ∃ ps, Forall (fun p : Z * Z => 0 ≤ p.2) ps ∧
        ∀ i, r !! i = allowance limits i (units i ps).
Proof.
  intros H. apply flipper2_run in H.
  destruct H as (_ & u1 & u2 & H1 & H2 & ->).
  destruct (for_each_tallies
              (Flipper2.add_buy int_of_str (c n - Flipper2.FOUR_HOURS_SEC))
              buys (add_buy_tallies _)) as [r1 T1].
  destruct (for_each_tallies
              (Flipper2.add_flip int_of_str (c n - Flipper2.FOUR_HOURS_SEC))
              flips (add_flip_tallies _)) as [r2 T2].
  destruct (tallies_run _ _ _ _ T1 H1) as (ps1 & _ & -> & P1).
  destruct (tallies_run _ _ _ _ T2 H2) as (ps2 & _ & -> & P2).
  exists (ps1 ++ ps2). split; [apply Forall_app; auto|]. intros i.
  rewrite remaining_of_allowance, !foldl_bump_lookup, lookup_empty, units_app.
  reflexivity.
Qed.

(** X14.  What [compute_remaining_from_flipper2] returns for a directory:
    every item with a known limit [C] gets a value between 0 and
    [max(0, C)], whatever the logs hold, and an item without a known
    limit gets nothing. *)
Theorem flipper2_remaining_range buys flips limits (c : clock) n r n' :
  Flipper2.compute_remaining_from_flipper2 int_of_str (Some (buys, flips)) limits c n
  = Ret (r, n') →
  ∀ i,
    match limits !! i with
    | Some (Some C) => ∃ v, r !! i = Some v ∧ 0 ≤ v ∧ v ≤ Z.max 0 C
    | _ => r !! i = None
    end.
Proof.
  intros H i. destruct (flipper2_allowance _ _ _ _ _ _ _ H) as (ps & Hps & Hr).
  rewrite Hr. pose proof (units_nonneg i ps Hps).
  unfold allowance. destruct (limits !! i) as [[C|]|]; try reflexivity.
  eexists. split; [reflexivity|]. lia.
Qed.

(** X15.  More entries in the logs never raise a remaining limit: when
    the adapter returns for the logs and for the logs with entries
    appended, under the same sample of the clock, no item has more left
    with the longer logs. *)
Theorem flipper2_more_entries_less_remaining buys flips more_buys more_flips
    limits (c : clock) n r n1 r' n2 :
  Flipper2.compute_remaining_from_flipper2 int_of_str (Some (buys, flips)) limits c n
  = Ret (r, n1) →
  Flipper2.compute_remaining_from_flipper2 int_of_str
    (Some (buys ++ more_buys, flips ++ more_flips)) limits c n = Ret (r', n2) →
  ∀ i v v', r !! i = Some v → r' !! i = Some v' → v' ≤ v.
Proof.
  intros H H' i v v'.
  apply flipper2_run in H. destruct H as (_ & u1 & u2 & H1 & H2 & ->).
  apply flipper2_run in H'. destruct H' as (_ & u1' & u2' & H1' & H2' & ->).
  set (cutoff := c n - Flipper2.FOUR_HOURS_SEC) in *.
  rewrite for_each_app in H1'. apply res_bind_Ret in H1'.
  destruct H1' as (w1 & Hw1 & H1'). rewrite H1 in Hw1. inversion Hw1; subst w1.
  rewrite for_each_app in H2'. apply res_bind_Ret in H2'.
  destruct H2' as (w2 & Hw2 & H2').
  destruct (for_each_tallies (Flipper2.add_buy int_of_str cutoff)
              more_buys (add_buy_tallies _)) as [rb Tb].
  destruct (for_each_tallies (Flipper2.add_flip int_of_str cutoff)
              flips (add_flip_tallies _)) as [rf Tf].
  destruct (for_each_tallies (Flipper2.add_flip int_of_str cutoff)
              more_flips (add_flip_tallies _)) as [rm Tm].
  destruct (tallies_run _ _ _ _ Tb H1') as (pb & _ & -> & Pb).
  destruct (tallies_run _ _ _ _ Tf H2) as (pf & Ef & -> & Pf).
  destruct (tallies_run _ _ _ _ Tf Hw2) as (pf' & Ef' & -> & _).
  rewrite Ef in Ef'. inversion Ef'; subst pf'.
  destruct (tallies_run _ _ _ _ Tm H2') as (pm & _ & -> & Pm).
  rewrite !remaining_of_allowance, !foldl_bump_lookup.
  pose proof (units_nonneg i pb Pb). pose proof (units_nonneg i pm Pm).
  unfold allowance. destruct (limits !! i) as [[C|]|]; try discriminate.
  intros [= <-] [= <-]. lia.
Qed.

Lemma for_each_add_buy_dicts cutoff used (l : list json) :
  Flipper2.for_each (Flipper2.add_buy int_of_str cutoff) used
    (omap (fun v => match v with JDict d => Some (JDict d) | _ => None end) l)
  = Flipper2.for_each (Flipper2.add_buy int_of_str cutoff) used l.
Proof.
  revert used. induction l as [|v l IH]; intros used; [reflexivity|].
  destruct v; cbn [omap list_omap Flipper2.for_each Flipper2.add_buy mbind res_bind];
    try apply IH.
  destruct (Flipper2.add_entry int_of_str cutoff d used); [apply IH | reflexivity].
Qed.

Lemma for_each_add_flip_dicts cutoff used (l : list json) :
  Flipper2.for_each (Flipper2.add_flip int_of_str cutoff) used
    (omap (fun v => match v with JDict d => Some (JDict d) | _ => None end) l)
  = Flipper2.for_each (Flipper2.add_flip int_of_str cutoff) used l.
Proof.
  revert used. induction l as [|v l IH]; intros used; [reflexivity|].
  destruct v; cbn [omap list_omap Flipper2.for_each mbind res_bind];
    try (cbn [Flipper2.add_flip]; apply IH).
  destruct (Flipper2.add_flip int_of_str cutoff used (JDict d)); [apply IH | reflexivity].
Qed.

Lemma read_lines objs :
  _read_json_or_jsonl (Lines objs)
  = omap (fun v => match v with JDict d => Some (JDict d) | _ => None end)
         (omap id objs).
Proof.
  cbn [_read_json_or_jsonl].
  induction objs as [|[v|] l IH]; cbn [omap list_omap id]; [reflexivity| |exact IH].
  destruct v; cbn; rewrite ?IH; reflexivity.
Qed.

(** X16.  The two formats of a log are interchangeable: logs that are
    read line by line give what the same logs give as JSON arrays of the
    values of their lines; the lines that do not parse are skipped, and
    the values that are not objects count for nothing in either
    format. *)
Theorem jsonl_same_as_array buys flips limits (c : clock) n :
  Flipper2.compute_remaining_from_flipper2 int_of_str
    (read_logs (Some (Lines buys, Lines flips))) limits c n
  = Flipper2.compute_remaining_from_flipper2 int_of_str
      (read_logs (Some (Document (JList (omap id buys)),
                        Document (JList (omap id flips))))) limits c n.
Proof.
  unfold read_logs. rewrite !read_lines. cbn [_read_json_or_jsonl].
  unfold Flipper2.compute_remaining_from_flipper2.
  rewrite !M_bind_run. unfold time_now. cbv beta iota zeta.
  rewrite !M_bind_run. rewrite for_each_add_buy_dicts.
  destruct (Flipper2.for_each _ ∅ (omap id buys)) as [u|e]; [|reflexivity].
  cbn [lift]. rewrite !M_bind_run. rewrite for_each_add_flip_dicts. reflexivity.
Qed.
End Flipper2Tally.

Lemma flipper2_remaining_range_witness :
  match ({[ 5 := Some 100 ]} : gmap Z (option Z)) !! 5 with
  | Some (Some C) =>
      ∃ v, ({[ 5 := 70 ]} : gmap Z Z) !! 5 = Some v ∧ 0 ≤ v ∧ v ≤ Z.max 0 C
  | _ => ({[ 5 := 70 ]} : gmap Z Z) !! 5 = None
  end.
Proof.
  apply (flipper2_remaining_range (fun _ => None)
           [as_flipper2 (bought_event 5 30)] [] {[ 5 := Some 100 ]}
           (fun _ => 1700000000) 0%nat {[ 5 := 70 ]} 1%nat).
  vm_compute. reflexivity.
Defined.

Lemma flipper2_more_entries_less_remaining_witness :
  Flipper2.compute_remaining_from_flipper2 (fun _ => None)
    (Some ([as_flipper2 (bought_event 5 30)], [])) {[ 5 := Some 100 ]}
    (fun _ => 1700000000) 0%nat = Ret ({[ 5 := 70 ]}, 1%nat) ∧
  Flipper2.compute_remaining_from_flipper2 (fun _ => None)
    (Some ([as_flipper2 (bought_event 5 30)] ++ [as_flipper2 (bought_event 5 30)],
           [] ++ [])) {[ 5 := Some 100 ]}
    (fun _ => 1700000000) 0%nat = Ret ({[ 5 := 40 ]}, 1%nat) ∧
  40 ≤ 70.
Proof.
  assert (H1 : Flipper2.compute_remaining_from_flipper2 (fun _ => None)
                 (Some ([as_flipper2 (bought_event 5 30)], [])) {[ 5 := Some 100 ]}
                 (fun _ => 1700000000) 0%nat = Ret ({[ 5 := 70 ]}, 1%nat))
    by (vm_compute; reflexivity).
  assert (H2 : Flipper2.compute_remaining_from_flipper2 (fun _ => None)
                 (Some ([as_flipper2 (bought_event 5 30)]
                        ++ [as_flipper2 (bought_event 5 30)], [] ++ []))
                 {[ 5 := Some 100 ]}
                 (fun _ => 1700000000) 0%nat = Ret ({[ 5 := 40 ]}, 1%nat))
    by (vm_compute; reflexivity).
  split; [exact H1|]. split; [exact H2|].
  apply (flipper2_more_entries_less_remaining _ _ _ _ _ _ _ _ _ _ _ _ H1 H2 5);
    reflexivity.
Defined.

(** ** The two accountants side by side *)

Section Agreement.
Variable int_of_str : string → option Z.
Variable str_of : json → string.

Lemma add_buy_as_flipper2 cutoff used e :
  Limits.type e = "buy" → Limits.item_id e ≠ 0 → Limits.ts e ≤ 10 ^ 12 →
  ∃ used',
    Flipper2.add_buy int_of_str cutoff used (as_flipper2 e) = Ret used' ∧
    ∀ j, default 0 (used' !! j)
         = default 0 (used !! j) + units j (option_list (purchase cutoff e)).
Proof.
  destruct e as [t i ty q]. cbn [Limits.type Limits.item_id Limits.ts].
  intros -> Hi Ht.
  unfold as_flipper2, Flipper2.add_buy, Flipper2.add_entry, purchase.
  cbn [Limits.type Limits.item_id Limits.ts Limits.qty].
  set (d := ({[ "itemId" := JInt i; "ts" := JInt t; "quantity" := JInt q ]}
             : gmap string json)).
  assert (G1 : Json.get d "itemId" = JInt i) by (vm_compute; reflexivity).
  assert (G2 : Json.get d "ts" = JInt t) by (vm_compute; reflexivity).
  assert (G3 : Json.get d "quantity" = JInt q) by (vm_compute; reflexivity).
  assert (G4 : Json.get d "time" = JNull) by (vm_compute; reflexivity).
  assert (G5 : Json.get d "timestamp" = JNull) by (vm_compute; reflexivity).
  assert (G6 : Json.get d "createdAt" = JNull) by (vm_compute; reflexivity).
  assert (G7 : Json.get d "createdTime" = JNull) by (vm_compute; reflexivity).
  assert (G8 : Json.get d "qty" = JNull) by (vm_compute; reflexivity).
  assert (G9 : Json.get d "amount" = JNull) by (vm_compute; reflexivity).
  assert (G10 : Json.get d "tQIT" = JNull) by (vm_compute; reflexivity).
  rewrite G1, G2, G3, G4, G5, G6, G7, G8, G9, G10.
  clear G1 G2 G3 G4 G5 G6 G7 G8 G9 G10.
  assert (Eid : Json.or (JInt i) (Json.or (Json.get d "id") (Json.get d "item"))
                = JInt i).
  { unfold Json.or at 1. cbn [Json.truthy].
    destruct (Z.eqb_spec i 0); [contradiction|]. reflexivity. }
  rewrite Eid. cbn [Json.try_int Json.int].
  assert (Ets : Flipper2._normalize_ts int_of_str
                  (Json.or (JInt t)
                     (Json.or JNull (Json.or JNull (Json.or JNull JNull))))
                = Ret t).
  { unfold Json.or at 1. cbn [Json.truthy].
    destruct (Z.eqb_spec t 0) as [->|Hne]; [reflexivity|].
    cbn [negb Flipper2._normalize_ts Json.int mbind res_bind mret res_ret].
    unfold Flipper2.scale. destruct (Z.ltb_spec (10 ^ 12) t); [lia|]. reflexivity. }
  rewrite Ets. cbn [mbind res_bind].
  assert (Eq : default 0 (Json.try_int int_of_str
                  (Json.or (JInt q)
                     (Json.or JNull (Json.or JNull (Json.or JNull (JInt 0))))))
               = q).
  { unfold Json.or at 1. cbn [Json.truthy].
    destruct (Z.eqb_spec q 0) as [->|Hne]; reflexivity. }
  rewrite Eq. clear Eid Ets Eq.
  cbn [String.eqb Ascii.eqb Bool.eqb andb].
  destruct (Z.ltb_spec t cutoff), (Z.leb_spec cutoff t); try lia.
  - eexists. split; [reflexivity|]. intros j. cbn. lia.
  - destruct (Z.ltb_spec 0 q).
    + eexists. split; [reflexivity|]. intros j.
      rewrite Z.max_r by lia. rewrite units_single.
      destruct (decide (i = j)) as [<-|E].
      * rewrite lookup_insert_eq, bool_decide_eq_true_2 by reflexivity.
        reflexivity.
      * rewrite lookup_insert_ne, bool_decide_eq_false_2 by exact E. lia.
    + eexists. split; [reflexivity|]. intros j.
      rewrite Z.max_l by lia. rewrite units_single.
      destruct (bool_decide (i = j)); lia.
Qed.

Lemma for_each_flipper2_buys cutoff used events :
  Forall (fun e => Limits.item_id e ≠ 0 ∧ Limits.ts e ≤ 10 ^ 12) events →
  ∃ used',
    Flipper2.for_each (Flipper2.add_buy int_of_str cutoff) used (flipper2_buys events)
      = Ret used' ∧
    ∀ j, default 0 (used' !! j)
         = default 0 (used !! j) + units j (omap (purchase cutoff) events).
Proof.
  intros H. revert used. unfold flipper2_buys.
  induction H as [|e l [Hi Ht] _ IH]; intros used.
  - exists used. split; [reflexivity|]. intros j. cbn. lia.
  - destruct (decide (Limits.type e = "buy")) as [Hb|Hb].
    + rewrite filter_cons_True by exact Hb. cbn [fmap list_fmap Flipper2.for_each].
      destruct (add_buy_as_flipper2 cutoff used e Hb Hi Ht) as (u1 & -> & H1).
      cbn [mbind res_bind]. destruct (IH u1) as (u2 & -> & H2).
      exists u2. split; [reflexivity|]. intros j. rewrite H2, H1.
      cbn [omap list_omap].
      destruct (purchase cutoff e) as [p|]; cbv [option_list option_rect].
      * change (p :: omap (purchase cutoff) l) with ([p] ++ omap (purchase cutoff) l).
        rewrite units_app. lia.
      * change (units j []) with 0. lia.
    + rewrite filter_cons_False by exact Hb.
      destruct (IH used) as (u2 & -> & H2).
      exists u2. split; [reflexivity|]. intros j. rewrite H2.
      cbn [omap list_omap]. unfold purchase at 2.
      apply String.eqb_neq in Hb. rewrite Hb. reflexivity.
Qed.

(** X17.  The two accountants agree: for a local log that loads, with
    no item id 0 and no timestamp above 10^12, the Flipper2 adapter run
    on the buys of that log, written as Flipper2 entries, returns under a
    clock held at [now] the very map the local accountant returns. *)
Theorem accountants_agree fs path limits now n st n1 m :
  Limits.load_state int_of_str str_of fs path (fun _ => now) n = Ret (st, n1) →
  Forall (fun e => Limits.item_id e ≠ 0 ∧ Limits.ts e ≤ 10 ^ 12) (Limits.events st) →
  erase (Flipper2.compute_remaining_from_flipper2 int_of_str
           (Some (flipper2_buys (Limits.events st), [])) limits (fun _ => now) m)
  = erase (Limits.compute_remaining_limits int_of_str str_of fs path limits
             (fun _ => now) n).
Proof.
  intros Hl Hok.
  rewrite (compute_loaded _ _ _ _ _ _ _ _ _ Hl).
  unfold Flipper2.compute_remaining_from_flipper2.
  rewrite M_bind_run. unfold time_now. cbv beta iota zeta.
  destruct (for_each_flipper2_buys (now - Flipper2.FOUR_HOURS_SEC) ∅ _ Hok)
    as (u & Hu & Hlook).
  rewrite M_bind_run, Hu. cbn [lift Flipper2.for_each].
  rewrite M_bind_run. cbn [lift].
  change (Ret (remaining_of u limits)
          = Ret (remaining_of
                   (foldl (Limits.count_event (now - Limits.FOUR_HOURS_SEC)) ∅
                      (Limits.events st)) limits)).
  f_equal. apply remaining_of_ext. intros i.
  rewrite Hlook, foldl_count_event, foldl_bump_lookup. reflexivity.
Qed.

(** ** The callers *)

(** X18.  In the monitor, a Flipper2 directory shadows the local log:
    when the directory is there and some item has a known limit, the
    allowance map handed to the engine is the one the Flipper2 adapter
    returns, also when its logs are empty, and the local log is not
    read. *)
Theorem flipper2_shadows_local_log logs fu_path fs limits_file buy_limits i C
    (c : clock) n :
  buy_limits !! i = Some (Some C) →
  tui_remaining_limits int_of_str str_of (Some (Some logs)) fu_path fs limits_file
    buy_limits c n
  = Flipper2.compute_remaining_from_flipper2 int_of_str (Some logs) buy_limits c n.
Proof.
  intros Hi. unfold tui_remaining_limits.
  destruct logs as [buys flips].
  rewrite M_bind_run, M_bind_run.
  destruct (Flipper2.compute_remaining_from_flipper2 int_of_str
              (Some (buys, flips)) buy_limits c n) as [[r n']|e] eqn:E;
    [|reflexivity].
  destruct (flipper2_allowance _ _ _ _ _ _ _ _ E) as (ps & _ & Hr).
  assert (Hne : r ≠ ∅).
  { intros ->. specialize (Hr i). rewrite lookup_empty in Hr.
    unfold allowance in Hr. rewrite Hi in Hr. discriminate. }
  cbn. rewrite bool_decide_eq_false_2 by exact Hne. reflexivity.
Qed.

(** X19.  An item whose purchases in the window reach its limit is not
    suggested: when the allowance map of the local accountant, computed
    for the limits of the catalog, is handed to the engine, no suggestion
    is for an item whose limit is at most the units bought in the last
    four hours. *)
Theorem spent_allowance_excludes fs path a universe (c : clock)
    n0 st n1 r n2 out n3 i C :
  Limits.load_state int_of_str str_of fs path c n0 = Ret (st, n1) →
  Limits.compute_remaining_limits int_of_str str_of fs path
    (buy_limits_of (mapping a)) c n0 = Ret (r, n2) →
  mapping a !! i ≫= WikiItem.buy_limit = Some C →
  C ≤ units i (omap (purchase (c n1 - Limits.FOUR_HOURS_SEC)) (Limits.events st)) →
  build_suggestions (with_remaining_limits r a) universe c n2 = Ret (out, n3) →
  excluded i out.
Proof.
  intros Hl Hc Hi HC Hrun s Hs Hid.
  rewrite (compute_loaded _ _ _ _ _ _ _ _ _ Hl) in Hc. inversion Hc; subst r n2.
  clear Hc.
  destruct (build_suggestions_elem _ _ _ _ _ _ _ Hrun Hs) as (j & m1 & m2 & Hj).
  apply build_suggestions_item_Some in Hj.
  destruct Hj as (m & bb & bs & lv & hv & _ & _ & He).
  destruct (emitted_within_constraints _ _ _ _ _ _ _ He)
    as [(_ & Hq & _ & _ & _ & Hrem) _].
  specialize (Hrem _ 0 eq_refl). rewrite Hid in Hrem.
  assert (0 < 0); [|lia].
  assert (quantity s ≤ 0); [|lia].
  apply Hrem.
  rewrite remaining_of_allowance, foldl_count_event, foldl_bump_lookup, lookup_empty.
  unfold allowance, buy_limits_of. rewrite lookup_fmap.
  destruct (mapping a !! i) as [it|]; [|discriminate]. cbn in Hi |- *.
  rewrite Hi. f_equal. lia.
Qed.
End Agreement.

Lemma accountants_agree_witness :
  erase (Flipper2.compute_remaining_from_flipper2 (fun _ => None)
           (Some (flipper2_buys [bought_event 5 30], [])) {[ 5 := Some 100 ]}
           (fun _ => 1700000000) 0%nat)
  = erase (Limits.compute_remaining_limits (fun _ => None) (fun _ => "")
             (log_of 5 30) "limits.json" {[ 5 := Some 100 ]}
             (fun _ => 1700000000) 0%nat).
Proof.
  apply (accountants_agree (fun _ => None) (fun _ => "") (log_of 5 30) "limits.json"
           {[ 5 := Some 100 ]} 1700000000 0%nat
           {| Limits.events := [bought_event 5 30]; Limits.version := 1 |}
           1%nat 0%nat).
  - vm_compute. reflexivity.
  - repeat constructor; cbn; lia.
Defined.

Lemma flipper2_shadows_local_log_witness :
  tui_remaining_limits (fun _ => None) (fun _ => "")
    (Some (Some ([], []))) true (log_of 5 30) "limits.json"
    {[ 5 := Some 100 ]} (fun _ => 1700000000) 0%nat
  = Flipper2.compute_remaining_from_flipper2 (fun _ => None)
      (Some ([], [])) {[ 5 := Some 100 ]} (fun _ => 1700000000) 0%nat.
Proof.
  apply (flipper2_shadows_local_log (fun _ => None) (fun _ => "")
           ([], []) true (log_of 5 30) "limits.json" {[ 5 := Some 100 ]} 5 100).
  vm_compute. reflexivity.
Defined.

Lemma spent_allowance_excludes_witness : excluded 1 [].
Proof.
  apply (spent_allowance_excludes (fun _ => None) (fun _ => "")
           (log_of 1 50) "limits.json"
           (scenario 1700000000 "Item" "latest" "both" ten ten Float.zero 10)
           [1] (fun _ => 1700000000) 0%nat
           {| Limits.events := [bought_event 1 50]; Limits.version := 1 |} 1%nat
           {[ 1 := 0 ]} 2%nat [] 3%nat 1 50).
  - vm_compute. reflexivity.
  - vm_compute. reflexivity.
  - reflexivity.
  - vm_compute. discriminate.
  - vm_compute. reflexivity.
Defined.

(** ** What the accountants tolerate *)

Section Tolerance.
Variable int_of_str : string → option Z.
Variable str_of : json → string.

Lemma parse_malformed e :
  malformed e → Limits.parse_event int_of_str str_of e = None.
Proof.
  destruct e; try reflexivity. cbn [malformed Limits.parse_event].
  intros H.
  assert (E : Json.get d "item_id" = JNull)
    by (unfold Json.get; destruct H as [-> | ->]; reflexivity).
  rewrite E. cbn [Json.try_int Json.int].
  destruct (Json.try_int int_of_str (default (JInt 0) (d !! "ts"))); reflexivity.
Qed.

Lemma load_state_dict fs path data l v (c : clock) n :
  String.eqb path "" = false →
  fs !! path = Some (JDict data) →
  data !! "events" = Some (JList l) →
  Json.int int_of_str (default (JInt 1) (data !! "version")) = Ret v →
  Limits.load_state int_of_str str_of fs path c n
  = Ret ({| Limits.events :=
              kept (c n) (omap (Limits.parse_event int_of_str str_of) l);
            Limits.version := v |}, S n).
Proof.
  intros Ep Hf He Hv. unfold Limits.load_state. rewrite Ep, Hf, He.
  cbn [default from_option id Limits.iterate].
  rewrite M_bind_run. cbn [lift]. cbv beta iota zeta.
  rewrite M_bind_run. unfold time_now. cbv beta iota zeta.
  rewrite M_bind_run, Hv. reflexivity.
Qed.

(** X20.  A junk entry in the local log changes nothing: when the log
    file holds an object whose events are a list and whose version is an
    integer, [compute_remaining_limits] returns, and it returns the same
    map for the file without an event that is not an object or has no
    item id. *)
Theorem malformed_events_ignored fs path data l1 junk l2 v limits (c : clock) n :
  fs !! path = Some (JDict data) →
  data !! "events" = Some (JList (l1 ++ junk :: l2)) →
  Json.int int_of_str (default (JInt 1) (data !! "version")) = Ret v →
  malformed junk →
  ∃ r n',
    Limits.compute_remaining_limits int_of_str str_of fs path limits c n
      = Ret (r, n') ∧
    Limits.compute_remaining_limits int_of_str str_of
      (<[path := JDict (with_events (l1 ++ l2) data)]> fs) path limits c n
      = Ret (r, n').
Proof.
  intros Hf He Hv Hj.
  destruct (String.eqb path "") eqn:Ep.
  { unfold Limits.compute_remaining_limits, Limits.load_state. rewrite Ep.
    eexists _, _. split; reflexivity. }
  assert (Hv' : Json.int int_of_str
                  (default (JInt 1) (with_events (l1 ++ l2) data !! "version"))
                = Ret v).
  { unfold with_events. rewrite lookup_insert_ne by discriminate. exact Hv. }
  rewrite (compute_loaded _ _ _ _ _ _ _ _ _
             (load_state_dict _ _ _ _ _ c n Ep Hf He Hv)).
  rewrite (compute_loaded _ _ _ _ _ _ _ _ _
             (load_state_dict _ path _ (l1 ++ l2) _ c n Ep
                (lookup_insert_eq _ _ _) (lookup_insert_eq _ _ _) Hv')).
  rewrite !omap_app. cbn [omap list_omap]. rewrite (parse_malformed _ Hj).
  eexists _, _. split; reflexivity.
Qed.
End Tolerance.

Lemma malformed_events_ignored_witness :
  ∃ r n',
    Limits.compute_remaining_limits (fun _ => None) (fun _ => "")
      {[ "limits.json" :=
           JDict {[ "events" :=
                      JList ([] ++ JStr "junk"
                                :: [Limits.dump_event (bought_event 5 30)]) ]} ]}
      "limits.json" {[ 5 := Some 100 ]} (fun _ => 1700000000) 0%nat
      = Ret (r, n') ∧
    Limits.compute_remaining_limits (fun _ => None) (fun _ => "")
      (<["limits.json" :=
           JDict (with_events ([] ++ [Limits.dump_event (bought_event 5 30)])
                    {[ "events" :=
                         JList ([] ++ JStr "junk"
                                   :: [Limits.dump_event (bought_event 5 30)]) ]})]>
         {[ "limits.json" :=
              JDict {[ "events" :=
                         JList ([] ++ JStr "junk"
                                   :: [Limits.dump_event (bought_event 5 30)]) ]} ]})
      "limits.json" {[ 5 := Some 100 ]} (fun _ => 1700000000) 0%nat
      = Ret (r, n').
Proof.
  apply (malformed_events_ignored (fun _ => None) (fun _ => "") _ "limits.json"
           _ [] (JStr "junk") [Limits.dump_event (bought_event 5 30)] 1).
  - reflexivity.
  - reflexivity.
  - reflexivity.
  - exact I.
Defined.

Lemma or_pick a b : Json.or a b = a ∨ Json.or a b = b.
Proof. unfold Json.or. destruct (Json.truthy a); auto. Qed.

Lemma get_float (d : gmap string json) k x :
  Json.get d k = JFloat x → d !! k = Some (JFloat x).
Proof. unfold Json.get. destruct (d !! k); cbn; [congruence | discriminate]. Qed.

Section Totality.
Variable int_of_str : string → option Z.

Lemma normalize_ts_total v :
  (∀ x, v = JFloat x → finite x) → ∃ t, Flipper2._normalize_ts int_of_str v = Ret t.
Proof.
  intros H. destruct v; cbn [Flipper2._normalize_ts Json.int mbind res_bind];
    try (eexists; reflexivity).
  - specialize (H x eq_refl). destruct x; try contradiction; eexists; reflexivity.
  - destruct (Json.try_int int_of_str (JStr s)); eexists; reflexivity.
Qed.

Lemma entry_ts_total d :
  finite_stamps d → ∃ t, entry_ts int_of_str d = Ret t.
Proof.
  intros H. unfold entry_ts. apply normalize_ts_total. intros x Hx.
  assert (Hk : ∃ k, k ∈ ts_keys ∧ Json.get d k = JFloat x).
  { unfold ts_keys.
    destruct (or_pick (Json.get d "ts")
                (Json.or (Json.get d "time")
                   (Json.or (Json.get d "timestamp")
                      (Json.or (Json.get d "createdAt") (Json.get d "createdTime")))))
      as [E|E]; rewrite E in Hx; [exists "ts"; split; [unfold elem_of; repeat constructor|exact Hx]|].
    destruct (or_pick (Json.get d "time")
                (Json.or (Json.get d "timestamp")
                   (Json.or (Json.get d "createdAt") (Json.get d "createdTime"))))
      as [E'|E']; rewrite E' in Hx; [exists "time"; split; [unfold elem_of; repeat constructor|exact Hx]|].
    destruct (or_pick (Json.get d "timestamp")
                (Json.or (Json.get d "createdAt") (Json.get d "createdTime")))
      as [E''|E'']; rewrite E'' in Hx;
      [exists "timestamp"; split; [unfold elem_of; repeat constructor|exact Hx]|].
    destruct (or_pick (Json.get d "createdAt") (Json.get d "createdTime"))
      as [E3|E3]; rewrite E3 in Hx;
      [exists "createdAt" | exists "createdTime"]; (split; [unfold elem_of; repeat constructor|exact Hx]). }
  destruct Hk as (k & Hk & Hg). apply (H k x Hk). apply get_float, Hg.
Qed.

Lemma add_entry_total cutoff d used :
  finite_stamps d → ∃ used', Flipper2.add_entry int_of_str cutoff d used = Ret used'.
Proof.
  intros H. destruct (entry_ts_total d H) as [t Ht]. unfold entry_ts in Ht.
  unfold Flipper2.add_entry. rewrite Ht. cbn [mbind res_bind].
  destruct (Json.or (Json.get d "itemId") _); try (eexists; reflexivity);
    (destruct (Json.try_int int_of_str _); [|eexists; reflexivity]);
    (destruct (t <? cutoff); [eexists; reflexivity|]);
    (destruct (0 <? _); eexists; reflexivity).
Qed.

Lemma add_buy_total cutoff used e :
  tame_buy e → ∃ used', Flipper2.add_buy int_of_str cutoff used e = Ret used'.
Proof.
  destruct e; cbn [tame_buy Flipper2.add_buy]; try (eexists; reflexivity).
  apply add_entry_total.
Qed.

Lemma side_textual a b :
  textual a → textual b → ∃ s, Json.or a (Json.or b (JStr "")) = JStr s.
Proof.
  destruct a, b; cbn [textual]; try contradiction; intros _ _;
    unfold Json.or; cbn [Json.truthy];
    repeat match goal with
    | |- context [String.eqb ?s ""] => destruct (String.eqb s "")
    end; cbn [negb]; eexists; reflexivity.
Qed.

Lemma add_flip_total cutoff used e :
  tame_flip e → ∃ used', Flipper2.add_flip int_of_str cutoff used e = Ret used'.
Proof.
  destruct e; cbn [tame_flip Flipper2.add_flip]; try (eexists; reflexivity).
  intros (Hd & Hs & Ht & Hb).
  destruct (side_textual _ _ Hs Ht) as [side Eside]. rewrite Eside.
  assert (Hside : ∃ used',
    (if String.eqb (Json.lower side) "buy" || String.eqb (Json.lower side) "bought"
        || String.eqb (Json.lower side) "buying"
     then Flipper2.add_entry int_of_str cutoff d used
     else Ret used) = Ret used').
  { destruct (_ || _); [apply add_entry_total, Hd | eexists; reflexivity]. }
  destruct (Json.get d "buy") eqn:Eb; try exact Hside.
  destruct (Json.truthy (JDict d0)); [|exact Hside].
  apply add_entry_total, Hb. unfold Json.get in Eb.
  destruct (d !! "buy"); cbn in Eb; [congruence | discriminate].
Qed.

Lemma for_each_total {A} (P : A → Prop) (body : gmap Z Z → A → res (gmap Z Z)) l used :
  (∀ u x, P x → ∃ u', body u x = Ret u') → Forall P l →
  ∃ used', Flipper2.for_each body used l = Ret used'.
Proof.
  intros Hb H. revert used. induction H as [|x l Hx _ IH]; intros used.
  - eexists. reflexivity.
  - cbn [Flipper2.for_each]. destruct (Hb used x Hx) as [u' ->]. apply IH.
Qed.

(** X21.  The Flipper2 adapter returns, after one sample of the clock,
    on all logs in which no timestamp is an infinite or NaN float and the
    side and type of every flip are strings or absent; the values that
    are not objects, the missing fields and the fields that do not parse
    raise no exception. *)
Theorem flipper2_never_fails buys flips limits (c : clock) n :
  Forall tame_buy buys → Forall tame_flip flips →
  ∃ r, Flipper2.compute_remaining_from_flipper2 int_of_str (Some (buys, flips))
         limits c n = Ret (r, S n).
Proof.
  intros Hb Hf. unfold Flipper2.compute_remaining_from_flipper2.
  rewrite M_bind_run. unfold time_now. cbv beta iota zeta.
  destruct (for_each_total tame_buy
              (Flipper2.add_buy int_of_str (c n - Flipper2.FOUR_HOURS_SEC)) buys ∅
              (fun u x => add_buy_total _ u x) Hb) as [u1 H1].
  destruct (for_each_total tame_flip
              (Flipper2.add_flip int_of_str (c n - Flipper2.FOUR_HOURS_SEC)) flips u1
              (fun u x => add_flip_total _ u x) Hf) as [u2 H2].
  rewrite M_bind_run, H1. cbn [lift]. rewrite M_bind_run, H2.
  eexists. reflexivity.
Qed.
End Totality.

Lemma flipper2_never_fails_witness :
  ∃ r, Flipper2.compute_remaining_from_flipper2 (fun _ => None)
         (Some ([as_flipper2 (bought_event 5 30); JStr "junk"],
                [JDict {[ "side" := JStr "sell" ]}]))
         {[ 5 := Some 100 ]} (fun _ => 1700000000) 0%nat = Ret (r, 1%nat).
Proof.
  apply (flipper2_never_fails (fun _ => None)).
  - repeat constructor. intros k x Hk Hd. exfalso.
    unfold ts_keys in Hk. vm_compute in Hd.
    repeat (apply elem_of_cons in Hk; destruct Hk as [->|Hk]; [vm_compute in Hd; discriminate|]).
    apply elem_of_nil in Hk. exact Hk.
  - repeat constructor; try exact I.
    + intros k x Hk Hd. exfalso. unfold ts_keys in Hk.
      repeat (apply elem_of_cons in Hk; destruct Hk as [->|Hk]; [vm_compute in Hd; discriminate|]).
      apply elem_of_nil in Hk. exact Hk.
    + intros b Hb'. vm_compute in Hb'. discriminate.
Defined.
